(** * dy.py: file analysis workflow and report generator

    A shallow embedding of [src/dy.py].  The module talks to a remote
    analysis service (lookup by hash, upload, polling of the analysis job,
    behaviour lookup) and renders what it gets as a text report with a
    risk verdict.

    Conventions of the embedding.
    - Python [int] is [Z]; Python [float] is IEEE 754 binary64, taken from
      the specification of floating-point arithmetic in [SpecFloat]
      (precision 53, [emax] 1024), so every rounding of the source happens
      here too.
    - Python [str] is [string]; [str.lower] is the ASCII lower-casing.
    - A JSON object read with [d.get(k, default)] or tested with [k in d]
      is a record whose field [k] is an [option]: [None] is the absent key.
      A field that the code indexes with [d[k]] without a test is a plain
      field when the response shape of the service fixes it.  A value whose
      truth the code tests before it reads it ([existing_report], line 50)
      has the values Python takes as false beside the document.
    - An exception is a value of [exn]; code that can raise returns a
      [result].  Code that talks to the outside world runs in the monad [M],
      which threads the chronological trace of everything the run did. *)

From Stdlib Require Import ZArith NArith Bool String Ascii List Lia.
From Stdlib Require Import DecimalString Permutation.
From Stdlib Require Import Floats.SpecFloat.
Import ListNotations.

Local Open Scope string_scope.
Local Open Scope Z_scope.

(** ** Python strings *)

Module PyStr.

(** ["\n"] *)
Definition nl : string := String (ascii_of_nat 10) EmptyString.

(** [s * n] *)
Fixpoint repeat (s : string) (n : nat) : string :=
  match n with
  | O => ""
  | S n' => s ++ repeat s n'
  end.

(** [sep.join(lines)] *)
Definition join (sep : string) (lines : list string) : string :=
  String.concat sep lines.

(** [str(z)] for an [int] *)
Definition of_int (z : Z) : string := NilZero.string_of_int (Z.to_int z).

(** [str(n)] for a non-negative [int] *)
Definition of_N (n : N) : string := of_int (Z.of_N n).

Definition lower_ascii (c : ascii) : ascii :=
  let n := nat_of_ascii c in
  if (Nat.leb 65 n && Nat.leb n 90)%bool then ascii_of_nat (n + 32) else c.

(** [s.lower()] *)
Fixpoint lower (s : string) : string :=
  match s with
  | EmptyString => EmptyString
  | String c s' => String (lower_ascii c) (lower s')
  end.

(** [needle in hay] *)
Fixpoint contains (needle hay : string) : bool :=
  if String.prefix needle hay then true
  else match hay with
       | EmptyString => false
       | String _ hay' => contains needle hay'
       end.

End PyStr.

(** ** Python floats and the numeric operations of the report *)

Inductive exn : Type :=
| ValueError (msg : string)
| FileNotFoundError (msg : string)
| Exception (msg : string)
| TimeoutError (msg : string)
| KeyError (key : string)
| JSONDecodeError
| ZeroDivisionError
| OverflowError.

Inductive result (A : Type) : Type :=
| Ok (a : A)
| Raise (e : exn).
Arguments Ok {A} a.
Arguments Raise {A} e.

Module PyFloat.

Definition prec : Z := 53.
Definition emax : Z := 1024.

Definition float := spec_float.

(** [float(z)], correctly rounded. *)
Definition of_int (z : Z) : float := binary_normalize prec emax z 0 false.

(** An [int] as an exact significand with exponent 0, the operand of the
    integer true division. *)
Definition exact_int (z : Z) : float :=
  match z with
  | Z0 => S754_zero false
  | Zpos p => S754_finite false p 0
  | Zneg p => S754_finite true p 0
  end.

(** [a / b] on two [int]s: the quotient of the two integers rounded once to
    the nearest double; [ZeroDivisionError] when [b] is 0 and
    [OverflowError] when the quotient is too large for a double. *)
Definition truediv (a b : Z) : result float :=
  if b =? 0 then Raise ZeroDivisionError
  else match SFdiv prec emax (exact_int a) (exact_int b) with
       | S754_infinity _ => Raise OverflowError
       | q => Ok q
       end.

(** [x * n] for a [float] and an [int] *)
Definition mul_int (x : float) (n : Z) : float :=
  SFmul prec emax x (of_int n).

(** [x >= n] for a [float] and an [int] *)
Definition ge_int (x : float) (n : Z) : bool :=
  match SFcompare x (of_int n) with
  | Some Gt | Some Eq => true
  | _ => false
  end.

Definition lt_int (x : float) (n : Z) : bool :=
  match SFcompare x (of_int n) with
  | Some Lt => true
  | _ => false
  end.

Definition is_finite (x : float) : bool :=
  match x with
  | S754_zero _ | S754_finite _ _ _ => true
  | _ => false
  end.

(** [num / den] rounded to the nearest integer, ties to even
    ([0 <= num], [0 < den]). *)
Definition round_half_even (num den : Z) : Z :=
  let q := num / den in
  let r := num mod den in
  match 2 * r ?= den with
  | Lt => q
  | Gt => q + 1
  | Eq => if Z.even q then q else q + 1
  end.

(** The absolute value [m * 2^e] in hundredths, rounded as [%.2f] rounds. *)
Definition hundredths (m : positive) (e : Z) : Z :=
  match e with
  | Zneg p => round_half_even (Zpos m * 100) (2 ^ Zpos p)
  | _ => Zpos m * 2 ^ e * 100
  end.

Definition digit (d : Z) : string :=
  String (ascii_of_nat (48 + Z.to_nat d)) EmptyString.

Definition two_digits (n : Z) : string := digit (n / 10) ++ digit (n mod 10).

Definition sign_str (s : bool) : string := if s then "-" else "".

(** [f"{x:.2f}"] *)
Definition format_2f (x : float) : string :=
  match x with
  | S754_nan => "nan"
  | S754_infinity s => sign_str s ++ "inf"
  | S754_zero s => sign_str s ++ "0.00"
  | S754_finite s m e =>
      let h := hundredths m e in
      sign_str s ++ PyStr.of_int (h / 100) ++ "." ++ two_digits (h mod 100)
  end.

End PyFloat.

(** ** Exceptions as values: the [result] monad *)

Class Monad (m : Type -> Type) : Type := {
  ret : forall {A : Type}, A -> m A;
  bind : forall {A B : Type}, m A -> (A -> m B) -> m B
}.

Declare Scope py_scope.
Delimit Scope py_scope with py.
Notation "x <- c1 ;; c2" := (bind c1 (fun x => c2))
  (at level 61, c1 at next level, right associativity) : py_scope.
Notation "c1 ;; c2" := (bind c1 (fun _ => c2))
  (at level 61, right associativity) : py_scope.
Local Open Scope py_scope.

#[export] Instance Monad_result : Monad result := {
  ret := fun A a => Ok a;
  bind := fun A B c k =>
    match c with
    | Ok a => k a
    | Raise e => Raise e
    end
}.

(** [d.get(k, default)] on an optional field *)
Definition dict_get {A : Type} (field : option A) (default : A) : A :=
  match field with
  | Some v => v
  | None => default
  end.

(** [d[k]] on an optional field: [KeyError] when the key is absent *)
Definition dict_index {A : Type} (key : string) (field : option A) : result A :=
  match field with
  | Some v => Ok v
  | None => Raise (KeyError key)
  end.

(** truth value of a list *)
Definition truthy {A : Type} (l : list A) : bool :=
  match l with
  | [] => false
  | _ :: _ => true
  end.

(** [enumerate(l)] *)
Fixpoint enumerate_from {A : Type} (i : nat) (l : list A) : list (nat * A) :=
  match l with
  | [] => []
  | x :: l' => (i, x) :: enumerate_from (S i) l'
  end.

Definition enumerate {A : Type} (l : list A) : list (nat * A) :=
  enumerate_from 0 l.

(** ** The data the program handles *)

(** [results["file_info"]], built by [dy_file] itself. *)
Module Hashes.
Record t : Type := { md5 : string; sha1 : string; sha256 : string }.
End Hashes.

Module FileInfo.
Record t : Type := {
  name : string;
  size : Z;
  path : string;
  analysis_time : string;
  hashes : Hashes.t
}.
End FileInfo.

(** The report document of [GET /files/{hash}] and of
    [GET /analyses/{id}]: [{"data": {"attributes": {"status": ...,
    "stats": {...}}}}]. *)
Module Stats.
Record t : Type := {
  total : option Z;
  malicious : option Z;
  suspicious : option Z;
  undetected : option Z
}.
Definition empty : t :=
  {| total := None; malicious := None; suspicious := None; undetected := None |}.
End Stats.

Module Attrs.
Record t : Type := { status : option string; stats : option Stats.t }.
Definition empty : t := {| status := None; stats := None |}.
End Attrs.

Module ReportData.
Record t : Type := { attributes : option Attrs.t }.
Definition empty : t := {| attributes := None |}.
End ReportData.

Module Report.
Record t : Type := { data : ReportData.t }.
End Report.

(** The value [_get_file_report] returns to [dy_file]: Python's [None], or
    the parsed body of [GET /files/{hash}].  Line 50 tests its truth value
    before anything reads it.  A report document is an object with the key
    ["data"] and counts as true; the other values count as false. *)
Module Lookup.
Inductive t : Type :=
| Null                          (* [None]; the JSON body [null] parses to it *)
| Falsy                         (* [false], [0], [""], [[]] or [{}] *)
| Document (report : Report.t).
End Lookup.

(** The behaviour document of [GET /files/{hash}/behaviours]:
    [{"data": [sandbox, ...]}]. *)
Module Process.
Record t : Type := { name : option string; pid : option Z }.
End Process.

Module Dns.
Record t : Type := { hostname : option string }.
End Dns.

Module Http.
Record t : Type := { url : option string }.
End Http.

Module Network.
Record t : Type := { dns : option (list Dns.t); http : option (list Http.t) }.
Definition empty : t := {| dns := None; http := None |}.
End Network.

Module Registry.
Record t : Type := { keys_set : option (list string) }.
Definition empty : t := {| keys_set := None |}.
End Registry.

Module Files.
Record t : Type := { written : option (list string) }.
Definition empty : t := {| written := None |}.
End Files.

Module SandboxAttrs.
Record t : Type := {
  sandbox_name : option string;
  processes : option (list Process.t);
  network : option Network.t;
  registry : option Registry.t;
  files : option Files.t
}.
Definition empty : t :=
  {| sandbox_name := None; processes := None; network := None;
     registry := None; files := None |}.
End SandboxAttrs.

Module Sandbox.
Record t : Type := { attributes : option SandboxAttrs.t }.
End Sandbox.

Module Behavior.
Record t : Type := { data : list Sandbox.t }.
End Behavior.

(** The [results] dictionary of [dy_file], the argument of
    [_generate_report].  [dynamic_analysis] is [None] when the key holds
    Python's [None], as after a 404 of the behaviour query, or is absent:
    line 207 treats both alike.  [static_analysis] is [None] when the key
    is absent, and only then: [dy_file] always stores a document under it,
    and a key that held Python's [None] would make line 312 fail. *)
Module Results.
Record t : Type := {
  file_info : FileInfo.t;
  static_analysis : option Report.t;
  dynamic_analysis : option Behavior.t;
  report : option string
}.
End Results.

(** ** [list(set(behaviors))]

    A Python set keeps one copy of each element and enumerates them in the
    order of its hash table.  The hash of a [str] is salted per interpreter
    process, so the order is a property of the process, not of the program:
    all the language fixes is that each element of the list comes out
    exactly once. *)
Record SetOrder : Type := {
  list_of_set : list string -> list string;
  list_of_set_NoDup : forall l, NoDup (list_of_set l);
  list_of_set_In : forall l x, In x (list_of_set l) <-> In x l
}.

(** ** [_generate_report] (dy.py, lines 158-335)

    The source appends to one list [report]; each definition below is one
    block of appends, in the order of the source. *)

Import PyStr.

(** Lines 162-176: file information. *)
Definition file_information (file_info : FileInfo.t) : list string :=
  [ repeat "=" 80;
    "MALWARE ANALYSIS REPORT";
    repeat "=" 80;
    "File Name: " ++ FileInfo.name file_info;
    "File Size: " ++ of_int (FileInfo.size file_info) ++ " bytes";
    "File Path: " ++ FileInfo.path file_info;
    "Analysis Time: " ++ FileInfo.analysis_time file_info;
    "";
    "File Hashes:";
    "  MD5:    " ++ Hashes.md5 (FileInfo.hashes file_info);
    "  SHA-1:  " ++ Hashes.sha1 (FileInfo.hashes file_info);
    "  SHA-256: " ++ Hashes.sha256 (FileInfo.hashes file_info);
    "" ].

(** Lines 195-198:
    [if total > 0: detection_rate = (malicious + suspicious) / total * 100]
    [else: detection_rate = 0]. *)
Definition detection_rate (total malicious suspicious : Z)
  : result PyFloat.float :=
  if total >? 0 then
    q <- PyFloat.truediv (malicious + suspicious) total ;;
    ret (PyFloat.mul_int q 100)
  else ret (PyFloat.of_int 0).

(** Line 200. *)
Definition detection_rate_line (rate : PyFloat.float)
    (total malicious suspicious : Z) : string :=
  "Detection Rate: " ++ PyFloat.format_2f rate ++ "% ("
    ++ of_int (malicious + suspicious) ++ "/" ++ of_int total ++ ")".

(** Lines 186-204: the block under [if "stats" in attrs]. *)
Definition detection_statistics (stats : Stats.t) : result (list string) :=
  let total := dict_get (Stats.total stats) 0 in
  let malicious := dict_get (Stats.malicious stats) 0 in
  let suspicious := dict_get (Stats.suspicious stats) 0 in
  let undetected := dict_get (Stats.undetected stats) 0 in
  rate <- detection_rate total malicious suspicious ;;
  ret [ repeat "-" 80;
        "DETECTION STATISTICS";
        repeat "-" 80;
        detection_rate_line rate total malicious suspicious;
        "  Malicious:  " ++ of_int malicious;
        "  Suspicious:  " ++ of_int suspicious;
        "  Undetected:  " ++ of_int undetected;
        "" ].

(** Lines 178-204: static analysis results. *)
Definition static_analysis_results (static_analysis : option Report.t)
  : result (list string) :=
  match static_analysis with
  | Some sa =>
      let static_data := Report.data sa in
      match ReportData.attributes static_data with
      | Some attrs =>
          match Attrs.stats attrs with
          | Some stats => detection_statistics stats
          | None => ret []
          end
      | None => ret []
      end
  | None => ret []
  end.

Definition process_line (proc : Process.t) : string :=
  "  * " ++ dict_get (Process.name proc) "Unknown" ++ " (PID: "
    ++ match Process.pid proc with
       | Some pid => of_int pid
       | None => "N/A"
       end ++ ")".

Definition dns_line (dns : Dns.t) : string :=
  "  * " ++ dict_get (Dns.hostname dns) "Unknown".

Definition http_line (http : Http.t) : string :=
  "  * " ++ dict_get (Http.url http) "Unknown".

Definition item_line (s : string) : string := "  * " ++ s.

(** [if xs: report.append(title); for x in xs[:10]: report.append(line x)] *)
Definition listing {A : Type} (title : string) (line : A -> string)
    (xs : list A) : list string :=
  if truthy xs then (nl ++ title) :: map line (firstn 10 xs) else [].

(** Lines 216-259: the body of the loop over [enumerate(dynamic_data[:3])]. *)
Definition sandbox_report (i : nat) (sandbox : Sandbox.t) : list string :=
  let attrs := dict_get (Sandbox.attributes sandbox) SandboxAttrs.empty in
  let sandbox_id :=
    dict_get (SandboxAttrs.sandbox_name attrs)
             ("Sandbox " ++ of_int (Z.of_nat i + 1)) in
  let processes := dict_get (SandboxAttrs.processes attrs) [] in
  let network := dict_get (SandboxAttrs.network attrs) Network.empty in
  let dns_requests := dict_get (Network.dns network) [] in
  let http_requests := dict_get (Network.http network) [] in
  let registry := dict_get (SandboxAttrs.registry attrs) Registry.empty in
  let keys_set := dict_get (Registry.keys_set registry) [] in
  let files := dict_get (SandboxAttrs.files attrs) Files.empty in
  let files_written := dict_get (Files.written files) [] in
  ["Sandbox: " ++ sandbox_id]
    ++ listing "Processes Created:" process_line processes
    ++ listing "DNS Requests:" dns_line dns_requests
    ++ listing "HTTP Requests:" http_line http_requests
    ++ listing "Registry Keys Modified:" item_line keys_set
    ++ listing "Files Written:" item_line files_written
    ++ [nl ++ repeat "-" 40].

Definition flag_injection : string := "Process injection detected".
Definition flag_persistence : string :=
  "Persistence mechanism detected (autorun registry keys)".
Definition flag_network : string := "Network communication detected".

(** Lines 272-275: the loop over the processes, left at the first hit. *)
Fixpoint check_injection (processes : list Process.t)
    (behaviors : list string) : list string :=
  match processes with
  | [] => behaviors
  | proc :: rest =>
      if contains "injection" (lower (dict_get (Process.name proc) ""))
      then behaviors ++ [flag_injection]
      else check_injection rest behaviors
  end.

(** Lines 280-283: the loop over the registry keys, left at the first hit. *)
Fixpoint check_persistence (keys_set : list string)
    (behaviors : list string) : list string :=
  match keys_set with
  | [] => behaviors
  | key :: rest =>
      if (contains "run" (lower key) || contains "startup" (lower key))%bool
      then behaviors ++ [flag_persistence]
      else check_persistence rest behaviors
  end.

(** Lines 268-289: the body of the loop over all of [dynamic_data]. *)
Definition scan_sandbox (behaviors : list string) (sandbox : Sandbox.t)
  : list string :=
  let attrs := dict_get (Sandbox.attributes sandbox) SandboxAttrs.empty in
  let processes := dict_get (SandboxAttrs.processes attrs) [] in
  let behaviors := check_injection processes behaviors in
  let registry := dict_get (SandboxAttrs.registry attrs) Registry.empty in
  let keys_set := dict_get (Registry.keys_set registry) [] in
  let behaviors := check_persistence keys_set behaviors in
  let network := dict_get (SandboxAttrs.network attrs) Network.empty in
  let http_requests := dict_get (Network.http network) [] in
  if truthy http_requests then behaviors ++ [flag_network] else behaviors.

(** Lines 266-289: [behaviors] when the scan is over. *)
Definition scan_behaviors (dynamic_data : list Sandbox.t) : list string :=
  fold_left scan_sandbox dynamic_data [].

Definition no_behaviors_line : string :=
  "  * No significant suspicious behaviors detected".

(** Lines 263-299: the behavioural summary. *)
Definition behavioral_summary (order : SetOrder) (dynamic_data : list Sandbox.t)
  : list string :=
  let behaviors := scan_behaviors dynamic_data in
  let behaviors := list_of_set order behaviors in
  (nl ++ "Behavioral Summary:")
    :: (if truthy behaviors then map item_line behaviors
        else [no_behaviors_line]).

Definition no_dynamic_data_line : string :=
  "No dynamic analysis data available for this file".

Definition dynamic_header : list string :=
  [repeat "-" 80; "DYNAMIC ANALYSIS RESULTS"; repeat "-" 80].

(** Lines 206-304: dynamic analysis results. *)
Definition dynamic_analysis_results (order : SetOrder)
    (dynamic_analysis : option Behavior.t) : list string :=
  match dynamic_analysis with
  | Some da =>
      let dynamic_data := Behavior.data da in
      if truthy dynamic_data then
        dynamic_header
          ++ flat_map (fun '(i, sandbox) => sandbox_report i sandbox)
                      (enumerate (firstn 3 dynamic_data))
          ++ (if (truthy dynamic_data
                  && (Z.of_nat (length dynamic_data) >? 0))%bool
              then behavioral_summary order dynamic_data
              else [])
      else []
  | None => dynamic_header ++ [no_dynamic_data_line]
  end.

Definition HIGH_RISK : string := "HIGH RISK - This file is likely malicious".
Definition MEDIUM_RISK : string :=
  "MEDIUM RISK - This file is suspicious and requires further investigation".
Definition LOW_RISK : string :=
  "LOW RISK - This file appears to be clean, but exercise caution".
Definition UNKNOWN_RISK : string :=
  "UNKNOWN RISK - Insufficient data to determine risk level".

(** Lines 320-330: the verdict from the three counts. *)
Definition verdict_of (total malicious suspicious : Z) : result string :=
  if total >? 0 then
    q <- PyFloat.truediv (malicious + suspicious) total ;;
    let detection_rate := PyFloat.mul_int q 100 in
    if PyFloat.ge_int detection_rate 50 then ret HIGH_RISK
    else if PyFloat.ge_int detection_rate 10 then ret MEDIUM_RISK
    else ret LOW_RISK
  else ret UNKNOWN_RISK.

(** Lines 312-314: the [stats] object the verdict reads, each level with its
    empty default; the default of [.get("static_analysis", {})] is that of
    the absent key. *)
Definition verdict_stats (static_analysis : option Report.t) : Stats.t :=
  let static_data :=
    match static_analysis with
    | Some sa => Report.data sa
    | None => ReportData.empty
    end in
  let attrs := dict_get (ReportData.attributes static_data) Attrs.empty in
  dict_get (Attrs.stats attrs) Stats.empty.

(** Lines 312-330. *)
Definition overall_verdict (static_analysis : option Report.t)
  : result string :=
  let stats := verdict_stats static_analysis in
  let total := dict_get (Stats.total stats) 0 in
  let malicious := dict_get (Stats.malicious stats) 0 in
  let suspicious := dict_get (Stats.suspicious stats) 0 in
  verdict_of total malicious suspicious.

Definition conclusion_header : list string :=
  [nl ++ repeat "=" 80; "CONCLUSION"; repeat "=" 80].

(** The list [report] just before it is joined (line 335). *)
Definition report_lines (order : SetOrder) (analysis_results : Results.t)
  : result (list string) :=
  let report := file_information (Results.file_info analysis_results) in
  static <- static_analysis_results
              (Results.static_analysis analysis_results) ;;
  let report := (report ++ static)%list in
  let report :=
    (report ++ dynamic_analysis_results order
                 (Results.dynamic_analysis analysis_results))%list in
  let report := (report ++ conclusion_header)%list in
  verdict <- overall_verdict (Results.static_analysis analysis_results) ;;
  let report := (report ++ [verdict])%list in
  ret report.

Definition _generate_report (order : SetOrder) (analysis_results : Results.t)
  : result string :=
  report <- report_lines order analysis_results ;;
  ret (join nl report).

(** ** The outside world

    The run of [dy_file] prints, sleeps and sends requests.  The trace lists
    these events in the order they happen.  The remote service and the local
    machine are parameters: the service answers a request knowing all that
    happened before it, so its answers may change from one poll to the
    next.  A request always gets an answer (transport failures of the HTTP
    client are not part of the model). *)

Module Response.
Record t (J : Type) : Type := {
  status_code : Z;
  text : string;
  json : option J      (* [None]: the body is not a JSON document *)
}.
Arguments status_code {J} _.
Arguments text {J} _.
Arguments json {J} _.
End Response.

(** The answer of [POST /files]: [{"data": {"id": ...}}]. *)
Module UploadData.
Record t : Type := { id : string }.
End UploadData.

Module UploadReply.
Record t : Type := { data : UploadData.t }.
End UploadReply.

Record Headers : Type := { x_apikey : string; Accept : string }.

Inductive event : Type :=
| Print (line : string)
| Get (url : string) (headers : Headers)
| Post (url : string) (headers : Headers) (file_name : string)
| Sleep (seconds : N).

Definition trace : Type := list event.

(** The remote service.  [requests.get] is split by the endpoint and the
    kind of body it serves: [get_file] is [GET /files/{hash}], [get_report]
    is [GET /analyses/{id}], [get_behaviours] is
    [GET /files/{hash}/behaviours]. *)
Record Remote : Type := {
  get_file : trace -> string -> Headers -> Response.t Lookup.t;
  get_report : trace -> string -> Headers -> Response.t Report.t;
  get_behaviours : trace -> string -> Headers -> Response.t Behavior.t;
  post_file : trace -> string -> Headers -> string -> Response.t UploadReply.t
}.

(** The local machine: environment, file system, clock. *)
Record Host : Type := {
  VT_API_KEY : option string;            (* [os.environ.get('VT_API_KEY')] *)
  basename : string -> string;           (* [os.path.basename] *)
  abspath : string -> string;            (* [os.path.abspath] *)
  getsize : string -> result Z;          (* [os.path.getsize] *)
  isfile : string -> bool;               (* [os.path.isfile] *)
  digests : string -> Hashes.t;          (* the three digests of the content *)
  now : string                           (* [datetime.now().strftime(...)] *)
}.

(** The monad of the workflow: a trace in, a result and the longer trace
    out.  An exception keeps the trace of what happened before it. *)
Definition M (A : Type) : Type := trace -> result A * trace.

#[export] Instance Monad_M : Monad M := {
  ret := fun A a tr => (Ok a, tr);
  bind := fun A B c k tr =>
    match c tr with
    | (Ok a, tr') => k a tr'
    | (Raise e, tr') => (Raise e, tr')
    end
}.

Definition raise {A : Type} (e : exn) : M A := fun tr => (Raise e, tr).

Definition lift {A : Type} (r : result A) : M A := fun tr => (r, tr).

Definition emit (e : event) : M unit := fun tr => (Ok tt, (tr ++ [e])%list).

Definition print (line : string) : M unit := emit (Print line).

Definition sleep (seconds : N) : M unit := emit (Sleep seconds).

(** [response.json()] *)
Definition json_of {J : Type} (response : Response.t J) : M J :=
  match Response.json response with
  | Some doc => ret doc
  | None => raise JSONDecodeError
  end.

Section Workflow.

Variable order : SetOrder.
Variable host : Host.
Variable remote : Remote.

Definition requests_get_file (url : string) (headers : Headers)
  : M (Response.t Lookup.t) :=
  fun tr => (Ok (get_file remote tr url headers), (tr ++ [Get url headers])%list).

Definition requests_get_report (url : string) (headers : Headers)
  : M (Response.t Report.t) :=
  fun tr => (Ok (get_report remote tr url headers), (tr ++ [Get url headers])%list).

Definition requests_get_behaviours (url : string) (headers : Headers)
  : M (Response.t Behavior.t) :=
  fun tr =>
    (Ok (get_behaviours remote tr url headers), (tr ++ [Get url headers])%list).

Definition requests_post (url : string) (headers : Headers)
    (file_name : string) : M (Response.t UploadReply.t) :=
  fun tr =>
    (Ok (post_file remote tr url headers file_name),
     (tr ++ [Post url headers file_name])%list).

(** The four addresses, as the f-strings of lines 101, 114, 134 and 147
    build them. *)
Definition upload_url (base_url : string) : string := base_url ++ "/files".

Definition analysis_url (base_url file_id : string) : string :=
  base_url ++ "/analyses/" ++ file_id.

Definition report_url (base_url file_hash : string) : string :=
  base_url ++ "/files/" ++ file_hash.

Definition behavior_url (base_url file_hash : string) : string :=
  base_url ++ "/files/" ++ file_hash ++ "/behaviours".

(** Lines 75-97. *)
Definition _calculate_file_hash (file_path : string) : M Hashes.t :=
  if negb (isfile host file_path) then
    raise (FileNotFoundError ("The file " ++ file_path ++ " does not exist"))
  else ret (digests host file_path).

(** Lines 99-110. *)
Definition _upload_file (file_path base_url : string) (headers : Headers)
  : M UploadReply.t :=
  let upload_url := upload_url base_url in
  response <- requests_post upload_url headers (basename host file_path) ;;
  if Response.status_code response =? 200 then json_of response
  else raise (Exception ("File upload failed with status code "
                           ++ of_int (Response.status_code response) ++ ": "
                           ++ Response.text response)).

Definition in_progress_line (wait_time : N) (attempt max_attempts : Z)
  : string :=
  "Analysis in progress... waiting " ++ of_N wait_time
    ++ " seconds (attempt " ++ of_int (attempt + 1) ++ "/"
    ++ of_int max_attempts ++ ")".

(** Lines 116-128: [for attempt in range(max_attempts)], [n] iterations
    still to run.  [Some report] is the [return] inside the loop, [None] the
    loop running out. *)
Fixpoint analysis_loop (analysis_url : string) (headers : Headers)
    (max_attempts : Z) (wait_time : N) (n : nat) (attempt : Z)
  : M (option Report.t) :=
  match n with
  | O => ret None
  | S n' =>
      response <- requests_get_report analysis_url headers ;;
      if Response.status_code response =? 200 then
        report <- json_of response ;;
        attributes <- lift (dict_index "attributes"
                              (ReportData.attributes (Report.data report))) ;;
        status <- lift (dict_index "status" (Attrs.status attributes)) ;;
        if String.eqb status "completed" then ret (Some report)
        else
          print (in_progress_line wait_time attempt max_attempts) ;;
          sleep wait_time ;;
          analysis_loop analysis_url headers max_attempts wait_time n'
                        (attempt + 1)
      else raise (Exception ("Failed to get analysis report with status code "
                               ++ of_int (Response.status_code response)
                               ++ ": " ++ Response.text response))
  end.

Definition timeout_message (max_attempts : Z) : string :=
  "Analysis did not complete after " ++ of_int max_attempts ++ " attempts".

(** Lines 112-130; the defaults are [max_attempts=10], [wait_time=30]. *)
Definition _get_analysis_report (file_id base_url : string)
    (headers : Headers) (max_attempts : Z) (wait_time : N) : M Report.t :=
  let analysis_url := analysis_url base_url file_id in
  returned <- analysis_loop analysis_url headers max_attempts wait_time
                (Z.to_nat max_attempts) 0 ;;
  match returned with
  | Some report => ret report
  | None => raise (TimeoutError (timeout_message max_attempts))
  end.

(** Lines 132-143: the parsed body on a 200, whatever it is (line 139), and
    [None] on a 404 (line 141). *)
Definition _get_file_report (base_url : string) (headers : Headers)
    (file_hash : string) : M Lookup.t :=
  let report_url := report_url base_url file_hash in
  response <- requests_get_file report_url headers ;;
  if Response.status_code response =? 200 then json_of response
  else if Response.status_code response =? 404 then ret Lookup.Null
  else raise (Exception ("Failed to get file report with status code "
                           ++ of_int (Response.status_code response) ++ ": "
                           ++ Response.text response)).

(** Lines 145-156. *)
Definition _get_file_behavior (file_hash base_url : string)
    (headers : Headers) : M (option Behavior.t) :=
  let behavior_url := behavior_url base_url file_hash in
  response <- requests_get_behaviours behavior_url headers ;;
  if Response.status_code response =? 200 then
    behavior <- json_of response ;; ret (Some behavior)
  else if Response.status_code response =? 404 then ret None
  else raise (Exception ("Failed to get behavior report with status code "
                           ++ of_int (Response.status_code response) ++ ": "
                           ++ Response.text response)).

Definition base_url : string := "https://www.virustotal.com/api/v3".

Definition no_key_message : string :=
  "VirusTotal API key not provided. Please provide api_key parameter or set VT_API_KEY environment variable.".

(** Lines 20-24. *)
Definition resolve_api_key (api_key : option string) : M string :=
  match api_key with
  | Some key => ret key
  | None =>
      match VT_API_KEY host with
      | Some key => ret key
      | None => raise (ValueError no_key_message)
      end
  end.

(** The truth test of line 50, [if existing_report:], with the document
    when the test holds.  [None] is false, and so is a body that Python
    takes as false. *)
Definition truthy_report (existing_report : Lookup.t) : option Report.t :=
  match existing_report with
  | Lookup.Document report => Some report
  | Lookup.Falsy => None
  | Lookup.Null => None
  end.

(** Lines 50-61: [if existing_report: ... else: upload and poll]. *)
Definition obtain_static_analysis (file_path : string) (headers : Headers)
    (existing_report : Lookup.t) : M Report.t :=
  match truthy_report existing_report with
  | Some report =>
      print "File found in VirusTotal database. Retrieving report..." ;;
      ret report
  | None =>
      print "File not found in VirusTotal database. Uploading for analysis..." ;;
      upload_response <- _upload_file file_path base_url headers ;;
      let analysis_id := UploadData.id (UploadReply.data upload_response) in
      print ("File uploaded successfully. Analysis ID: " ++ analysis_id) ;;
      print "Waiting for analysis to complete..." ;;
      _get_analysis_report analysis_id base_url headers 10 30
  end.

(** Lines 63-73. *)
Definition finish (file_info : FileInfo.t) (headers : Headers)
    (return_report : bool) (static_analysis : Report.t) : M Results.t :=
  print "Retrieving behavioral analysis data..." ;;
  behavior_data <- _get_file_behavior (Hashes.sha256 (FileInfo.hashes file_info))
                     base_url headers ;;
  let results :=
    {| Results.file_info := file_info;
       Results.static_analysis := Some static_analysis;
       Results.dynamic_analysis := behavior_data;
       Results.report := None |} in
  if return_report then
    report <- lift (_generate_report order results) ;;
    ret {| Results.file_info := file_info;
           Results.static_analysis := Some static_analysis;
           Results.dynamic_analysis := behavior_data;
           Results.report := Some report |}
  else ret results.

(** Lines 20-61: everything up to the static analysis. *)
Definition gather (file_path : string) (api_key : option string)
  : M (FileInfo.t * Headers * Report.t) :=
  api_key <- resolve_api_key api_key ;;
  let headers := {| x_apikey := api_key; Accept := "application/json" |} in
  size <- lift (getsize host file_path) ;;
  print "Calculating file hashes..." ;;
  hashes <- _calculate_file_hash file_path ;;
  let file_info :=
    {| FileInfo.name := basename host file_path;
       FileInfo.size := size;
       FileInfo.path := abspath host file_path;
       FileInfo.analysis_time := now host;
       FileInfo.hashes := hashes |} in
  print "Checking if file already exists in VirusTotal database..." ;;
  existing_report <- _get_file_report base_url headers (Hashes.sha256 hashes) ;;
  static_analysis <- obtain_static_analysis file_path headers existing_report ;;
  ret (file_info, headers, static_analysis).

(** Lines 8-73. *)
Definition dy_file (file_path : string) (api_key : option string)
    (return_report : bool) : M Results.t :=
  gathered <- gather file_path api_key ;;
  let '(file_info, headers, static_analysis) := gathered in
  finish file_info headers return_report static_analysis.

End Workflow.


(** ** Vocabulary of the properties *)

(** *** Two interpreter processes

    Two enumeration orders a set can have; both list each element once.  On
    the flags of the report they are the two orders that CPython shows for
    [list(set(behaviors))] under different hash seeds. *)

Definition order_forward : SetOrder :=
  {| list_of_set := nodup string_dec;
     list_of_set_NoDup := fun l => NoDup_nodup string_dec l;
     list_of_set_In := fun l x => nodup_In string_dec l x |}.

Definition order_backward : SetOrder :=
  {| list_of_set := fun l => rev (nodup string_dec l);
     list_of_set_NoDup := fun l => NoDup_rev (NoDup_nodup string_dec l);
     list_of_set_In := fun l x =>
       iff_trans (iff_sym (in_rev (nodup string_dec l) x))
                 (nodup_In string_dec l x) |}.

(** *** What a trace shows *)

Definition is_get (url : string) (e : event) : bool :=
  match e with
  | Get u _ => String.eqb u url
  | _ => false
  end.

Definition is_post (e : event) : bool :=
  match e with
  | Post _ _ _ => true
  | _ => false
  end.

(** The number of [GET] requests sent to [url]. *)
Definition queries (url : string) (tr : trace) : nat :=
  length (filter (is_get url) tr).

(** The number of uploads. *)
Definition uploads (tr : trace) : nat := length (filter is_post tr).

(** The waits, in order, each with its length in seconds. *)
Definition sleeps (tr : trace) : list N :=
  flat_map (fun e => match e with Sleep s => [s] | _ => [] end) tr.

(** *** What the poller sees *)

(** The status a response to a status query reports, if the query succeeded
    and the document has one. *)
Definition reported_status (response : Response.t Report.t) : option string :=
  if Response.status_code response =? 200 then
    match Response.json response with
    | Some report =>
        match ReportData.attributes (Report.data report) with
        | Some attributes => Attrs.status attributes
        | None => None
        end
    | None => None
    end
  else None.

(** The query succeeded and reports a status other than ["completed"]. *)
Definition pending (response : Response.t Report.t) : bool :=
  match reported_status response with
  | Some status => negb (String.eqb status "completed")
  | None => false
  end.

(** The query succeeded and reports the status ["completed"]. *)
Definition completed (response : Response.t Report.t) : bool :=
  match reported_status response with
  | Some status => String.eqb status "completed"
  | None => false
  end.

(** What one attempt that finds the analysis still running adds to the
    trace, and [n] such attempts in a row from attempt number [attempt]. *)
Definition pending_round (url : string) (headers : Headers)
    (max_attempts : Z) (wait_time : N) (attempt : Z) : trace :=
  [ Get url headers;
    Print (in_progress_line wait_time attempt max_attempts);
    Sleep wait_time ].

Fixpoint pending_rounds (url : string) (headers : Headers)
    (max_attempts : Z) (wait_time : N) (attempt : Z) (n : nat) : trace :=
  match n with
  | O => []
  | S n' =>
      (pending_round url headers max_attempts wait_time attempt
         ++ pending_rounds url headers max_attempts wait_time (attempt + 1) n')%list
  end.

(** *** A scripted service and sample documents *)

Definition respond_ok {J : Type} (doc : J) : Response.t J :=
  {| Response.status_code := 200; Response.text := ""; Response.json := Some doc |}.

Definition respond_error {J : Type} (code : Z) (body : string) : Response.t J :=
  {| Response.status_code := code; Response.text := body; Response.json := None |}.

Definition report_of (status : option string) (stats : option Stats.t)
  : Report.t :=
  {| Report.data :=
       {| ReportData.attributes :=
            Some {| Attrs.status := status; Attrs.stats := stats |} |} |}.

Definition stats_of (total malicious suspicious undetected : Z) : Stats.t :=
  {| Stats.total := Some total; Stats.malicious := Some malicious;
     Stats.suspicious := Some suspicious; Stats.undetected := Some undetected |}.

(** A service that follows a script: one answer to the lookup, one to the
    upload, one to the behaviour query, and an answer to a status query that
    depends on how many status queries came before it. *)
Definition scripted (lookup : Response.t Lookup.t)
    (upload : Response.t UploadReply.t)
    (status_at : nat -> Response.t Report.t)
    (behaviours : Response.t Behavior.t) : Remote :=
  {| get_file := fun _ _ _ => lookup;
     get_report := fun tr url _ => status_at (queries url tr);
     get_behaviours := fun _ _ _ => behaviours;
     post_file := fun _ _ _ _ => upload |}.

Definition sample_headers : Headers :=
  {| x_apikey := "k3y"; Accept := "application/json" |}.

Definition sample_stats : Stats.t := stats_of 10 3 2 5.

Definition queued_report : Report.t := report_of (Some "queued") None.

Definition completed_report : Report.t :=
  report_of (Some "completed") (Some sample_stats).

Definition job_reply : UploadReply.t :=
  {| UploadReply.data := {| UploadData.id := "job-1" |} |}.

(** The analysis never completes. *)
Definition remote_never : Remote :=
  scripted (respond_error 404 "not found") (respond_ok job_reply)
           (fun _ => respond_ok queued_report)
           (respond_error 404 "not found").

(** The analysis is complete at the third status query. *)
Definition remote_third : Remote :=
  scripted (respond_error 404 "not found") (respond_ok job_reply)
           (fun i => if (i <? 2)%nat then respond_ok queued_report
                     else respond_ok completed_report)
           (respond_error 404 "not found").

(** *** The run of [dy_file] up to the lookup *)

(** The key the run uses: the argument, else the environment (lines 21-24). *)
Definition key_of (host : Host) (api_key : option string) : option string :=
  match api_key with
  | Some key => Some key
  | None => VT_API_KEY host
  end.

Definition headers_of (key : string) : Headers :=
  {| x_apikey := key; Accept := "application/json" |}.

Definition file_info_of (host : Host) (file_path : string) (size : Z)
  : FileInfo.t :=
  {| FileInfo.name := basename host file_path;
     FileInfo.size := size;
     FileInfo.path := abspath host file_path;
     FileInfo.analysis_time := now host;
     FileInfo.hashes := digests host file_path |}.

(** What the run has printed when it sends the lookup. *)
Definition lookup_trace : trace :=
  [ Print "Calculating file hashes...";
    Print "Checking if file already exists in VirusTotal database..." ].

(** The trace when the lookup has found no report and the upload starts. *)
Definition miss_trace (host : Host) (file_path key : string) : trace :=
  (lookup_trace
     ++ [ Get (report_url base_url (Hashes.sha256 (digests host file_path)))
              (headers_of key);
          Print "File not found in VirusTotal database. Uploading for analysis..." ])%list.

(** The trace when the upload has returned the job [analysis_id] and the
    polling starts. *)
Definition uploaded_trace (host : Host) (file_path key analysis_id : string)
  : trace :=
  (miss_trace host file_path key
     ++ [ Post (upload_url base_url) (headers_of key) (basename host file_path);
          Print ("File uploaded successfully. Analysis ID: " ++ analysis_id);
          Print "Waiting for analysis to complete..." ])%list.

(** The answers of the service to the lookup and to the upload of a run. *)
Definition lookup_response (host : Host) (remote : Remote)
    (file_path key : string) : Response.t Lookup.t :=
  get_file remote lookup_trace
    (report_url base_url (Hashes.sha256 (digests host file_path)))
    (headers_of key).

(** The lookup has found no report: it got a 404, or a 200 whose body
    Python takes as false. *)
Definition lookup_missed (lookup : Response.t Lookup.t) : Prop :=
  Response.status_code lookup = 404
  \/ (Response.status_code lookup = 200
      /\ (Response.json lookup = Some Lookup.Null
          \/ Response.json lookup = Some Lookup.Falsy)).

Definition upload_response (host : Host) (remote : Remote)
    (file_path key : string) : Response.t UploadReply.t :=
  post_file remote (miss_trace host file_path key) (upload_url base_url)
    (headers_of key) (basename host file_path).

(** A machine with the file [/tmp/sample.bin] and a key in the
    environment. *)
Definition sample_host : Host :=
  {| VT_API_KEY := Some "k3y";
     basename := fun _ => "sample.bin";
     abspath := fun p => p;
     getsize := fun _ => Ok 2048;
     isfile := fun _ => true;
     digests := fun _ =>
       {| Hashes.md5 := "d41d8"; Hashes.sha1 := "da39a"; Hashes.sha256 := "abc123" |};
     now := "2024-05-01 12:00:00" |}.

(** The number of status queries of a trace, whatever the job. *)
Definition status_queries (tr : trace) : nat :=
  length (filter (fun e => match e with
                           | Get u _ => contains "/analyses/" u
                           | _ => false
                           end) tr).

(** The lookup finds nothing and the upload is refused. *)
Definition remote_upload_refused : Remote :=
  scripted (respond_error 404 "not found")
           (respond_error 429 "quota exceeded")
           (fun _ => respond_ok completed_report)
           (respond_error 404 "not found").

(** The lookup finds a report. *)
Definition remote_known : Remote :=
  scripted (respond_ok (Lookup.Document completed_report))
           (respond_ok job_reply)
           (fun _ => respond_ok completed_report)
           (respond_error 404 "not found").

(** The lookup answers 200 with the body [{}]. *)
Definition remote_empty_body : Remote :=
  scripted (respond_ok Lookup.Falsy) (respond_ok job_reply)
           (fun _ => respond_ok completed_report)
           (respond_error 404 "not found").

(** The lookup fails. *)
Definition remote_lookup_fails : Remote :=
  scripted (respond_error 503 "unavailable") (respond_ok job_reply)
           (fun _ => respond_ok completed_report)
           (respond_error 404 "not found").

(** The lookup finds a report, the behaviour query fails. *)
Definition remote_behaviour_fails : Remote :=
  scripted (respond_ok (Lookup.Document completed_report))
           (respond_ok job_reply)
           (fun _ => respond_ok completed_report)
           (respond_error 500 "internal error").

(** The titles of the five listings of a sandbox block. *)
Definition listing_titles : list string :=
  [ "Processes Created:"; "DNS Requests:"; "HTTP Requests:";
    "Registry Keys Modified:"; "Files Written:" ].

(** The trace of the sample run when the lookup has found a report. *)
Definition hit_trace : trace :=
  (lookup_trace
     ++ [ Get (report_url base_url "abc123") (headers_of "k3y");
          Print "File found in VirusTotal database. Retrieving report..." ])%list.

(** *** The flags, in the words of the specification

    A sandbox record raises "process injection" when the name of one of its
    processes contains "injection" in any letter case, "persistence" when
    one of the registry keys it wrote contains "run" or "startup" in any
    letter case, and "network communication" when it has at least one HTTP
    request. *)

Definition sandbox_attrs (sandbox : Sandbox.t) : SandboxAttrs.t :=
  dict_get (Sandbox.attributes sandbox) SandboxAttrs.empty.

Definition processes_of (sandbox : Sandbox.t) : list Process.t :=
  dict_get (SandboxAttrs.processes (sandbox_attrs sandbox)) [].

Definition keys_set_of (sandbox : Sandbox.t) : list string :=
  dict_get (Registry.keys_set
              (dict_get (SandboxAttrs.registry (sandbox_attrs sandbox))
                        Registry.empty)) [].

Definition http_requests_of (sandbox : Sandbox.t) : list Http.t :=
  dict_get (Network.http
              (dict_get (SandboxAttrs.network (sandbox_attrs sandbox))
                        Network.empty)) [].

Definition names_injection (proc : Process.t) : bool :=
  contains "injection" (lower (dict_get (Process.name proc) "")).

Definition names_autorun (key : string) : bool :=
  (contains "run" (lower key) || contains "startup" (lower key))%bool.

Definition injects (sandbox : Sandbox.t) : bool :=
  existsb names_injection (processes_of sandbox).

Definition persists (sandbox : Sandbox.t) : bool :=
  existsb names_autorun (keys_set_of sandbox).

Definition communicates (sandbox : Sandbox.t) : bool :=
  truthy (http_requests_of sandbox).

(** The flags one sandbox record raises. *)
Definition flags_of (sandbox : Sandbox.t) : list string :=
  ((if injects sandbox then [flag_injection] else [])
     ++ (if persists sandbox then [flag_persistence] else [])
     ++ (if communicates sandbox then [flag_network] else []))%list.

(** The lines of the summary under its title. *)
Definition summary_flags (order : SetOrder) (dynamic_data : list Sandbox.t)
  : list string :=
  let behaviors := list_of_set order (scan_behaviors dynamic_data) in
  if truthy behaviors then map item_line behaviors else [no_behaviors_line].

(** What the detail block of a sandbox record reads. *)
Definition dns_requests_of (sandbox : Sandbox.t) : list Dns.t :=
  dict_get (Network.dns
              (dict_get (SandboxAttrs.network (sandbox_attrs sandbox))
                        Network.empty)) [].

Definition files_written_of (sandbox : Sandbox.t) : list string :=
  dict_get (Files.written
              (dict_get (SandboxAttrs.files (sandbox_attrs sandbox))
                        Files.empty)) [].

Definition sandbox_id_of (i : nat) (sandbox : Sandbox.t) : string :=
  dict_get (SandboxAttrs.sandbox_name (sandbox_attrs sandbox))
           ("Sandbox " ++ of_int (Z.of_nat i + 1)).

(** *** Sample sandbox records *)

Definition sandbox_with (processes : list Process.t) (http : list Http.t)
    (keys_set : list string) : Sandbox.t :=
  {| Sandbox.attributes :=
       Some {| SandboxAttrs.sandbox_name := None;
               SandboxAttrs.processes := Some processes;
               SandboxAttrs.network :=
                 Some {| Network.dns := None; Network.http := Some http |};
               SandboxAttrs.registry :=
                 Some {| Registry.keys_set := Some keys_set |};
               SandboxAttrs.files := None |} |}.

Definition quiet_sandbox : Sandbox.t := sandbox_with [] [] [].

Definition calling_sandbox : Sandbox.t :=
  sandbox_with [] [ {| Http.url := Some "http://evil.example" |} ] [].

Definition injecting_calling_sandbox : Sandbox.t :=
  sandbox_with [ {| Process.name := Some "Injection.exe"; Process.pid := Some 42 |} ]
               [ {| Http.url := Some "http://evil.example" |} ] [].

(** Fifteen records; only the last one has an HTTP request. *)
Definition fifteen_sandboxes : list Sandbox.t :=
  (List.repeat quiet_sandbox 14 ++ [calling_sandbox])%list.

Definition sample_file_info : FileInfo.t :=
  file_info_of sample_host "/tmp/sample.bin" 2048.

(** Results whose one sandbox record raises two flags. *)
Definition two_flag_results : Results.t :=
  {| Results.file_info := sample_file_info;
     Results.static_analysis := Some completed_report;
     Results.dynamic_analysis :=
       Some {| Behavior.data := [injecting_calling_sandbox] |};
     Results.report := None |}.

(** *** The dynamic section, split at the flag lines *)

(** The flag lines of the report: the lines of the behavioural summary
    under its title, when the report has a summary. *)
Definition flag_lines (order : SetOrder) (dynamic_analysis : option Behavior.t)
  : list string :=
  match dynamic_analysis with
  | Some da =>
      if truthy (Behavior.data da)
      then summary_flags order (Behavior.data da)
      else []
  | None => []
  end.

(** The lines of the dynamic section before the flag lines. *)
Definition dynamic_before (dynamic_analysis : option Behavior.t) : list string :=
  match dynamic_analysis with
  | Some da =>
      if truthy (Behavior.data da) then
        (dynamic_header
           ++ flat_map (fun '(i, sandbox) => sandbox_report i sandbox)
                       (enumerate (firstn 3 (Behavior.data da)))
           ++ [(nl ++ "Behavioral Summary:")%string])%list
      else []
  | None => (dynamic_header ++ [no_dynamic_data_line])%list
  end.

(** *** The rate against a threshold, and its two decimals *)

(** [x > n] and [x == n] for a [float] and an [int]. *)
Definition gt_int (x : PyFloat.float) (n : Z) : bool :=
  match SFcompare x (PyFloat.of_int n) with
  | Some Gt => true
  | _ => false
  end.

Definition eq_int (x : PyFloat.float) (n : Z) : bool :=
  match SFcompare x (PyFloat.of_int n) with
  | Some Eq => true
  | _ => false
  end.

(** The three counts the verdict reads. *)
Definition verdict_counts (static_analysis : option Report.t) : Z * Z * Z :=
  let stats := verdict_stats static_analysis in
  (dict_get (Stats.total stats) 0,
   dict_get (Stats.malicious stats) 0,
   dict_get (Stats.suspicious stats) 0).

(** [h] hundredths is the absolute value [m * 2^e] rounded to the nearest
    hundredth: the two differ by half a hundredth at most. *)
Definition nearest_hundredths (m : positive) (e : Z) (h : Z) : Prop :=
  if e <? 0
  then Z.abs (2 * (100 * Zpos m) - 2 * h * 2 ^ (- e)) <= 2 ^ (- e)
  else h = 100 * Zpos m * 2 ^ e.

Definition is_digit (d : Z) : Prop := 0 <= d <= 9.

(** [h] hundredths is what [%.2f] prints for the magnitude of [x]. *)
Definition printed_hundredths (x : PyFloat.float) (h : Z) : Prop :=
  match x with
  | S754_finite _ m e => nearest_hundredths m e h
  | S754_zero _ => h = 0
  | _ => False
  end.

(** *** Doubles *)

(** The exponent of the format of a double, by the position of the leading
    bit. *)
Definition fexp64 (z : Z) : Z := fexp 53 1024 z.

(** A scaling that makes every exponent of a computation on doubles a
    natural number. *)
Definition scale : Z := 1200.

(** The counts of the static report are in range for the rate: the sum of
    [malicious] and [suspicious] is below [2^1000] in magnitude. *)
Definition counts_in_range (static_analysis : option Report.t) : Prop :=
  let '(_, malicious, suspicious) := verdict_counts static_analysis in
  Z.abs (malicious + suspicious) < 2 ^ 1000.

(** *** The verdict, in the words of the specification

    The thresholds on the rate as a number: [rate >= 50] is
    [100 * detected >= 50 * total], and so on, in exact integer
    arithmetic. *)
Definition exact_verdict (total malicious suspicious : Z) : string :=
  let detected := malicious + suspicious in
  if total >? 0 then
    if 100 * detected >=? 50 * total then HIGH_RISK
    else if 100 * detected >=? 10 * total then MEDIUM_RISK
    else LOW_RISK
  else UNKNOWN_RISK.

(** The program and the exact thresholds give the same verdict for
    [detected] detections out of [total]. *)
Definition verdict_agrees (total detected : nat) : bool :=
  match verdict_of (Z.of_nat total) (Z.of_nat detected) 0 with
  | Ok verdict =>
      String.eqb verdict (exact_verdict (Z.of_nat total) (Z.of_nat detected) 0)
  | Raise _ => false
  end.

(** They agree for all totals from 1 to [n] and all numbers of detections
    from 0 to [n]. *)
Definition all_agree (n : nat) : bool :=
  forallb (fun total => forallb (verdict_agrees total) (seq 0 (S n)))
          (seq 1 n).

(** ** Vocabulary of the further properties *)

(** *** Traces *)

Definition is_request (e : event) : bool :=
  match e with
  | Get _ _ | Post _ _ _ => true
  | _ => false
  end.

(** The requests of a trace, in order. *)
Definition requests (tr : trace) : list event := filter is_request tr.

(** The seconds a trace spends in [time.sleep]. *)
Definition slept (tr : trace) : N := fold_right N.add 0%N (sleeps tr).

(** An event the poller of [url] can produce: a query of [url] with the
    headers of the run, a printed line, or a wait of [wait_time] seconds. *)
Definition poll_event (url : string) (headers : Headers) (wait_time : N)
    (e : event) : Prop :=
  match e with
  | Get u h => u = url /\ h = headers
  | Print _ => True
  | Sleep seconds => seconds = wait_time
  | Post _ _ _ => False
  end.

(** A request of the event, if it is one, carries [headers]. *)
Definition carries (headers : Headers) (e : event) : Prop :=
  match e with
  | Get _ h | Post _ h _ => h = headers
  | _ => True
  end.

(** *** Answers that end the polling with an error

    The exception lines 119-128 raise on an answer to a status query that
    neither reports a status nor can be waited on: a status code other than
    200, a body that is no JSON document, a document without
    ["attributes"] or without ["status"]. *)
Definition fatal (response : Response.t Report.t) : option exn :=
  if Response.status_code response =? 200 then
    match Response.json response with
    | None => Some JSONDecodeError
    | Some report =>
        match ReportData.attributes (Report.data report) with
        | None => Some (KeyError "attributes")
        | Some attributes =>
            match Attrs.status attributes with
            | None => Some (KeyError "status")
            | Some _ => None
            end
        end
    end
  else Some (Exception ("Failed to get analysis report with status code "
                          ++ of_int (Response.status_code response) ++ ": "
                          ++ Response.text response)).

(** The third status query is refused. *)
Definition remote_poll_refused : Remote :=
  scripted (respond_error 404 "not found") (respond_ok job_reply)
           (fun i => if (i <? 2)%nat then respond_ok queued_report
                     else respond_error 429 "quota exceeded")
           (respond_error 404 "not found").

(** *** Runs of [dy_file] *)

(** An event a run of [dy_file] on [file_path] with the key [key] can
    produce: a [GET] of the report, of the behaviour or of an analysis job,
    the upload of the file under its base name, all with the headers of the
    key; a wait of 30 seconds; a printed line. *)
Definition workflow_event (host : Host) (file_path key : string) (e : event)
  : Prop :=
  let file_hash := Hashes.sha256 (digests host file_path) in
  match e with
  | Get url headers =>
      headers = headers_of key
      /\ (url = report_url base_url file_hash
          \/ url = behavior_url base_url file_hash
          \/ exists analysis_id, url = analysis_url base_url analysis_id)
  | Post url headers file_name =>
      url = upload_url base_url /\ headers = headers_of key
      /\ file_name = basename host file_path
  | Sleep seconds => seconds = 30%N
  | Print _ => True
  end.

(** The status a report document shows is ["completed"]. *)
Definition shows_completed (report : Report.t) : Prop :=
  exists attributes,
    ReportData.attributes (Report.data report) = Some attributes
    /\ Attrs.status attributes = Some "completed".

(** A machine with the file but no key in the environment. *)
Definition host_without_key : Host :=
  {| VT_API_KEY := None;
     basename := basename sample_host;
     abspath := abspath sample_host;
     getsize := getsize sample_host;
     isfile := isfile sample_host;
     digests := digests sample_host;
     now := now sample_host |}.

(** A machine where the path is a directory: it has a size and is no
    regular file. *)
Definition host_with_directory : Host :=
  {| VT_API_KEY := Some "k3y";
     basename := basename sample_host;
     abspath := abspath sample_host;
     getsize := fun _ => Ok 4096;
     isfile := fun _ => false;
     digests := digests sample_host;
     now := now sample_host |}.

(** *** Reports *)

(** [needle] is a substring of [hay]. *)
Definition substring_of (needle hay : string) : Prop :=
  exists before after, hay = before ++ needle ++ after.

(** Results whose static report counts no engine at all. *)
Definition no_engine_results : Results.t :=
  {| Results.file_info := sample_file_info;
     Results.static_analysis :=
       Some (report_of (Some "completed") (Some (stats_of 0 5 0 0)));
     Results.dynamic_analysis := None;
     Results.report := None |}.

(** ** [_calculate_file_hash], chunk by chunk (dy.py, lines 82-97)

    The workflow above takes the three digests of a file from the machine
    ([digests]).  Here is how lines 82-97 compute them from the bytes of
    the file: three hash objects of [hashlib], fed the same chunks of 4096
    bytes at most. *)

(** A hash object of [hashlib]: [new] is [hashlib.md5()] and the like. *)
Record Hasher : Type := {
  hash_object : Type;
  new : hash_object;
  update : hash_object -> list Byte.byte -> hash_object;
  hexdigest : hash_object -> string
}.

Definition chunk_size : nat := 4096.

(** [f.read(size)] on a regular file open in binary mode; the file object
    is the bytes not read yet.  The result is the bytes read, [size] of
    them unless fewer are left, and the file object after the read. *)
Definition read (size : nat) (f : list Byte.byte)
  : list Byte.byte * list Byte.byte :=
  (firstn size f, skipn size f).

(** Lines 88-92: [for chunk in iter(lambda: f.read(4096), b""): body].
    The loop ends at the first empty read; [fuel] bounds the number of
    reads. *)
Fixpoint for_each_chunk {State : Type}
    (body : State -> list Byte.byte -> State)
    (fuel : nat) (f : list Byte.byte) (s : State) : option State :=
  match fuel with
  | O => None
  | S fuel' =>
      let '(chunk, f') := read chunk_size f in
      match chunk with
      | [] => Some s
      | _ :: _ => for_each_chunk body fuel' f' (body s chunk)
      end
  end.

Section FileHash.

Variables md5 sha1 sha256 : Hasher.

Record hash_objects : Type := {
  md5_hash : hash_object md5;
  sha1_hash : hash_object sha1;
  sha256_hash : hash_object sha256
}.

(** Lines 90-92: the body of the loop. *)
Definition update_all (hashes : hash_objects) (chunk : list Byte.byte)
  : hash_objects :=
  {| md5_hash := update md5 (md5_hash hashes) chunk;
     sha1_hash := update sha1 (sha1_hash hashes) chunk;
     sha256_hash := update sha256 (sha256_hash hashes) chunk |}.

(** Lines 82-97, on the content of the file.  One read more than the file
    has bytes is enough fuel; [None] is the loop running out of it. *)
Definition hash_content (content : list Byte.byte) : option Hashes.t :=
  let hashes :=
    {| md5_hash := new md5; sha1_hash := new sha1; sha256_hash := new sha256 |} in
  match for_each_chunk update_all (S (length content)) content hashes with
  | Some hashes =>
      Some {| Hashes.md5 := hexdigest md5 (md5_hash hashes);
              Hashes.sha1 := hexdigest sha1 (sha1_hash hashes);
              Hashes.sha256 := hexdigest sha256 (sha256_hash hashes) |}
  | None => None
  end.

End FileHash.

(** The digest of [content] fed to a new hash object in one piece. *)
Definition digest (h : Hasher) (content : list Byte.byte) : string :=
  hexdigest h (update h (new h) content).

(** What [hashlib] promises of [update]: feeding two pieces one after the
    other is feeding their concatenation, and feeding nothing changes
    nothing. *)
Definition concatenates (h : Hasher) : Prop :=
  (forall s a b, update h (update h s a) b = update h s (a ++ b)%list)
  /\ (forall s, update h s [] = s).

(** A hash object that sums the bytes modulo [modulus]. *)
Definition checksum (modulus : N) : Hasher :=
  {| hash_object := N;
     new := 0%N;
     update := fun sum chunk =>
       fold_left (fun sum b => ((sum + Byte.to_N b) mod modulus)%N) chunk sum;
     hexdigest := of_N |}.

(** * Properties *)

Local Open Scope list_scope.

(** ** The sections of the report *)

Lemma bind_result {A B : Type} (c : result A) (k : A -> result B) :
  bind c k = match c with
             | Ok a => k a
             | Raise e => Raise e
             end.
Proof. reflexivity. Qed.

(** The list of lines is the four sections in order; it exists when the two
    rate computations raise nothing. *)
Lemma report_lines_sections (order : SetOrder) (analysis_results : Results.t) :
  report_lines order analysis_results
  = match static_analysis_results (Results.static_analysis analysis_results) with
    | Ok static =>
        match overall_verdict (Results.static_analysis analysis_results) with
        | Ok verdict =>
            Ok (file_information (Results.file_info analysis_results)
                  ++ static
                  ++ dynamic_analysis_results order
                       (Results.dynamic_analysis analysis_results)
                  ++ conclusion_header ++ [verdict])
        | Raise e => Raise e
        end
    | Raise e => Raise e
    end.
Proof.
  unfold report_lines. rewrite bind_result.
  destruct (static_analysis_results (Results.static_analysis analysis_results))
    as [static|e]; [|reflexivity].
  rewrite bind_result.
  destruct (overall_verdict (Results.static_analysis analysis_results))
    as [verdict|e]; [|reflexivity].
  cbn [ret Monad_result]. now rewrite <- !app_assoc.
Qed.

Lemma generate_report_lines (order : SetOrder) (analysis_results : Results.t) :
  _generate_report order analysis_results
  = match report_lines order analysis_results with
    | Ok report => Ok (join nl report)
    | Raise e => Raise e
    end.
Proof. reflexivity. Qed.

Ltac sections :=
  rewrite ?generate_report_lines, ?report_lines_sections;
  cbn [Results.file_info Results.static_analysis Results.dynamic_analysis];
  rewrite ?bind_result;
  match goal with
  | |- context [static_analysis_results ?sa] =>
      destruct (static_analysis_results sa) as [?static|?e];
      [|repeat split; reflexivity]
  end;
  rewrite ?bind_result;
  match goal with
  | |- context [overall_verdict ?sa] =>
      destruct (overall_verdict sa) as [?verdict|?e];
      [|repeat split; reflexivity]
  end;
  cbn [ret Monad_result].

(** ** The rate is a finite double

    The rounding of [SpecFloat], followed through the division of two
    integers and the multiplication by 100. *)

Lemma fexp64_eq (z : Z) : fexp64 z = Z.max (z - 53) (-1074).
Proof. reflexivity. Qed.

Lemma shr_1_m (mrs : shr_record) :
  0 <= shr_m mrs -> shr_m (shr_1 mrs) = shr_m mrs / 2.
Proof.
  destruct mrs as [m r s]. cbn [shr_m]. intros Hm.
  destruct m as [|p|p]; [reflexivity| |lia].
  destruct p as [p|p|]; cbn [shr_1 shr_m].
  - rewrite Pos2Z.inj_xI. apply Z.div_unique with 1; lia.
  - rewrite Pos2Z.inj_xO. apply Z.div_unique with 0; lia.
  - reflexivity.
Qed.

Lemma iter_shr_1_m (p : positive) :
  forall mrs, 0 <= shr_m mrs ->
    shr_m (iter_pos shr_1 p mrs) = shr_m mrs / 2 ^ Zpos p.
Proof.
  induction p as [p IH|p IH|]; intros mrs Hm; cbn [iter_pos];
    try pose proof (Z.pow_pos_nonneg 2 (Z.pos p) ltac:(lia) ltac:(lia)) as Hp.
  - assert (H1 : 0 <= shr_m (shr_1 mrs)).
    { rewrite shr_1_m by exact Hm. apply Z.div_pos; lia. }
    assert (H2 : 0 <= shr_m (iter_pos shr_1 p (shr_1 mrs))).
    { rewrite IH by exact H1. apply Z.div_pos; lia. }
    assert (E : 2 ^ Z.pos p~1 = 2 * 2 ^ Z.pos p * 2 ^ Z.pos p).
    { replace (Z.pos p~1) with (Z.succ (Z.pos p + Z.pos p)) by lia.
      rewrite Z.pow_succ_r, Z.pow_add_r by lia. ring. }
    rewrite IH by exact H2. rewrite IH by exact H1.
    rewrite shr_1_m by exact Hm.
    assert (Hpp : 0 < 2 ^ Z.pos p * 2 ^ Z.pos p) by (apply Z.mul_pos_pos; exact Hp).
    rewrite Z.div_div by lia. rewrite Z.div_div by lia.
    rewrite E. f_equal. ring.
  - assert (H2 : 0 <= shr_m (iter_pos shr_1 p mrs)).
    { rewrite IH by exact Hm. apply Z.div_pos; lia. }
    assert (E : 2 ^ Z.pos p~0 = 2 ^ Z.pos p * 2 ^ Z.pos p).
    { replace (Z.pos p~0) with (Z.pos p + Z.pos p) by lia.
      rewrite Z.pow_add_r by lia. ring. }
    rewrite IH by exact H2. rewrite IH by exact Hm.
    rewrite Z.div_div by lia. now rewrite E.
  - rewrite shr_1_m by exact Hm. reflexivity.
Qed.

Lemma digits2_pos_bound (p : positive) :
  Zpos p < 2 ^ Zpos (digits2_pos p).
Proof.
  induction p as [p IH|p IH|]; cbn [digits2_pos].
  - rewrite Pos2Z.inj_succ, Z.pow_succ_r by lia. lia.
  - rewrite Pos2Z.inj_succ, Z.pow_succ_r by lia. lia.
  - reflexivity.
Qed.

Lemma digits2_pos_lower (p : positive) :
  2 ^ (Zpos (digits2_pos p) - 1) <= Zpos p.
Proof.
  induction p as [p IH|p IH|]; cbn [digits2_pos].
  - rewrite Pos2Z.inj_succ.
    replace (Z.succ (Z.pos (digits2_pos p)) - 1)
      with (Z.succ (Z.pos (digits2_pos p) - 1)) by lia.
    rewrite Z.pow_succ_r by lia. lia.
  - rewrite Pos2Z.inj_succ.
    replace (Z.succ (Z.pos (digits2_pos p)) - 1)
      with (Z.succ (Z.pos (digits2_pos p) - 1)) by lia.
    rewrite Z.pow_succ_r by lia. lia.
  - reflexivity.
Qed.

(** [m < 2^k] bounds the number of digits of [m] by [k]. *)
Lemma Zdigits2_le (m k : Z) :
  0 <= m -> 0 <= k -> m < 2 ^ k -> Zdigits2 m <= k.
Proof.
  intros Hm Hk Hlt. destruct m as [|p|p]; [exact Hk| |lia].
  cbn [Zdigits2]. pose proof (digits2_pos_lower p) as Hl.
  destruct (Z_lt_le_dec k (Z.pos (digits2_pos p))) as [Hd|Hd]; [|exact Hd].
  exfalso.
  assert (2 ^ k <= 2 ^ (Z.pos (digits2_pos p) - 1))
    by (apply Z.pow_le_mono_r; lia).
  lia.
Qed.

Lemma shr_m_of_loc (m : Z) (l : location) : shr_m (shr_record_of_loc m l) = m.
Proof. destruct l as [|[]]; reflexivity. Qed.

(** The truncation of a significand to the exponent of its format. *)
Lemma shr_fexp_spec (m e : Z) (l : location) :
  0 <= m ->
  let n := Z.max 0 (fexp64 (Zdigits2 m + e) - e) in
  snd (shr_fexp 53 1024 m e l) = e + n
  /\ shr_m (fst (shr_fexp 53 1024 m e l)) = m / 2 ^ n.
Proof.
  intros Hm n. unfold shr_fexp, shr. fold (fexp64 (Zdigits2 m + e)).
  destruct (fexp64 (Zdigits2 m + e) - e) as [|p|p] eqn:E; subst n; cbn [fst snd].
  - rewrite shr_m_of_loc. change (Z.max 0 0) with 0.
    split; [lia | now rewrite Z.div_1_r].
  - replace (Z.max 0 (Z.pos p)) with (Z.pos p) by lia.
    split; [reflexivity|].
    rewrite iter_shr_1_m; rewrite shr_m_of_loc; [reflexivity | exact Hm].
  - replace (Z.max 0 (Z.neg p)) with 0 by lia.
    rewrite shr_m_of_loc. split; [lia | now rewrite Z.div_1_r].
Qed.

Lemma round_nearest_even_bounds (m : Z) (l : location) :
  m <= round_nearest_even m l <= m + 1.
Proof.
  unfold round_nearest_even. destruct l as [|[]]; try lia.
  destruct (Z.even m); lia.
Qed.

Lemma shift_value_le (m n w : Z) :
  0 <= m -> 0 <= n -> 0 <= w -> m / 2 ^ n * 2 ^ (w + n) <= m * 2 ^ w.
Proof.
  intros Hm Hn Hw. rewrite Z.pow_add_r by lia.
  pose proof (Z.pow_pos_nonneg 2 n ltac:(lia) Hn) as Hpn.
  pose proof (Z.pow_pos_nonneg 2 w ltac:(lia) Hw) as Hpw.
  pose proof (Z.mul_div_le m (2 ^ n) Hpn) as Hle.
  nia.
Qed.

Lemma lt_pow_split (m a b : Z) :
  0 <= a <= b -> m * 2 ^ a < 2 ^ b -> m < 2 ^ (b - a).
Proof.
  intros Hab H.
  replace b with ((b - a) + a) in H by lia.
  rewrite Z.pow_add_r in H by lia.
  pose proof (Z.pow_pos_nonneg 2 a ltac:(lia) ltac:(lia)) as Hpa.
  eapply Z.mul_lt_mono_pos_r; eassumption.
Qed.

Lemma fexp64_mono (x y : Z) : x <= y -> fexp64 x <= fexp64 y.
Proof. rewrite !fexp64_eq. lia. Qed.

(** What the rounding of [mx * 2^ex] returns, when the value is below
    [2^K]: a significand and an exponent whose value is below [2^(K+1)]. *)
Lemma binary_round_aux_bounds (sx : bool) (mx ex : Z) (lx : location) (K : Z) :
  0 <= mx -> - scale <= ex -> ex <= K -> -1021 <= K ->
  mx * 2 ^ (ex + scale) < 2 ^ (K + scale) ->
  exists m2 e2,
    0 <= m2 /\ -1074 <= e2 /\ ex <= e2 /\ e2 <= Z.max ex (K - 52)
    /\ m2 * 2 ^ (e2 + scale) < 2 ^ (K + 1 + scale)
    /\ binary_round_aux 53 1024 sx mx ex lx
       = match m2 with
         | Z0 => S754_zero sx
         | Zpos m => if e2 <=? 971 then S754_finite sx m e2
                     else S754_infinity sx
         | Zneg _ => S754_nan
         end.
Proof.
  intros Hmx Hex HexK HK Hval. unfold scale in *.
  unfold binary_round_aux.
  destruct (shr_fexp_spec mx ex lx Hmx) as [He1 Hm1].
  destruct (shr_fexp 53 1024 mx ex lx) as [mrs1 e1]. cbn [fst snd] in He1, Hm1.
  set (n1 := Z.max 0 (fexp64 (Zdigits2 mx + ex) - ex)) in *.
  set (mr := round_nearest_even (shr_m mrs1) (loc_of_shr_record mrs1)).
  assert (Hmx_lt : mx < 2 ^ (K - ex)).
  { replace (K - ex) with ((K + 1200) - (ex + 1200)) by lia.
    apply lt_pow_split; [lia | exact Hval]. }
  assert (Hd : Zdigits2 mx <= K - ex)
    by (apply Zdigits2_le; [exact Hmx | lia | exact Hmx_lt]).
  assert (HF1 : fexp64 (Zdigits2 mx + ex) <= K - 53).
  { etransitivity; [apply (fexp64_mono _ K); lia|]. rewrite fexp64_eq. lia. }
  assert (HF1' : -1074 <= fexp64 (Zdigits2 mx + ex)) by (rewrite fexp64_eq; lia).
  assert (Hn1 : 0 <= n1) by (unfold n1; lia).
  assert (He1k : e1 <= Z.max ex (K - 53)) by (unfold n1 in *; lia).
  assert (He1l : -1074 <= e1) by (unfold n1 in *; lia).
  assert (He1x : ex <= e1) by lia.
  assert (Hm1pos : 0 <= shr_m mrs1).
  { rewrite Hm1. apply Z.div_pos; [exact Hmx|].
    apply Z.pow_pos_nonneg; lia. }
  assert (Hv1 : shr_m mrs1 * 2 ^ (e1 + 1200) <= mx * 2 ^ (ex + 1200)).
  { rewrite Hm1, He1.
    replace (ex + n1 + 1200) with ((ex + 1200) + n1) by lia.
    apply shift_value_le; lia. }
  pose proof (round_nearest_even_bounds (shr_m mrs1) (loc_of_shr_record mrs1))
    as Hmr. fold mr in Hmr.
  assert (Hmrpos : 0 <= mr) by lia.
  assert (Hpe1 : 2 ^ (e1 + 1200) <= 2 ^ (K + 1200))
    by (apply Z.pow_le_mono_r; lia).
  assert (Hpe1pos : 0 < 2 ^ (e1 + 1200))
    by (apply Z.pow_pos_nonneg; lia).
  assert (Hvr : mr * 2 ^ (e1 + 1200) < 2 ^ (K + 1 + 1200)).
  { replace (K + 1 + 1200) with (Z.succ (K + 1200)) by lia.
    rewrite Z.pow_succ_r by lia. nia. }
  destruct (shr_fexp_spec mr e1 loc_Exact Hmrpos) as [He2 Hm2].
  destruct (shr_fexp 53 1024 mr e1 loc_Exact) as [mrs2 e2].
  cbn [fst snd] in He2, Hm2.
  set (n2 := Z.max 0 (fexp64 (Zdigits2 mr + e1) - e1)) in *.
  assert (Hmr_lt : mr < 2 ^ (K + 1 - e1)).
  { replace (K + 1 - e1) with ((K + 1 + 1200) - (e1 + 1200)) by lia.
    apply lt_pow_split; [lia | exact Hvr]. }
  assert (Hdr : Zdigits2 mr <= K + 1 - e1)
    by (apply Zdigits2_le; [exact Hmrpos | lia | exact Hmr_lt]).
  assert (HF2 : fexp64 (Zdigits2 mr + e1) <= K - 52).
  { etransitivity; [apply (fexp64_mono _ (K + 1)); lia|]. rewrite fexp64_eq. lia. }
  assert (Hn2 : 0 <= n2) by (unfold n2; lia).
  assert (Hm2pos : 0 <= shr_m mrs2).
  { rewrite Hm2. apply Z.div_pos; [exact Hmrpos|].
    apply Z.pow_pos_nonneg; lia. }
  assert (Hv2 : shr_m mrs2 * 2 ^ (e2 + 1200) <= mr * 2 ^ (e1 + 1200)).
  { rewrite Hm2, He2.
    replace (e1 + n2 + 1200) with ((e1 + 1200) + n2) by lia.
    apply shift_value_le; lia. }
  exists (shr_m mrs2), e2.
  split; [exact Hm2pos|].
  split; [unfold n2 in *; lia|].
  split; [unfold n2 in *; lia|].
  split; [unfold n2 in *; lia|].
  split; [lia|].
  change (1024 - 53) with 971. reflexivity.
Qed.

(** The quotient of two positive integers before it is rounded. *)
Lemma div_core_bounds (pa pb : positive) :
  let K := Z.max (Zpos (digits2_pos pa) - Zpos (digits2_pos pb) + 1) (-1021) in
  exists q e l,
    SFdiv_core_binary 53 1024 (Zpos pa) 0 (Zpos pb) 0 = (q, e, l)
    /\ 0 <= q /\ - scale <= e /\ e <= 0 /\ e <= K
    /\ q * 2 ^ (e + scale) < 2 ^ (K + scale).
Proof.
  intros K. unfold SFdiv_core_binary. cbn [Zdigits2].
  set (d1 := Zpos (digits2_pos pa)) in *. set (d2 := Zpos (digits2_pos pb)) in *.
  fold (fexp64 (d1 + 0 - (d2 + 0))).
  replace (d1 + 0 - (d2 + 0)) with (d1 - d2) by lia.
  change (0 - 0) with 0.
  set (e := Z.min (fexp64 (d1 - d2)) 0).
  assert (He : -1074 <= e <= 0 /\ e <= fexp64 (d1 - d2))
    by (unfold e; rewrite fexp64_eq; lia).
  assert (HeK : e <= K) by (unfold K; rewrite fexp64_eq in He; lia).
  set (s := 0 - e).
  assert (Hm' : match s with
                | Z.pos _ => Z.shiftl (Z.pos pa) s
                | 0 => Z.pos pa
                | Z.neg _ => 0
                end = Z.pos pa * 2 ^ s).
  { assert (Hs : 0 <= s) by (unfold s; lia).
    destruct s as [|p|p]; [lia | | lia].
    now rewrite Z.shiftl_mul_pow2 by lia. }
  rewrite Hm'.
  pose proof (Z.div_eucl_eq (Z.pos pa * 2 ^ s) (Z.pos pb) ltac:(lia)) as Hdiv.
  pose proof (Z.mod_pos_bound (Z.pos pa * 2 ^ s) (Z.pos pb) ltac:(lia)) as Hmod.
  unfold Z.modulo in Hmod.
  destruct (Z.div_eucl (Z.pos pa * 2 ^ s) (Z.pos pb)) as [q r].
  exists q, e, (new_location (Z.pos pb) r).
  split; [reflexivity|].
  assert (Hs : 0 <= s <= 1074) by (unfold s; lia).
  pose proof (Z.pow_pos_nonneg 2 s ltac:(lia) ltac:(lia)) as Hps.
  assert (Hq : 0 <= q) by nia.
  split; [exact Hq|]. unfold scale.
  split; [lia|]. split; [lia|]. split; [exact HeK|].
  pose proof (digits2_pos_bound pa) as Ha. fold d1 in Ha.
  pose proof (digits2_pos_lower pb) as Hb. fold d2 in Hb.
  assert (Hd2 : 1 <= d2) by (unfold d2; lia).
  assert (Hd1 : 1 <= d1) by (unfold d1; lia).
  assert (Hqb : q * 2 ^ (d2 - 1) < 2 ^ (d1 + s)).
  { rewrite Z.pow_add_r by lia.
    assert (q * 2 ^ (d2 - 1) <= q * Z.pos pb) by nia.
    assert (q * Z.pos pb <= Z.pos pa * 2 ^ s) by nia.
    assert (Z.pos pa * 2 ^ s < 2 ^ d1 * 2 ^ s) by nia.
    lia. }
  assert (HK : 0 < 2 ^ (K + 1200))
    by (apply Z.pow_pos_nonneg; unfold K; lia).
  destruct (Z_lt_le_dec (d1 + s) (d2 - 1)) as [Hsmall|Hbig].
  - assert (2 ^ (d1 + s) <= 2 ^ (d2 - 1)) by (apply Z.pow_le_mono_r; lia).
    pose proof (Z.pow_pos_nonneg 2 (d2 - 1) ltac:(lia) ltac:(lia)).
    assert (q = 0) by nia. subst q. lia.
  - apply lt_pow_split in Hqb; [|lia].
    replace (d1 + s - (d2 - 1)) with (d1 - d2 + 1 + s) in Hqb by lia.
    assert (Hq2 : q * 2 ^ (e + 1200) < 2 ^ (d1 - d2 + 1 + 1200)).
    { replace (d1 - d2 + 1 + 1200) with ((d1 - d2 + 1 + s) + (e + 1200))
        by (unfold s; lia).
      rewrite (Z.pow_add_r 2 (d1 - d2 + 1 + s) (e + 1200)) by lia.
      pose proof (Z.pow_pos_nonneg 2 (e + 1200) ltac:(lia) ltac:(lia)).
      nia. }
    eapply Z.lt_le_trans; [exact Hq2|].
    apply Z.pow_le_mono_r; unfold K; lia.
Qed.

Lemma of_int_100 : PyFloat.of_int 100 = S754_finite false 7036874417766400 (-46).
Proof. vm_compute. reflexivity. Qed.

Lemma hundred_significand : Z.pos 7036874417766400 = 100 * 2 ^ 46.
Proof. vm_compute. reflexivity. Qed.

(** The quotient of two integers, and a hundred times it, are finite
    doubles when the dividend is below [2^1000]. *)
Lemma div_mul_finite (sa : bool) (pa pb : positive) :
  Z.pos pa < 2 ^ 1000 ->
  let q := SFdiv PyFloat.prec PyFloat.emax (S754_finite sa pa 0) (S754_finite false pb 0) in
  PyFloat.is_finite q = true /\ PyFloat.is_finite (PyFloat.mul_int q 100) = true.
Proof.
  intros Ha. cbv zeta. unfold SFdiv, PyFloat.prec, PyFloat.emax.
  destruct (div_core_bounds pa pb)
    as (q0 & e & l & Ecore & Hq & HeC & He0 & HeK & Hval).
  rewrite Ecore.
  set (K := Z.max (Z.pos (digits2_pos pa) - Z.pos (digits2_pos pb) + 1) (-1021))
    in *.
  assert (HK : -1021 <= K <= 1000).
  { pose proof (Zdigits2_le (Z.pos pa) 1000 ltac:(lia) ltac:(lia) Ha) as Hd.
    cbn [Zdigits2] in Hd. unfold K. lia. }
  destruct (binary_round_aux_bounds (xorb sa false) q0 e l K
              Hq HeC HeK ltac:(lia) Hval)
    as (m2 & e2 & Hm2 & He2l & _ & He2u & Hv2 & Ebr).
  rewrite Ebr.
  destruct m2 as [|m|m]; [| |lia].
  - split; [reflexivity|]. unfold PyFloat.mul_int. rewrite of_int_100. reflexivity.
  - assert ((e2 <=? 971) = true) as -> by (apply Z.leb_le; lia).
    split; [reflexivity|].
    unfold PyFloat.mul_int. rewrite of_int_100. unfold SFmul, PyFloat.prec, PyFloat.emax.
    unfold scale in *.
    assert (Hv3 : Z.pos (m * 7036874417766400) * 2 ^ (e2 + -46 + 1200)
                  < 2 ^ (K + 8 + 1200)).
    { rewrite Pos2Z.inj_mul, hundred_significand.
      replace (K + 8 + 1200) with (7 + (K + 1 + 1200)) by lia.
      rewrite (Z.pow_add_r 2 7 (K + 1 + 1200)) by lia.
      replace (e2 + 1200) with (46 + (e2 + -46 + 1200)) in Hv2 by lia.
      rewrite (Z.pow_add_r 2 46 (e2 + -46 + 1200)) in Hv2 by lia.
      pose proof (Z.pow_pos_nonneg 2 (e2 + -46 + 1200) ltac:(lia) ltac:(lia)).
      pose proof (Z.pow_pos_nonneg 2 46 ltac:(lia) ltac:(lia)).
      change (2 ^ 7) with 128.
      set (w := 2 ^ (e2 + -46 + 1200)) in *. set (p46 := 2 ^ 46) in *.
      set (B := 2 ^ (K + 1 + 1200)) in *.
      nia. }
    destruct (binary_round_aux_bounds (xorb (xorb sa false) false)
                (Z.pos (m * 7036874417766400)) (e2 + -46) loc_Exact (K + 8)
                ltac:(lia) ltac:(unfold scale; lia) ltac:(lia) ltac:(lia) Hv3)
      as (m3 & e3 & Hm3 & _ & _ & He3 & _ & Ebr3).
    rewrite Ebr3.
    destruct m3 as [|m'|m']; [reflexivity| |lia].
    now assert ((e3 <=? 971) = true) as -> by (apply Z.leb_le; lia).
Qed.

Lemma truediv_mul_finite (a b : Z) :
  0 < b -> Z.abs a < 2 ^ 1000 ->
  exists q,
    PyFloat.truediv a b = Ok q
    /\ PyFloat.is_finite q = true
    /\ PyFloat.is_finite (PyFloat.mul_int q 100) = true.
Proof.
  intros Hb Ha. unfold PyFloat.truediv.
  destruct (Z.eqb_spec b 0) as [->|_]; [lia|].
  destruct b as [|pb|pb]; try lia. cbn [PyFloat.exact_int].
  destruct a as [|pa|pa]; cbn [PyFloat.exact_int].
  - exists (S754_zero false). split; [reflexivity|].
    split; [reflexivity|].
    unfold PyFloat.mul_int. rewrite of_int_100. reflexivity.
  - destruct (div_mul_finite false pa pb ltac:(lia)) as [Hq Hm].
    destruct (SFdiv PyFloat.prec PyFloat.emax (S754_finite false pa 0)
                (S754_finite false pb 0)) as [s|s| |s m e];
      try discriminate; eexists; (split; [reflexivity|]); auto.
  - destruct (div_mul_finite true pa pb ltac:(lia)) as [Hq Hm].
    destruct (SFdiv PyFloat.prec PyFloat.emax (S754_finite true pa 0)
                (S754_finite false pb 0)) as [s|s| |s m e];
      try discriminate; eexists; (split; [reflexivity|]); auto.
Qed.

(** The rate of counts in range exists and is finite. *)
Lemma detection_rate_finite (total malicious suspicious : Z) :
  Z.abs (malicious + suspicious) < 2 ^ 1000 ->
  exists rate,
    detection_rate total malicious suspicious = Ok rate
    /\ PyFloat.is_finite rate = true.
Proof.
  intros Hrange. unfold detection_rate.
  destruct (Z.gtb_spec total 0) as [Hpos|Hle].
  - destruct (truediv_mul_finite (malicious + suspicious) total
                ltac:(lia) Hrange) as (q & -> & _ & Hfin).
    exists (PyFloat.mul_int q 100). split; [reflexivity | exact Hfin].
  - exists (S754_zero false). split; reflexivity.
Qed.

(** The verdict of counts in range exists. *)
Lemma verdict_of_total (total malicious suspicious : Z) :
  Z.abs (malicious + suspicious) < 2 ^ 1000 ->
  exists verdict, verdict_of total malicious suspicious = Ok verdict.
Proof.
  intros Hrange. unfold verdict_of.
  destruct (Z.gtb_spec total 0) as [Hpos|Hle]; [|eexists; reflexivity].
  destruct (truediv_mul_finite (malicious + suspicious) total
              ltac:(lia) Hrange) as (q & -> & _ & _).
  rewrite bind_result.
  destruct (PyFloat.ge_int (PyFloat.mul_int q 100) 50);
    [eexists; reflexivity|].
  destruct (PyFloat.ge_int (PyFloat.mul_int q 100) 10); eexists; reflexivity.
Qed.

(** The report of counts in range exists: the generator raises nothing. *)
Lemma report_lines_total (order : SetOrder) (analysis_results : Results.t) :
  counts_in_range (Results.static_analysis analysis_results) ->
  exists report, report_lines order analysis_results = Ok report.
Proof.
  unfold counts_in_range, verdict_counts. intros Hrange.
  rewrite report_lines_sections.
  assert (Hstatic : exists static,
             static_analysis_results
               (Results.static_analysis analysis_results) = Ok static).
  { unfold static_analysis_results, verdict_stats in *.
    destruct (Results.static_analysis analysis_results) as [sa|];
      [|eexists; reflexivity].
    destruct (ReportData.attributes (Report.data sa)) as [attrs|];
      [|eexists; reflexivity].
    cbn [dict_get] in Hrange.
    destruct (Attrs.stats attrs) as [stats|]; [|eexists; reflexivity].
    cbn [dict_get] in Hrange. unfold detection_statistics.
    destruct (detection_rate_finite (dict_get (Stats.total stats) 0)
                (dict_get (Stats.malicious stats) 0)
                (dict_get (Stats.suspicious stats) 0) Hrange)
      as (rate & -> & _).
    eexists. reflexivity. }
  destruct Hstatic as (static & ->).
  unfold overall_verdict.
  destruct (verdict_of_total
              (dict_get (Stats.total (verdict_stats
                 (Results.static_analysis analysis_results))) 0)
              (dict_get (Stats.malicious (verdict_stats
                 (Results.static_analysis analysis_results))) 0)
              (dict_get (Stats.suspicious (verdict_stats
                 (Results.static_analysis analysis_results))) 0) Hrange)
    as (verdict & ->).
  eexists. reflexivity.
Qed.

Lemma generate_report_total (order : SetOrder) (analysis_results : Results.t) :
  counts_in_range (Results.static_analysis analysis_results) ->
  exists text, _generate_report order analysis_results = Ok text.
Proof.
  intros Hrange. rewrite generate_report_lines.
  destruct (report_lines_total order analysis_results Hrange) as (report & ->).
  eexists. reflexivity.
Qed.

(** ** The detection rate and the verdict *)

Lemma of_int_10 : PyFloat.of_int 10 = S754_finite false 5629499534213120 (-49).
Proof. vm_compute. reflexivity. Qed.

Lemma of_int_50 : PyFloat.of_int 50 = S754_finite false 7036874417766400 (-47).
Proof. vm_compute. reflexivity. Qed.

Lemma of_int_0 : PyFloat.of_int 0 = S754_zero false.
Proof. reflexivity. Qed.

(** The order among a value and two positive doubles with different
    exponents. *)
Lemma SFcompare_lt_smaller_exponent (x : spec_float) (m1 m2 : positive)
    (e1 e2 : Z) :
  e1 < e2 ->
  SFcompare x (S754_finite false m1 e1) = Some Lt ->
  SFcompare x (S754_finite false m2 e2) = Some Lt.
Proof.
  intros He.
  destruct x as [s|s| |s m e]; cbn [SFcompare];
    try (destruct s; congruence); try congruence.
  destruct s; [congruence|].
  destruct (Z.compare_spec e e1) as [->| |]; try discriminate.
  - intros _. destruct (Z.compare_spec e1 e2); try reflexivity; lia.
  - intros _. destruct (Z.compare_spec e e2); try reflexivity; lia.
Qed.

Lemma SFcompare_zero_lt_positive (x : spec_float) (m : positive) (e : Z) :
  SFcompare x (S754_zero false) = Some Eq ->
  SFcompare x (S754_finite false m e) = Some Lt.
Proof.
  destruct x as [s|s| |s m' e']; cbn [SFcompare];
    try (destruct s; congruence); congruence.
Qed.

(** A rate below 10 is below 50. *)
Lemma lt_10_lt_50 (rate : PyFloat.float) :
  PyFloat.lt_int rate 10 = true -> PyFloat.lt_int rate 50 = true.
Proof.
  unfold PyFloat.lt_int. rewrite of_int_10, of_int_50.
  destruct (SFcompare rate (S754_finite false 5629499534213120 (-49)))
    as [[]|] eqn:E; try discriminate.
  intros _.
  rewrite (SFcompare_lt_smaller_exponent rate _ 7036874417766400 (-49) (-47)
             ltac:(lia) E).
  reflexivity.
Qed.

Lemma lt_not_ge (rate : PyFloat.float) (n : Z) :
  PyFloat.lt_int rate n = true -> PyFloat.ge_int rate n = false.
Proof.
  unfold PyFloat.lt_int, PyFloat.ge_int.
  destruct (SFcompare rate (PyFloat.of_int n)) as [[]|]; congruence.
Qed.

(** A rate equal to 0 is below 10. *)
Lemma eq_0_lt_10 (rate : PyFloat.float) :
  eq_int rate 0 = true -> PyFloat.lt_int rate 10 = true.
Proof.
  unfold eq_int, PyFloat.lt_int. rewrite of_int_0, of_int_10.
  destruct (SFcompare rate (S754_zero false)) as [[]|] eqn:E;
    try discriminate.
  intros _. now rewrite (SFcompare_zero_lt_positive rate _ _ E).
Qed.

(** The verdict of a rate, as the two tests of lines 323-328 decide it. *)
Lemma verdict_of_rate (total malicious suspicious : Z) (rate : PyFloat.float) :
  total > 0 ->
  detection_rate total malicious suspicious = Ok rate ->
  verdict_of total malicious suspicious
  = Ok (if PyFloat.ge_int rate 50 then HIGH_RISK
        else if PyFloat.ge_int rate 10 then MEDIUM_RISK
        else LOW_RISK).
Proof.
  intros Hpos. unfold detection_rate, verdict_of.
  assert ((total >? 0) = true) as -> by (apply Z.gtb_lt; lia).
  rewrite !bind_result.
  destruct (PyFloat.truediv (malicious + suspicious) total) as [q|e];
    [|discriminate].
  cbn [ret Monad_result]. intros [= <-].
  destruct (PyFloat.ge_int (PyFloat.mul_int q 100) 50); [reflexivity|].
  destruct (PyFloat.ge_int (PyFloat.mul_int q 100) 10); reflexivity.
Qed.

(** What the table of agreements says, entry by entry. *)
Lemma all_agree_spec (n : nat) :
  all_agree n = true ->
  forall total detected : nat,
    (1 <= total <= n)%nat -> (detected <= n)%nat ->
    verdict_agrees total detected = true.
Proof.
  unfold all_agree. intros H total detected Ht Hd.
  rewrite forallb_forall in H.
  specialize (H total ltac:(apply in_seq; lia)).
  rewrite forallb_forall in H.
  apply H. apply in_seq. lia.
Qed.

(** The thresholds of the program on the rounded rate are the thresholds on
    the exact rate, for every total up to 200 and up to 200 detections:
    checked case by case. *)
Lemma all_agree_200 : all_agree 200 = true.
Proof. vm_compute. reflexivity. Qed.

Lemma verdict_of_sum (total malicious suspicious : Z) :
  verdict_of total malicious suspicious
  = verdict_of total (malicious + suspicious) 0.
Proof. unfold verdict_of. now rewrite Z.add_0_r. Qed.

Lemma exact_verdict_sum (total malicious suspicious : Z) :
  exact_verdict total malicious suspicious
  = exact_verdict total (malicious + suspicious) 0.
Proof. unfold exact_verdict. now rewrite Z.add_0_r. Qed.

Lemma verdict_of_exact (total malicious suspicious : Z) :
  0 < total <= 200 ->
  0 <= malicious + suspicious <= 200 ->
  verdict_of total malicious suspicious
  = Ok (exact_verdict total malicious suspicious).
Proof.
  intros Ht Hd. rewrite verdict_of_sum, exact_verdict_sum.
  pose proof (all_agree_spec 200 all_agree_200 (Z.to_nat total)
                (Z.to_nat (malicious + suspicious))
                ltac:(lia) ltac:(lia)) as H.
  unfold verdict_agrees in H. rewrite !Z2Nat.id in H by lia.
  destruct (verdict_of total (malicious + suspicious) 0) as [verdict|e];
    [|discriminate].
  apply String.eqb_eq in H. now subst.
Qed.



(** ** The detection rate and its line *)

Lemma round_half_even_nearest (num den : Z) :
  0 <= num -> 0 < den ->
  0 <= PyFloat.round_half_even num den
  /\ Z.abs (2 * num - 2 * PyFloat.round_half_even num den * den) <= den.
Proof.
  intros Hnum Hden. unfold PyFloat.round_half_even.
  pose proof (Z.div_mod num den ltac:(lia)) as E.
  pose proof (Z.mod_pos_bound num den Hden) as Hr.
  pose proof (Z.div_pos num den Hnum Hden) as Hq.
  set (q := num / den) in *. set (r := num mod den) in *.
  destruct (Z.compare_spec (2 * r) den) as [H|H|H].
  - destruct (Z.even q); split; nia.
  - split; nia.
  - split; nia.
Qed.

Lemma hundredths_nearest (m : positive) (e : Z) :
  0 <= PyFloat.hundredths m e
  /\ nearest_hundredths m e (PyFloat.hundredths m e).
Proof.
  unfold nearest_hundredths, PyFloat.hundredths.
  destruct e as [|p|p].
  - change (0 <? 0) with false. change (2 ^ 0) with 1. cbv iota. split; lia.
  - assert ((Z.pos p <? 0) = false) as -> by reflexivity.
    pose proof (Z.pow_pos_nonneg 2 (Z.pos p) ltac:(lia) ltac:(lia)).
    split; nia.
  - assert ((Z.neg p <? 0) = true) as -> by reflexivity.
    change (- Z.neg p) with (Z.pos p).
    pose proof (Z.pow_pos_nonneg 2 (Z.pos p) ltac:(lia) ltac:(lia)) as Hden.
    destruct (round_half_even_nearest (Z.pos m * 100) (2 ^ Z.pos p)
                ltac:(lia) Hden) as [H0 H1].
    split; [exact H0|].
    replace (100 * Z.pos m) with (Z.pos m * 100) by lia. exact H1.
Qed.

(** [%.2f] of a finite double: a sign, the integer part, a point and two
    decimal digits, which together are the nearest hundredth. *)
Lemma format_2f_finite (x : PyFloat.float) :
  PyFloat.is_finite x = true ->
  exists (sign : string) (units d1 d2 : Z),
    PyFloat.format_2f x
    = (sign ++ of_int units ++ "." ++ PyFloat.digit d1 ++ PyFloat.digit d2)%string
    /\ (sign = "" \/ sign = "-"%string)
    /\ 0 <= units /\ is_digit d1 /\ is_digit d2
    /\ printed_hundredths x (100 * units + 10 * d1 + d2).
Proof.
  destruct x as [s|s| |s m e]; try discriminate; intros _.
  - exists (PyFloat.sign_str s), 0, 0, 0.
    split; [reflexivity|].
    split; [destruct s; auto|]. unfold is_digit. cbn. lia.
  - destruct (hundredths_nearest m e) as [H0 Hn].
    set (h := PyFloat.hundredths m e) in *.
    exists (PyFloat.sign_str s), (h / 100), (h mod 100 / 10), (h mod 100 mod 10).
    split; [reflexivity|].
    split; [destruct s; auto|].
    pose proof (Z.mod_pos_bound h 100 ltac:(lia)) as Hm.
    pose proof (Z.div_mod h 100 ltac:(lia)) as Eh.
    pose proof (Z.div_mod (h mod 100) 10 ltac:(lia)) as Em.
    pose proof (Z.mod_pos_bound (h mod 100) 10 ltac:(lia)) as Hd2.
    assert (0 <= h mod 100 / 10 <= 9).
    { split; [apply Z.div_pos; lia|].
      apply Z.lt_succ_r. apply Z.div_lt_upper_bound; lia. }
    split; [apply Z.div_pos; lia|].
    unfold is_digit. split; [lia|]. split; [lia|].
    cbn [printed_hundredths].
    replace (100 * (h / 100) + 10 * (h mod 100 / 10) + h mod 100 mod 10)
      with h by lia.
    exact Hn.
Qed.

(** C4.  When the static report has a [stats] object, the generator emits
    the block of the detection statistics.  Its rate is
    [(malicious + suspicious) / total * 100] when [total > 0] and 0
    otherwise: the division runs under the test [total > 0] only, so it
    never divides by zero.  The line of the rate is the rate in the format
    [.2f], a percent sign, and the two counts; for a finite rate the format
    is a sign, an integer part, a point and exactly two decimal digits, the
    nearest hundredth of the rate; and the rate is finite whenever the sum
    of the two counts is below [2^1000] in magnitude.  With
    [malicious = 3], [suspicious = 2], [total = 10] the line is
    "Detection Rate: 50.00% (5/10)". *)
Theorem C4_detection_rate_line :
  (forall static_analysis attrs stats,
      ReportData.attributes (Report.data static_analysis) = Some attrs ->
      Attrs.stats attrs = Some stats ->
      static_analysis_results (Some static_analysis)
      = detection_statistics stats)
  /\ (forall stats,
        let total := dict_get (Stats.total stats) 0 in
        let malicious := dict_get (Stats.malicious stats) 0 in
        let suspicious := dict_get (Stats.suspicious stats) 0 in
        let undetected := dict_get (Stats.undetected stats) 0 in
        detection_statistics stats
        = (rate <- detection_rate total malicious suspicious ;;
           ret [ repeat "-" 80; "DETECTION STATISTICS"; repeat "-" 80;
                 ("Detection Rate: " ++ PyFloat.format_2f rate ++ "% ("
                    ++ of_int (malicious + suspicious) ++ "/"
                    ++ of_int total ++ ")")%string;
                 ("  Malicious:  " ++ of_int malicious)%string;
                 ("  Suspicious:  " ++ of_int suspicious)%string;
                 ("  Undetected:  " ++ of_int undetected)%string;
                 ""%string ])%py)
  /\ (forall total malicious suspicious,
        (total > 0 ->
         detection_rate total malicious suspicious
         = (q <- PyFloat.truediv (malicious + suspicious) total ;;
            ret (PyFloat.mul_int q 100))%py)
        /\ (total <= 0 ->
            detection_rate total malicious suspicious = Ok (S754_zero false))
        /\ detection_rate total malicious suspicious <> Raise ZeroDivisionError)
  /\ (forall rate,
        PyFloat.is_finite rate = true ->
        exists (sign : string) (units d1 d2 : Z),
          PyFloat.format_2f rate
          = (sign ++ of_int units ++ "." ++ PyFloat.digit d1
               ++ PyFloat.digit d2)%string
          /\ (sign = ""%string \/ sign = "-"%string)
          /\ 0 <= units /\ is_digit d1 /\ is_digit d2
          /\ printed_hundredths rate (100 * units + 10 * d1 + d2))
  /\ (forall total malicious suspicious,
        Z.abs (malicious + suspicious) < 2 ^ 1000 ->
        exists rate,
          detection_rate total malicious suspicious = Ok rate
          /\ PyFloat.is_finite rate = true)
  /\ PyFloat.format_2f (S754_zero false) = "0.00"%string
  /\ (exists rate,
        detection_rate 10 3 2 = Ok rate
        /\ detection_rate_line rate 10 3 2
           = "Detection Rate: 50.00% (5/10)"%string)
  /\ detection_statistics (stats_of 10 3 2 5)
     = Ok [ repeat "-" 80; "DETECTION STATISTICS"; repeat "-" 80;
            "Detection Rate: 50.00% (5/10)"%string;
            "  Malicious:  3"%string;
            "  Suspicious:  2"%string;
            "  Undetected:  5"%string;
            ""%string ].
Proof.
  split; [|split; [|split; [|split; [|split; [|split; [|split]]]]]].
  5: exact detection_rate_finite.
  6: { exists (PyFloat.of_int 50). split; vm_compute; reflexivity. }
  - intros static_analysis attrs stats Ha Hs.
    unfold static_analysis_results. now rewrite Ha, Hs.
  - intros stats. reflexivity.
  - intros total malicious suspicious. unfold detection_rate.
    split; [|split].
    + intros Hpos.
      now assert ((total >? 0) = true) as -> by (apply Z.gtb_lt; lia).
    + intros Hle.
      assert ((total >? 0) = false) as ->; [|reflexivity].
      destruct (Z.gtb_spec total 0); [lia | reflexivity].
    + destruct (Z.gtb_spec total 0) as [Hpos|Hle]; [|discriminate].
      rewrite bind_result. unfold PyFloat.truediv.
      destruct (Z.eqb_spec total 0) as [->|_]; [lia|].
      destruct (SFdiv PyFloat.prec PyFloat.emax
                  (PyFloat.exact_int (malicious + suspicious))
                  (PyFloat.exact_int total)); discriminate.
  - exact format_2f_finite.
  - reflexivity.
  - vm_compute. reflexivity.
Qed.

Lemma C4_witness :
  static_analysis_results (Some completed_report)
  = Ok [ repeat "-" 80; "DETECTION STATISTICS"; repeat "-" 80;
         "Detection Rate: 50.00% (5/10)"%string;
         "  Malicious:  3"%string;
         "  Suspicious:  2"%string;
         "  Undetected:  5"%string;
         ""%string ]
  /\ detection_rate 0 3 2 = Ok (S754_zero false)
  /\ exists sign units d1 d2,
       PyFloat.format_2f (S754_finite false 4825285315039817 (-50))
       = (sign ++ of_int units ++ "." ++ PyFloat.digit d1
            ++ PyFloat.digit d2)%string
       /\ is_digit d1 /\ is_digit d2.
Proof.
  destruct C4_detection_rate_line
    as (Hstats & _ & Hrate & Hformat & Hfinite & _ & _ & Hline).
  split; [|split].
  - rewrite (Hstats completed_report
               {| Attrs.status := Some "completed"%string;
                  Attrs.stats := Some sample_stats |}
               sample_stats eq_refl eq_refl).
    exact Hline.
  - destruct (Hrate 0 3 2) as (_ & Hzero & _). apply Hzero. lia.
  - destruct (Hfinite 70 2 1 eq_refl) as (rate & Hrate' & Hfin).
    assert (rate = S754_finite false 4825285315039817 (-50)) as Er.
    { assert (H : detection_rate 70 2 1
                  = Ok (S754_finite false 4825285315039817 (-50)))
        by (vm_compute; reflexivity).
      rewrite H in Hrate'. now injection Hrate'. }
    rewrite Er in Hfin.
    destruct (Hformat (S754_finite false 4825285315039817 (-50)) Hfin)
      as (sign & units & d1 & d2 & E & _ & _ & Hd1 & Hd2 & _).
    exists sign, units, d1, d2. auto.
Defined.

(** ** The dynamic section of the report *)

(** C10.  When the behaviour document is present but its record list is
    empty, the block of the dynamic analysis appends nothing: no header, no
    detail block, no behavioural summary, and not the line "No dynamic
    analysis data available for this file" either.  The report is the file
    information, the detection statistics and the conclusion, with nothing
    in between. *)
Theorem C10_empty_record_list_omits_dynamic_section :
  forall (order : SetOrder) (file_info : FileInfo.t)
         (static_analysis : option Report.t) (report : option string),
    let analysis_results :=
      {| Results.file_info := file_info;
         Results.static_analysis := static_analysis;
         Results.dynamic_analysis := Some {| Behavior.data := [] |};
         Results.report := report |} in
    dynamic_analysis_results order (Results.dynamic_analysis analysis_results)
      = []
    /\ report_lines order analysis_results
       = (static <- static_analysis_results static_analysis ;;
          verdict <- overall_verdict static_analysis ;;
          ret (file_information file_info ++ static
                 ++ conclusion_header ++ [verdict]))%py
    /\ _generate_report order analysis_results
       = (static <- static_analysis_results static_analysis ;;
          verdict <- overall_verdict static_analysis ;;
          ret (join nl (file_information file_info ++ static
                          ++ conclusion_header ++ [verdict])))%py.
Proof.
  intros order file_info static_analysis report analysis_results.
  split; [reflexivity|]. unfold analysis_results.
  split; sections; reflexivity.
Qed.

(** The scan, flag by flag. *)

Lemma check_injection_spec (processes : list Process.t) (behaviors : list string) :
  check_injection processes behaviors
  = if existsb names_injection processes then behaviors ++ [flag_injection]
    else behaviors.
Proof.
  induction processes as [|proc rest IH]; [reflexivity|].
  cbn [check_injection existsb]. fold (names_injection proc).
  destruct (names_injection proc); [reflexivity | exact IH].
Qed.

Lemma check_persistence_spec (keys_set : list string) (behaviors : list string) :
  check_persistence keys_set behaviors
  = if existsb names_autorun keys_set then behaviors ++ [flag_persistence]
    else behaviors.
Proof.
  induction keys_set as [|key rest IH]; [reflexivity|].
  cbn [check_persistence existsb]. fold (names_autorun key).
  destruct (names_autorun key); [reflexivity | exact IH].
Qed.

Lemma scan_sandbox_spec (behaviors : list string) (sandbox : Sandbox.t) :
  scan_sandbox behaviors sandbox = behaviors ++ flags_of sandbox.
Proof.
  unfold scan_sandbox, flags_of.
  rewrite check_persistence_spec, check_injection_spec.
  fold (sandbox_attrs sandbox). fold (processes_of sandbox).
  fold (keys_set_of sandbox). fold (http_requests_of sandbox).
  fold (injects sandbox). fold (persists sandbox). fold (communicates sandbox).
  destruct (injects sandbox), (persists sandbox), (communicates sandbox);
    cbn [app]; rewrite <- ?app_assoc, ?app_nil_r; reflexivity.
Qed.

Lemma scan_from (dynamic_data : list Sandbox.t) :
  forall behaviors,
    fold_left scan_sandbox dynamic_data behaviors
    = behaviors ++ flat_map flags_of dynamic_data.
Proof.
  induction dynamic_data as [|sandbox rest IH]; intros behaviors; cbn.
  - now rewrite app_nil_r.
  - now rewrite IH, scan_sandbox_spec, <- app_assoc.
Qed.

(** The scan collects the flags of every record of the list. *)
Lemma scan_behaviors_spec (dynamic_data : list Sandbox.t) :
  scan_behaviors dynamic_data = flat_map flags_of dynamic_data.
Proof. unfold scan_behaviors. now rewrite scan_from. Qed.

Lemma in_scan_behaviors (dynamic_data : list Sandbox.t) (flag : string) :
  In flag (scan_behaviors dynamic_data)
  <-> exists sandbox, In sandbox dynamic_data /\ In flag (flags_of sandbox).
Proof. rewrite scan_behaviors_spec. apply in_flat_map. Qed.

Lemma item_line_inj (a b : string) : item_line a = item_line b -> a = b.
Proof. unfold item_line; cbn. intros H. now injection H. Qed.

Lemma NoDup_map_item_line (l : list string) :
  NoDup l -> NoDup (map item_line l).
Proof.
  induction 1 as [|x l Hx Hl IH]; cbn; constructor; [|exact IH].
  intros Hin. apply in_map_iff in Hin as (y & Hy & Hin).
  apply item_line_inj in Hy. now subst y.
Qed.

Lemma behavioral_summary_flags order dynamic_data :
  behavioral_summary order dynamic_data
  = (nl ++ "Behavioral Summary:")%string :: summary_flags order dynamic_data.
Proof. reflexivity. Qed.

Lemma in_summary_flags order dynamic_data flag :
  (exists sandbox, In sandbox dynamic_data /\ In flag (flags_of sandbox)) ->
  In (item_line flag) (summary_flags order dynamic_data).
Proof.
  intros H. apply in_scan_behaviors in H.
  apply (proj2 (list_of_set_In order _ flag)) in H. unfold summary_flags.
  destruct (list_of_set order (scan_behaviors dynamic_data)) as [|b bs];
    [contradiction|].
  cbn [truthy]. now apply in_map.
Qed.

Lemma NoDup_summary_flags order dynamic_data :
  NoDup (summary_flags order dynamic_data).
Proof.
  unfold summary_flags.
  destruct (list_of_set order (scan_behaviors dynamic_data)) as [|b bs] eqn:E.
  - cbn. constructor; [intros []|constructor].
  - cbn [truthy]. apply NoDup_map_item_line. rewrite <- E.
    apply list_of_set_NoDup.
Qed.

Lemma listing_shape {A : Type} (title : string) (line : A -> string)
    (xs : list A) :
  listing title line xs
  = match xs with
    | [] => []
    | _ :: _ => (nl ++ title)%string :: map line (firstn 10 xs)
    end.
Proof. destruct xs; reflexivity. Qed.

Lemma listing_length {A : Type} (title : string) (line : A -> string)
    (xs : list A) :
  length (listing title line xs)
  = match xs with
    | [] => 0%nat
    | _ :: _ => S (Nat.min 10 (length xs))
    end.
Proof.
  rewrite listing_shape. destruct xs as [|x xs]; [reflexivity|].
  cbn [length]. now rewrite length_map, length_firstn.
Qed.

(** C7.  When the behaviour document has more than three sandbox records,
    the report has a detail block for the first three records, in the order
    of the list, and for no other record.  A block is the name of the
    sandbox, then the five listings (processes, DNS host names, HTTP URLs,
    registry keys, files written) and a separator; a listing of an empty
    list is no line at all, every other listing is its title and the first
    ten items at most.  The scan for the flags of the behavioural summary
    reads every record of the list: a flag raised by any record, past the
    third too, is a line of the summary. *)
Theorem C7_three_blocks_full_scan :
  forall (order : SetOrder) (dynamic_data : list Sandbox.t),
    (3 < length dynamic_data)%nat ->
    (exists s1 s2 s3 rest,
        dynamic_data = s1 :: s2 :: s3 :: rest
        /\ rest <> []
        /\ dynamic_analysis_results order
             (Some {| Behavior.data := dynamic_data |})
           = dynamic_header
               ++ sandbox_report 0 s1 ++ sandbox_report 1 s2
               ++ sandbox_report 2 s3
               ++ behavioral_summary order dynamic_data)
    /\ (forall i sandbox,
          sandbox_report i sandbox
          = [("Sandbox: " ++ sandbox_id_of i sandbox)%string]
              ++ listing "Processes Created:" process_line (processes_of sandbox)
              ++ listing "DNS Requests:" dns_line (dns_requests_of sandbox)
              ++ listing "HTTP Requests:" http_line (http_requests_of sandbox)
              ++ listing "Registry Keys Modified:" item_line (keys_set_of sandbox)
              ++ listing "Files Written:" item_line (files_written_of sandbox)
              ++ [(nl ++ repeat "-" 40)%string])
    /\ (forall (A : Type) (title : string) (line : A -> string) (xs : list A),
          (xs = [] -> listing title line xs = [])
          /\ (xs <> [] ->
              listing title line xs
              = (nl ++ title)%string :: map line (firstn 10 xs)
              /\ (length (map line (firstn 10 xs)) <= 10)%nat))
    /\ (forall sandbox flag,
          In sandbox dynamic_data ->
          In flag (flags_of sandbox) ->
          In (item_line flag) (behavioral_summary order dynamic_data)).
Proof.
  intros order dynamic_data Hlen.
  split; [|split; [|split]].
  - destruct dynamic_data as [|s1 [|s2 [|s3 [|s4 rest]]]];
      cbn in Hlen; try lia.
    exists s1, s2, s3, (s4 :: rest).
    split; [reflexivity|]. split; [discriminate|].
    unfold dynamic_analysis_results.
    cbn [Behavior.data truthy firstn enumerate enumerate_from flat_map length
         andb].
    assert ((Z.of_nat (S (S (S (S (length rest))))) >? 0) = true) as ->
      by (apply Z.gtb_lt; lia).
    now rewrite app_nil_r, <- !app_assoc.
  - intros i sandbox. reflexivity.
  - intros A title line xs. split.
    + intros ->. reflexivity.
    + intros Hne. rewrite listing_shape.
      destruct xs as [|x xs]; [contradiction|].
      split; [reflexivity|].
      rewrite length_map, length_firstn. lia.
  - intros sandbox flag Hin Hflag.
    rewrite behavioral_summary_flags. right.
    apply in_summary_flags. now exists sandbox.
Qed.

Lemma C7_witness :
  (3 < length fifteen_sandboxes)%nat
  /\ In (item_line flag_network)
        (behavioral_summary order_forward fifteen_sandboxes).
Proof.
  assert (H : (3 < length fifteen_sandboxes)%nat) by (cbn; lia).
  destruct (C7_three_blocks_full_scan order_forward fifteen_sandboxes H)
    as (_ & _ & _ & Hscan).
  split; [exact H|].
  apply (Hscan calling_sandbox flag_network).
  - unfold fifteen_sandboxes. apply in_or_app. right. now left.
  - cbn. now left.
Defined.

Lemma scan_behaviors_quiet (dynamic_data : list Sandbox.t) :
  (forall sandbox, In sandbox dynamic_data -> flags_of sandbox = []) ->
  scan_behaviors dynamic_data = [].
Proof.
  intros Hquiet. rewrite scan_behaviors_spec.
  induction dynamic_data as [|s rest IH]; [reflexivity|].
  cbn [flat_map]. rewrite (Hquiet s (or_introl eq_refl)).
  apply IH. intros s' Hs'. apply Hquiet. now right.
Qed.

(** C8.  The behavioural summary is its title and the flag lines.  No two
    flag lines are equal, so each flag has one line at most however many
    sandbox records raise it: a flag that some record raises has exactly
    one line (two records with an HTTP request each give one line "Network
    communication detected").  When no record raises a flag, the summary is
    the title and the one line "No significant suspicious behaviors
    detected". *)
Theorem C8_each_flag_once :
  forall (order : SetOrder) (dynamic_data : list Sandbox.t),
    exists flags,
      behavioral_summary order dynamic_data
      = (nl ++ "Behavioral Summary:")%string :: flags
      /\ NoDup flags
      /\ (forall line, (count_occ string_dec flags line <= 1)%nat)
      /\ (forall flag,
            (exists sandbox, In sandbox dynamic_data /\ In flag (flags_of sandbox)) ->
            count_occ string_dec flags (item_line flag) = 1%nat)
      /\ ((forall sandbox, In sandbox dynamic_data -> flags_of sandbox = []) ->
          flags = [no_behaviors_line])
      /\ (forall s1 s2,
            dynamic_data = [s1; s2] ->
            flags_of s1 = [flag_network] ->
            flags_of s2 = [flag_network] ->
            flags = ["  * Network communication detected"%string]).
Proof.
  intros order dynamic_data.
  exists (summary_flags order dynamic_data).
  pose proof (NoDup_summary_flags order dynamic_data) as Hnd.
  split; [apply behavioral_summary_flags|].
  split; [exact Hnd|].
  split; [|split; [|split]].
  - intros line. now apply (NoDup_count_occ string_dec).
  - intros flag H.
    apply (NoDup_count_occ' string_dec); [exact Hnd|].
    now apply in_summary_flags.
  - intros Hquiet. unfold summary_flags.
    rewrite (scan_behaviors_quiet dynamic_data Hquiet).
    destruct (list_of_set order []) as [|b bs] eqn:El; [reflexivity|].
    assert (Hb : In b (list_of_set order [])) by (rewrite El; now left).
    apply (proj1 (list_of_set_In order [] b)) in Hb. destruct Hb.
  - intros s1 s2 -> H1 H2. unfold summary_flags.
    assert (E : scan_behaviors [s1; s2] = [flag_network; flag_network]).
    { rewrite scan_behaviors_spec. cbn [flat_map]. now rewrite H1, H2. }
    rewrite E.
    pose proof (list_of_set_NoDup order [flag_network; flag_network]) as Hn.
    pose proof (list_of_set_In order [flag_network; flag_network]) as Hi.
    destruct (list_of_set order [flag_network; flag_network]) as [|a [|b l]].
    + exfalso. apply (Hi flag_network). now left.
    + assert (a = flag_network) as ->.
      { destruct (proj1 (Hi a) (or_introl eq_refl)) as [<-|[<-|[]]];
          reflexivity. }
      reflexivity.
    + exfalso.
      assert (a = flag_network) as ->.
      { destruct (proj1 (Hi a) (or_introl eq_refl)) as [<-|[<-|[]]];
          reflexivity. }
      assert (b = flag_network) as ->.
      { destruct (proj1 (Hi b) (or_intror (or_introl eq_refl)))
          as [<-|[<-|[]]]; reflexivity. }
      inversion Hn as [|? ? Hnotin _]. apply Hnotin. now left.
Qed.

Lemma C8_witness :
  behavioral_summary order_backward [calling_sandbox; calling_sandbox]
  = [ (nl ++ "Behavioral Summary:")%string;
      "  * Network communication detected"%string ]
  /\ behavioral_summary order_backward [quiet_sandbox; quiet_sandbox]
     = [ (nl ++ "Behavioral Summary:")%string;
         "  * No significant suspicious behaviors detected"%string ].
Proof.
  destruct (C8_each_flag_once order_backward [calling_sandbox; calling_sandbox])
    as (flags & E & _ & _ & _ & _ & Htwo).
  destruct (C8_each_flag_once order_backward [quiet_sandbox; quiet_sandbox])
    as (flags' & E' & _ & _ & _ & Hquiet & _).
  split.
  - rewrite E. f_equal.
    apply (Htwo calling_sandbox calling_sandbox); reflexivity.
  - rewrite E'. f_equal. apply Hquiet.
    intros sandbox [<-|[<-|[]]]; reflexivity.
Defined.

(** ** Determinism of the report *)

Lemma dynamic_results_split order dynamic_analysis :
  dynamic_analysis_results order dynamic_analysis
  = dynamic_before dynamic_analysis ++ flag_lines order dynamic_analysis.
Proof.
  destruct dynamic_analysis as [[data]|]; cbn [dynamic_analysis_results
    dynamic_before flag_lines Behavior.data].
  - destruct data as [|s rest]; [reflexivity|].
    cbn [truthy andb length].
    assert ((Z.of_nat (S (length rest)) >? 0) = true) as ->
      by (apply Z.gtb_lt; lia).
    rewrite behavioral_summary_flags, <- !app_assoc. reflexivity.
  - now rewrite app_nil_r.
Qed.

(** Two enumerations of the same set are permutations of each other. *)
Lemma list_of_set_Permutation (order1 order2 : SetOrder) (l : list string) :
  Permutation (list_of_set order1 l) (list_of_set order2 l).
Proof.
  apply NoDup_Permutation; try apply list_of_set_NoDup.
  intros x. now rewrite !list_of_set_In.
Qed.

Lemma summary_flags_Permutation order1 order2 dynamic_data :
  Permutation (summary_flags order1 dynamic_data)
              (summary_flags order2 dynamic_data).
Proof.
  unfold summary_flags.
  pose proof (list_of_set_Permutation order1 order2
                (scan_behaviors dynamic_data)) as P.
  destruct (list_of_set order1 (scan_behaviors dynamic_data)) as [|a l1].
  - apply Permutation_nil in P. rewrite P. reflexivity.
  - destruct (list_of_set order2 (scan_behaviors dynamic_data)) as [|b l2].
    + apply Permutation_sym, Permutation_nil in P. discriminate.
    + cbn [truthy]. now apply Permutation_map.
Qed.

Lemma flag_lines_Permutation order1 order2 dynamic_analysis :
  Permutation (flag_lines order1 dynamic_analysis)
              (flag_lines order2 dynamic_analysis).
Proof.
  destruct dynamic_analysis as [[data]|]; cbn [flag_lines Behavior.data];
    [|constructor].
  destruct (truthy data); [apply summary_flags_Permutation | constructor].
Qed.

Lemma Permutation_short {A : Type} (l1 l2 : list A) :
  Permutation l1 l2 -> (length l1 <= 1)%nat -> l1 = l2.
Proof.
  intros P Hlen. destruct l1 as [|a [|b l1]]; cbn in Hlen; try lia.
  - apply Permutation_nil in P. now subst.
  - apply Permutation_length_1_inv in P. now subst.
Qed.

(** C6, as the claim states it, fails: on the same results, whose one
    sandbox record raises two flags, two interpreter processes that
    enumerate the set of flags in different orders produce different
    report texts. *)
Lemma C6_counterexample :
  _generate_report order_forward two_flag_results
  <> _generate_report order_backward two_flag_results.
Proof. vm_compute. intros H. discriminate H. Qed.

(** C6, amended.  The report is a function of the results and of the order
    in which the interpreter process enumerates a set of strings, and that
    order touches the flag lines of the behavioural summary only.  For two
    runs on the same results: the lines before the flag lines and the lines
    after them are the same, the flag lines of one run are a permutation of
    the flag lines of the other, the two texts are equal when there is one
    flag line at most, and they are equal when both runs enumerate sets in
    the same order. *)
Theorem C6_deterministic_up_to_flag_order :
  forall (order1 order2 : SetOrder) (analysis_results : Results.t),
    let dynamic_analysis := Results.dynamic_analysis analysis_results in
    let lines order :=
      (static <- static_analysis_results
                   (Results.static_analysis analysis_results) ;;
       verdict <- overall_verdict (Results.static_analysis analysis_results) ;;
       ret ((file_information (Results.file_info analysis_results)
               ++ static ++ dynamic_before dynamic_analysis)
              ++ flag_lines order dynamic_analysis
              ++ (conclusion_header ++ [verdict])))%py in
    report_lines order1 analysis_results = lines order1
    /\ report_lines order2 analysis_results = lines order2
    /\ Permutation (flag_lines order1 dynamic_analysis)
                   (flag_lines order2 dynamic_analysis)
    /\ ((length (flag_lines order1 dynamic_analysis) <= 1)%nat ->
        _generate_report order1 analysis_results
        = _generate_report order2 analysis_results)
    /\ ((forall l, list_of_set order1 l = list_of_set order2 l) ->
        _generate_report order1 analysis_results
        = _generate_report order2 analysis_results).
Proof.
  intros order1 order2 analysis_results dynamic_analysis lines.
  assert (Hlines : forall order, report_lines order analysis_results = lines order).
  { intros order. unfold lines. sections.
    fold dynamic_analysis. rewrite dynamic_results_split.
    now rewrite <- !app_assoc. }
  assert (Hflags : flag_lines order1 dynamic_analysis
                   = flag_lines order2 dynamic_analysis ->
                   _generate_report order1 analysis_results
                   = _generate_report order2 analysis_results).
  { intros E. rewrite !generate_report_lines, !Hlines. unfold lines.
    now rewrite E. }
  split; [apply Hlines|]. split; [apply Hlines|].
  split; [apply flag_lines_Permutation|]. split.
  - intros Hlen. apply Hflags, Permutation_short; [|exact Hlen].
    apply flag_lines_Permutation.
  - intros Hsame. apply Hflags. unfold flag_lines.
    destruct dynamic_analysis as [[data]|]; [|reflexivity].
    cbn [Behavior.data]. destruct (truthy data); [|reflexivity].
    unfold summary_flags. now rewrite Hsame.
Qed.

Lemma C6_witness :
  Permutation (flag_lines order_forward
                 (Results.dynamic_analysis two_flag_results))
              (flag_lines order_backward
                 (Results.dynamic_analysis two_flag_results))
  /\ _generate_report order_forward two_flag_results
     = _generate_report order_forward two_flag_results.
Proof.
  destruct (C6_deterministic_up_to_flag_order order_forward order_backward
              two_flag_results) as (_ & _ & P & _ & _).
  destruct (C6_deterministic_up_to_flag_order order_forward order_forward
              two_flag_results) as (_ & _ & _ & _ & Hsame).
  split; [exact P | apply Hsame; reflexivity].
Defined.

(** ** The poller *)

Section Poller.

Variable remote : Remote.
Variables (url : string) (headers : Headers).
Variables (max_attempts : Z) (wait_time : N).

Let rounds := pending_rounds url headers max_attempts wait_time.
Let loop := analysis_loop remote url headers max_attempts wait_time.

Lemma pending_inv (response : Response.t Report.t) :
  pending response = true ->
  exists report attributes status,
    Response.status_code response = 200
    /\ Response.json response = Some report
    /\ ReportData.attributes (Report.data report) = Some attributes
    /\ Attrs.status attributes = Some status
    /\ String.eqb status "completed" = false.
Proof.
  unfold pending, reported_status.
  destruct (Z.eqb_spec (Response.status_code response) 200) as [E|];
    [|discriminate].
  destruct (Response.json response) as [report|] eqn:Ej; [|discriminate].
  destruct (ReportData.attributes (Report.data report)) as [attributes|] eqn:Ea;
    [|discriminate].
  destruct (Attrs.status attributes) as [status|] eqn:Es; [|discriminate].
  intros H. exists report, attributes, status.
  apply negb_true_iff in H. auto.
Qed.

Lemma completed_inv (response : Response.t Report.t) :
  completed response = true ->
  exists report attributes,
    Response.status_code response = 200
    /\ Response.json response = Some report
    /\ ReportData.attributes (Report.data report) = Some attributes
    /\ Attrs.status attributes = Some "completed".
Proof.
  unfold completed, reported_status.
  destruct (Z.eqb_spec (Response.status_code response) 200) as [E|];
    [|discriminate].
  destruct (Response.json response) as [report|] eqn:Ej; [|discriminate].
  destruct (ReportData.attributes (Report.data report)) as [attributes|] eqn:Ea;
    [|discriminate].
  destruct (Attrs.status attributes) as [status|] eqn:Es; [|discriminate].
  intros H. apply String.eqb_eq in H. subst status.
  exists report, attributes. auto.
Qed.

(** One attempt that finds the analysis still running: a query, the
    progress line, a wait, and the loop goes on. *)
Lemma loop_step_pending (n : nat) (attempt : Z) (tr : trace) :
  pending (get_report remote tr url headers) = true ->
  loop (S n) attempt tr
  = loop n (attempt + 1)
      (tr ++ pending_round url headers max_attempts wait_time attempt).
Proof.
  intros H. destruct (pending_inv _ H)
    as (report & attributes & status & Hc & Hj & Ha & Hs & Hne).
  unfold loop; cbn. unfold json_of. rewrite Hc, Hj; cbn.
  rewrite Ha; cbn. rewrite Hs; cbn. rewrite Hne.
  unfold pending_round. rewrite <- !app_assoc. reflexivity.
Qed.

(** One attempt that finds the analysis completed: a query, and the loop
    returns the document it got. *)
Lemma loop_step_completed (n : nat) (attempt : Z) (tr : trace) :
  completed (get_report remote tr url headers) = true ->
  exists report,
    Response.json (get_report remote tr url headers) = Some report
    /\ loop (S n) attempt tr = (Ok (Some report), (tr ++ [Get url headers])).
Proof.
  intros H. destruct (completed_inv _ H) as (report & attributes & Hc & Hj & Ha & Hs).
  exists report. split; [exact Hj|].
  unfold loop; cbn. unfold json_of. rewrite Hc, Hj; cbn.
  rewrite Ha; cbn. rewrite Hs; cbn. reflexivity.
Qed.

(** [k] attempts in a row that find the analysis still running. *)
Lemma loop_pending_prefix (k : nat) :
  forall (n : nat) (attempt : Z) (tr : trace),
    (forall j, (j < k)%nat ->
       pending (get_report remote (tr ++ rounds attempt j) url headers) = true) ->
    loop (k + n) attempt tr
    = loop n (attempt + Z.of_nat k) (tr ++ rounds attempt k).
Proof.
  induction k as [|k IH]; intros n attempt tr H.
  - cbn. now rewrite app_nil_r, Z.add_0_r.
  - change (S k + n)%nat with (S (k + n)).
    rewrite loop_step_pending.
    + rewrite IH.
      * unfold rounds; cbn [pending_rounds]. rewrite <- app_assoc.
        f_equal. lia.
      * intros j Hj. specialize (H (S j) ltac:(lia)).
        unfold rounds in *; cbn [pending_rounds] in H.
        now rewrite <- app_assoc.
    + specialize (H 0%nat ltac:(lia)). unfold rounds in H; cbn in H.
      now rewrite app_nil_r in H.
Qed.

End Poller.

(** What a trace shows of a run of pending attempts. *)

Lemma queries_app (url : string) (tr1 tr2 : trace) :
  queries url (tr1 ++ tr2) = (queries url tr1 + queries url tr2)%nat.
Proof. unfold queries. now rewrite filter_app, length_app. Qed.

Lemma sleeps_app (tr1 tr2 : trace) :
  sleeps (tr1 ++ tr2) = (sleeps tr1 ++ sleeps tr2).
Proof. unfold sleeps. apply flat_map_app. Qed.

Lemma uploads_app (tr1 tr2 : trace) :
  uploads (tr1 ++ tr2) = (uploads tr1 + uploads tr2)%nat.
Proof. unfold uploads. now rewrite filter_app, length_app. Qed.

Lemma queries_pending_rounds url headers max_attempts wait_time (n : nat) :
  forall attempt,
    queries url (pending_rounds url headers max_attempts wait_time attempt n) = n.
Proof.
  induction n as [|n IH]; intros attempt; [reflexivity|].
  cbn [pending_rounds]. rewrite queries_app, IH.
  unfold queries; cbn. now rewrite String.eqb_refl.
Qed.

Lemma sleeps_pending_rounds url headers max_attempts wait_time (n : nat) :
  forall attempt,
    sleeps (pending_rounds url headers max_attempts wait_time attempt n)
    = List.repeat wait_time n.
Proof.
  induction n as [|n IH]; intros attempt; [reflexivity|].
  cbn [pending_rounds]. rewrite sleeps_app, IH. reflexivity.
Qed.

Lemma uploads_pending_rounds url headers max_attempts wait_time (n : nat) :
  forall attempt,
    uploads (pending_rounds url headers max_attempts wait_time attempt n) = 0%nat.
Proof.
  induction n as [|n IH]; intros attempt; [reflexivity|].
  cbn [pending_rounds]. rewrite uploads_app, IH. reflexivity.
Qed.

Lemma last_pending_rounds url headers max_attempts wait_time (n : nat) :
  forall attempt d,
    last (pending_rounds url headers max_attempts wait_time attempt (S n)) d
    = Sleep wait_time.
Proof.
  induction n as [|n IH]; intros attempt d; [reflexivity|].
  change (pending_rounds url headers max_attempts wait_time attempt (S (S n)))
    with (Get url headers
            :: Print (in_progress_line wait_time attempt max_attempts)
            :: Sleep wait_time
            :: pending_rounds url headers max_attempts wait_time (attempt + 1) (S n)).
  specialize (IH (attempt + 1) d).
  destruct (pending_rounds url headers max_attempts wait_time (attempt + 1) (S n))
    as [|e rest] eqn:E.
  - cbn in E. discriminate.
  - exact IH.
Qed.

(** The poller is its loop, then the timeout if the loop ran out. *)
Lemma poller_unfold remote file_id base_url headers max_attempts wait_time
    (tr0 : trace) :
  _get_analysis_report remote file_id base_url headers max_attempts wait_time tr0
  = match analysis_loop remote (analysis_url base_url file_id) headers
            max_attempts wait_time (Z.to_nat max_attempts) 0 tr0 with
    | (Ok (Some report), tr) => (Ok report, tr)
    | (Ok None, tr) => (Raise (TimeoutError (timeout_message max_attempts)), tr)
    | (Raise e, tr) => (Raise e, tr)
    end.
Proof.
  unfold _get_analysis_report; cbn.
  destruct (analysis_loop remote (analysis_url base_url file_id) headers
              max_attempts wait_time (Z.to_nat max_attempts) 0 tr0)
    as [[[report|]|e] tr]; reflexivity.
Qed.

(** The poller when no status query ever finds the analysis completed: the
    trace is [max_attempts] pending attempts, then the timeout. *)
Lemma poller_never_completed remote file_id base_url headers max_attempts
    wait_time (tr0 : trace) :
  let url := analysis_url base_url file_id in
  (forall tr, pending (get_report remote tr url headers) = true) ->
  _get_analysis_report remote file_id base_url headers max_attempts wait_time tr0
  = (Raise (TimeoutError (timeout_message max_attempts)),
     (tr0 ++ pending_rounds url headers max_attempts wait_time 0
               (Z.to_nat max_attempts))).
Proof.
  intros url H. rewrite poller_unfold. fold url.
  pose proof (loop_pending_prefix remote url headers max_attempts wait_time
                (Z.to_nat max_attempts) 0%nat 0 tr0 (fun j _ => H _)) as E.
  rewrite Nat.add_0_r in E. rewrite E. reflexivity.
Qed.

(** The poller when the first [k] status queries find the analysis running
    and the next one finds it completed. *)
Lemma poller_completed_at remote file_id base_url headers max_attempts
    wait_time (tr0 : trace) (k : nat) :
  let url := analysis_url base_url file_id in
  let rounds := pending_rounds url headers max_attempts wait_time 0 in
  Z.of_nat k < max_attempts ->
  (forall j, (j < k)%nat ->
     pending (get_report remote (tr0 ++ rounds j) url headers) = true) ->
  completed (get_report remote (tr0 ++ rounds k) url headers) = true ->
  exists report,
    Response.json (get_report remote (tr0 ++ rounds k) url headers)
      = Some report
    /\ _get_analysis_report remote file_id base_url headers max_attempts
         wait_time tr0
       = (Ok report, (tr0 ++ rounds k ++ [Get url headers])).
Proof.
  intros url rounds Hk Hpending Hcompleted.
  rewrite poller_unfold. fold url.
  assert (Z.to_nat max_attempts = (k + S (Z.to_nat max_attempts - S k))%nat)
    as -> by lia.
  rewrite (loop_pending_prefix remote url headers max_attempts wait_time
             k _ 0 tr0 Hpending).
  destruct (loop_step_completed remote url headers max_attempts wait_time
              (Z.to_nat max_attempts - S k) (0 + Z.of_nat k) _ Hcompleted)
    as (report & Hj & E).
  exists report. split; [exact Hj|].
  fold rounds. rewrite E. now rewrite <- app_assoc.
Qed.

(** C1.  With [max_attempts = N >= 1]: when every status query succeeds but
    none reports the status "completed", the poller sends exactly [N] status
    queries and then raises the timeout error, whose message names
    [max_attempts]; when a status query reports "completed" (after [k]
    queries that did not), the poller returns the whole document of that
    query, and that query is the last thing it does: [k + 1] queries in
    all. *)
Theorem C1_poller_query_count :
  forall (file_id base_url : string) (headers : Headers)
         (max_attempts : Z) (wait_time : N) (tr0 : trace),
    let url := analysis_url base_url file_id in
    let rounds := pending_rounds url headers max_attempts wait_time 0 in
    (forall remote : Remote,
        1 <= max_attempts ->
        (forall tr, pending (get_report remote tr url headers) = true) ->
        exists added,
          _get_analysis_report remote file_id base_url headers max_attempts
            wait_time tr0
          = (Raise (TimeoutError ("Analysis did not complete after "
                                    ++ of_int max_attempts ++ " attempts")%string),
             (tr0 ++ added))
          /\ Z.of_nat (queries url added) = max_attempts)
    /\
    (forall (remote : Remote) (k : nat),
        Z.of_nat k < max_attempts ->
        (forall j, (j < k)%nat ->
           pending (get_report remote (tr0 ++ rounds j) url headers) = true) ->
        completed (get_report remote (tr0 ++ rounds k) url headers) = true ->
        exists report added,
          Response.json (get_report remote (tr0 ++ rounds k) url headers)
            = Some report
          /\ _get_analysis_report remote file_id base_url headers max_attempts
               wait_time tr0
             = (Ok report, (tr0 ++ added))
          /\ queries url added = S k
          /\ last added (Print "") = Get url headers).
Proof.
  intros file_id base_url headers max_attempts wait_time tr0 url rounds.
  split.
  - intros remote HN H.
    exists (rounds (Z.to_nat max_attempts)). split.
    + apply poller_never_completed. exact H.
    + unfold rounds. rewrite queries_pending_rounds. lia.
  - intros remote k Hk Hpending Hcompleted.
    destruct (poller_completed_at remote file_id base_url headers max_attempts
                wait_time tr0 k Hk Hpending Hcompleted) as (report & Hj & E).
    exists report, (rounds k ++ [Get url headers]).
    repeat split; auto.
    + rewrite queries_app. unfold rounds at 1.
      rewrite queries_pending_rounds.
      unfold queries; cbn. rewrite String.eqb_refl. cbn. lia.
    + apply last_last.
Qed.

Lemma C1_witness :
  (exists added,
     _get_analysis_report remote_never "job-1" base_url sample_headers 3 30 []
     = (Raise (TimeoutError "Analysis did not complete after 3 attempts"), added)
     /\ queries (analysis_url base_url "job-1") added = 3%nat)
  /\
  (exists added,
     _get_analysis_report remote_third "job-1" base_url sample_headers 10 30 []
     = (Ok completed_report, added)
     /\ queries (analysis_url base_url "job-1") added = 3%nat).
Proof.
  destruct (C1_poller_query_count "job-1" base_url sample_headers 3 30 [])
    as [Hnever _].
  destruct (C1_poller_query_count "job-1" base_url sample_headers 10 30 [])
    as [_ Hthird].
  split.
  - destruct (Hnever remote_never) as (added & E & Hq);
      [lia | intros tr; reflexivity |].
    exists added. split; [exact E | apply Nat2Z.inj; exact Hq].
  - destruct (Hthird remote_third 2%nat) as (report & added & Hj & E & Hq & _).
    + lia.
    + intros j Hj. destruct j as [|[|j]]; [reflexivity | reflexivity | lia].
    + reflexivity.
    + exists added. cbn in Hj. injection Hj as <-. split; [exact E | exact Hq].
Defined.

(** C2, as the claim states it, fails: with [max_attempts = 2] and an
    analysis that never completes the poller waits twice, not once, and the
    last thing it does before the timeout error is a wait of [wait_time]
    seconds that no attempt follows. *)
Lemma C2_counterexample :
  let run := _get_analysis_report remote_never "job-1" base_url sample_headers
               2 30 [] in
  fst run = Raise (TimeoutError "Analysis did not complete after 2 attempts")
  /\ sleeps (snd run) = [30%N; 30%N]
  /\ length (sleeps (snd run)) <> (2 - 1)%nat
  /\ last (snd run) (Print "") = Sleep 30.
Proof. vm_compute. repeat split; discriminate. Qed.

(** C2, amended.  When polling uses up all its attempts without the status
    reaching "completed", the poller waits [wait_time] seconds after every
    attempt, the last one included: with [max_attempts = N >= 1] the trace
    is [N] times (query, progress line, wait), so exactly [N] waits happen
    before the timeout error is raised, the last of them right before it,
    and the run has waited [N * wait_time] seconds in all. *)
Theorem C2_poller_waits_after_every_attempt :
  forall (remote : Remote) (file_id base_url : string) (headers : Headers)
         (max_attempts : Z) (wait_time : N) (tr0 : trace),
    let url := analysis_url base_url file_id in
    1 <= max_attempts ->
    (forall tr, pending (get_report remote tr url headers) = true) ->
    exists added,
      _get_analysis_report remote file_id base_url headers max_attempts
        wait_time tr0
      = (Raise (TimeoutError (timeout_message max_attempts)), tr0 ++ added)
      /\ added = pending_rounds url headers max_attempts wait_time 0
                   (Z.to_nat max_attempts)
      /\ sleeps added = List.repeat wait_time (Z.to_nat max_attempts)
      /\ Z.of_nat (length (sleeps added)) = max_attempts
      /\ last added (Print "") = Sleep wait_time
      /\ Z.of_N (fold_right N.add 0%N (sleeps added))
         = max_attempts * Z.of_N wait_time.
Proof.
  intros remote file_id base_url headers max_attempts wait_time tr0 url HN H.
  exists (pending_rounds url headers max_attempts wait_time 0
            (Z.to_nat max_attempts)).
  rewrite sleeps_pending_rounds, repeat_length.
  repeat split.
  - apply poller_never_completed. exact H.
  - lia.
  - destruct (Z.to_nat max_attempts) as [|n] eqn:E; [lia|].
    apply last_pending_rounds.
  - assert (forall n, fold_right N.add 0%N (List.repeat wait_time n)
                      = (N.of_nat n * wait_time)%N) as ->.
    { induction n as [|n IH]; [reflexivity|].
      cbn [List.repeat fold_right]. rewrite IH. lia. }
    lia.
Qed.

Lemma C2_witness :
  exists added,
    _get_analysis_report remote_never "job-1" base_url sample_headers 10 30 []
    = (Raise (TimeoutError "Analysis did not complete after 10 attempts"), added)
    /\ length (sleeps added) = 10%nat
    /\ fold_right N.add 0%N (sleeps added) = 300%N.
Proof.
  destruct (C2_poller_waits_after_every_attempt remote_never "job-1" base_url
              sample_headers 10 30 [])
    as (added & E & _ & Hs & _ & _ & _); [lia | intros tr; reflexivity |].
  exists added. rewrite Hs. repeat split. exact E.
Defined.

(** ** The requests of the workflow *)

Lemma bind_M {A B : Type} (c : M A) (k : A -> M B) (tr : trace) :
  bind c k tr
  = match c tr with
    | (Ok a, tr') => k a tr'
    | (Raise e, tr') => (Raise e, tr')
    end.
Proof. reflexivity. Qed.

Lemma get_file_report_run remote base headers file_hash (tr : trace) :
  let response := get_file remote tr (report_url base file_hash) headers in
  _get_file_report remote base headers file_hash tr
  = (if Response.status_code response =? 200 then
       match Response.json response with
       | Some body => Ok body
       | None => Raise JSONDecodeError
       end
     else if Response.status_code response =? 404 then Ok Lookup.Null
     else Raise (Exception ("Failed to get file report with status code "
                              ++ of_int (Response.status_code response) ++ ": "
                              ++ Response.text response)%string),
     tr ++ [Get (report_url base file_hash) headers]).
Proof.
  intros response. unfold _get_file_report; cbn. fold response.
  destruct (Response.status_code response =? 200).
  - unfold json_of. destruct (Response.json response); reflexivity.
  - destruct (Response.status_code response =? 404); reflexivity.
Qed.

Lemma get_file_behavior_run remote base headers file_hash (tr : trace) :
  let response := get_behaviours remote tr (behavior_url base file_hash) headers in
  _get_file_behavior remote file_hash base headers tr
  = (if Response.status_code response =? 200 then
       match Response.json response with
       | Some behavior => Ok (Some behavior)
       | None => Raise JSONDecodeError
       end
     else if Response.status_code response =? 404 then Ok None
     else Raise (Exception ("Failed to get behavior report with status code "
                              ++ of_int (Response.status_code response) ++ ": "
                              ++ Response.text response)%string),
     tr ++ [Get (behavior_url base file_hash) headers]).
Proof.
  intros response. unfold _get_file_behavior; cbn. fold response.
  destruct (Response.status_code response =? 200).
  - unfold json_of. destruct (Response.json response); reflexivity.
  - destruct (Response.status_code response =? 404); reflexivity.
Qed.

Lemma upload_file_run host remote file_path base headers (tr : trace) :
  let response :=
    post_file remote tr (upload_url base) headers (basename host file_path) in
  _upload_file host remote file_path base headers tr
  = (if Response.status_code response =? 200 then
       match Response.json response with
       | Some reply => Ok reply
       | None => Raise JSONDecodeError
       end
     else Raise (Exception ("File upload failed with status code "
                              ++ of_int (Response.status_code response) ++ ": "
                              ++ Response.text response)%string),
     tr ++ [Post (upload_url base) headers (basename host file_path)]).
Proof.
  intros response. unfold _upload_file; cbn. fold response.
  destruct (Response.status_code response =? 200); [|reflexivity].
  unfold json_of. destruct (Response.json response); reflexivity.
Qed.

(** One turn of the loop of the poller. *)
Lemma analysis_loop_step remote url headers max_attempts wait_time (n : nat)
    (attempt : Z) (tr : trace) :
  let response := get_report remote tr url headers in
  let tr1 := tr ++ [Get url headers] in
  analysis_loop remote url headers max_attempts wait_time (S n) attempt tr
  = if Response.status_code response =? 200 then
      match Response.json response with
      | None => (Raise JSONDecodeError, tr1)
      | Some report =>
          match ReportData.attributes (Report.data report) with
          | None => (Raise (KeyError "attributes"), tr1)
          | Some attributes =>
              match Attrs.status attributes with
              | None => (Raise (KeyError "status"), tr1)
              | Some status =>
                  if String.eqb status "completed" then (Ok (Some report), tr1)
                  else analysis_loop remote url headers max_attempts wait_time
                         n (attempt + 1)
                         (tr ++ pending_round url headers max_attempts
                                  wait_time attempt)
              end
          end
      end
    else (Raise (Exception ("Failed to get analysis report with status code "
                              ++ of_int (Response.status_code response) ++ ": "
                              ++ Response.text response)%string), tr1).
Proof.
  intros response tr1. cbn. fold response. unfold json_of.
  destruct (Response.status_code response =? 200); [|reflexivity].
  destruct (Response.json response) as [report|]; [|reflexivity]. cbn.
  destruct (ReportData.attributes (Report.data report)) as [attributes|];
    [|reflexivity]. cbn.
  destruct (Attrs.status attributes) as [status|]; [|reflexivity]. cbn.
  destruct (String.eqb status "completed"); [reflexivity|].
  unfold pending_round. now rewrite <- !app_assoc.
Qed.

(** The loop of the poller only adds to the trace, and adds no upload. *)
Lemma analysis_loop_extends remote url headers max_attempts wait_time (n : nat) :
  forall attempt tr,
  exists added,
    snd (analysis_loop remote url headers max_attempts wait_time n attempt tr)
    = tr ++ added
    /\ uploads added = 0%nat.
Proof.
  induction n as [|n IH]; intros attempt tr.
  - exists []. cbn. now rewrite app_nil_r.
  - rewrite analysis_loop_step.
    set (response := get_report remote tr url headers).
    destruct (Response.status_code response =? 200);
      [|exists [Get url headers]; split; reflexivity].
    destruct (Response.json response) as [report|];
      [|exists [Get url headers]; split; reflexivity].
    destruct (ReportData.attributes (Report.data report)) as [attributes|];
      [|exists [Get url headers]; split; reflexivity].
    destruct (Attrs.status attributes) as [status|];
      [|exists [Get url headers]; split; reflexivity].
    destruct (String.eqb status "completed");
      [exists [Get url headers]; split; reflexivity|].
    destruct (IH (attempt + 1)
                (tr ++ pending_round url headers max_attempts wait_time attempt))
      as (added & E & Hu).
    exists (pending_round url headers max_attempts wait_time attempt ++ added).
    split.
    + rewrite E. now rewrite <- app_assoc.
    + rewrite uploads_app, Hu. reflexivity.
Qed.

Lemma poller_extends remote file_id base headers max_attempts wait_time tr :
  exists added,
    snd (_get_analysis_report remote file_id base headers max_attempts
           wait_time tr)
    = tr ++ added
    /\ uploads added = 0%nat.
Proof.
  rewrite poller_unfold.
  destruct (analysis_loop_extends remote (analysis_url base file_id) headers
              max_attempts wait_time (Z.to_nat max_attempts) 0 tr)
    as (added & E & Hu).
  exists added. split; [|exact Hu].
  destruct (analysis_loop remote (analysis_url base file_id) headers
              max_attempts wait_time (Z.to_nat max_attempts) 0 tr)
    as [[[report|]|e] tr']; exact E.
Qed.

(** The end of the run: the behaviour query, then the report. *)
Lemma finish_run order remote file_info headers return_report
    static_analysis (tr : trace) :
  let file_hash := Hashes.sha256 (FileInfo.hashes file_info) in
  let results behavior_data report :=
    {| Results.file_info := file_info;
       Results.static_analysis := Some static_analysis;
       Results.dynamic_analysis := behavior_data;
       Results.report := report |} in
  finish order remote file_info headers return_report static_analysis tr
  = (match fst (_get_file_behavior remote file_hash base_url headers
                  (tr ++ [Print "Retrieving behavioral analysis data..."])) with
     | Ok behavior_data =>
         if return_report then
           match _generate_report order (results behavior_data None) with
           | Ok report => Ok (results behavior_data (Some report))
           | Raise e => Raise e
           end
         else Ok (results behavior_data None)
     | Raise e => Raise e
     end,
     tr ++ [ Print "Retrieving behavioral analysis data...";
             Get (behavior_url base_url file_hash) headers ]).
Proof.
  intros file_hash results. unfold finish. fold file_hash.
  rewrite bind_M. unfold print at 1, emit at 1. cbv beta iota.
  rewrite bind_M, get_file_behavior_run. cbv beta iota zeta. cbn [fst].
  set (response := get_behaviours remote _ _ _).
  rewrite <- app_assoc. cbn [app].
  destruct (Response.status_code response =? 200).
  - destruct (Response.json response) as [behavior|]; [|reflexivity].
    destruct return_report; [|reflexivity].
    rewrite bind_M. unfold lift. fold (results (Some behavior) None).
    destruct (_generate_report order (results (Some behavior) None)); reflexivity.
  - destruct (Response.status_code response =? 404); [|reflexivity].
    destruct return_report; [|reflexivity].
    rewrite bind_M. unfold lift. fold (results None None).
    destruct (_generate_report order (results None None)); reflexivity.
Qed.

(** ** The routing of [dy_file] *)

Lemma dy_file_run order host remote file_path api_key return_report tr :
  dy_file order host remote file_path api_key return_report tr
  = match gather host remote file_path api_key tr with
    | (Ok (file_info, headers, static_analysis), tr') =>
        finish order remote file_info headers return_report static_analysis tr'
    | (Raise e, tr') => (Raise e, tr')
    end.
Proof.
  unfold dy_file. rewrite bind_M.
  destruct (gather host remote file_path api_key tr) as [[[[fi h] st]|e] tr'];
    reflexivity.
Qed.

(** A run that has its key and its file reaches the lookup. *)
Lemma gather_run host remote file_path api_key key size :
  key_of host api_key = Some key ->
  getsize host file_path = Ok size ->
  isfile host file_path = true ->
  gather host remote file_path api_key []
  = match _get_file_report remote base_url (headers_of key)
            (Hashes.sha256 (digests host file_path)) lookup_trace with
    | (Ok existing_report, tr) =>
        match obtain_static_analysis host remote file_path (headers_of key)
                existing_report tr with
        | (Ok static_analysis, tr') =>
            (Ok (file_info_of host file_path size, headers_of key,
                 static_analysis), tr')
        | (Raise e, tr') => (Raise e, tr')
        end
    | (Raise e, tr) => (Raise e, tr)
    end.
Proof.
  intros Hkey Hsize Hfile. unfold gather.
  rewrite bind_M.
  assert (resolve_api_key host api_key [] = (Ok key, [])) as ->.
  { unfold resolve_api_key, key_of in *. destruct api_key as [k|].
    - now injection Hkey as ->.
    - now rewrite Hkey. }
  rewrite bind_M. unfold lift at 1. rewrite Hsize.
  rewrite bind_M. unfold print at 1, emit at 1. cbv beta iota.
  rewrite bind_M. unfold _calculate_file_hash. rewrite Hfile. cbn [negb].
  unfold ret at 1; cbn [Monad_M]. cbv beta iota.
  rewrite bind_M. unfold print at 1, emit at 1. cbv beta iota.
  rewrite bind_M. cbn [app]. fold lookup_trace. fold (headers_of key).
  destruct (_get_file_report remote base_url (headers_of key)
              (Hashes.sha256 (digests host file_path)) lookup_trace)
    as [[existing|e] tr]; [|reflexivity].
  rewrite bind_M.
  destruct (obtain_static_analysis host remote file_path (headers_of key)
              existing tr) as [[static|e] tr']; reflexivity.
Qed.

(** The branch of a miss: the upload, then the poller on the job it
    returned. *)
Lemma obtain_after_miss host remote file_path headers existing_report
    (tr : trace) :
  truthy_report existing_report = None ->
  obtain_static_analysis host remote file_path headers existing_report tr
  = match _upload_file host remote file_path base_url headers
            (tr ++ [Print "File not found in VirusTotal database. Uploading for analysis..."]) with
    | (Ok reply, tr') =>
        let analysis_id := UploadData.id (UploadReply.data reply) in
        _get_analysis_report remote analysis_id base_url headers 10 30
          (tr' ++ [ Print ("File uploaded successfully. Analysis ID: "
                             ++ analysis_id)%string;
                    Print "Waiting for analysis to complete..." ])
    | (Raise e, tr') => (Raise e, tr')
    end.
Proof.
  intros Hfalse. unfold obtain_static_analysis. rewrite Hfalse.
  rewrite bind_M. unfold print at 1, emit at 1. cbv beta iota.
  rewrite bind_M.
  destruct (_upload_file host remote file_path base_url headers _)
    as [[reply|e] tr']; [|reflexivity].
  rewrite bind_M. unfold print at 1, emit at 1. cbv beta iota.
  rewrite bind_M. unfold print at 1, emit at 1. cbv beta iota.
  now rewrite <- app_assoc.
Qed.

Lemma obtain_after_hit host remote file_path headers report (tr : trace) :
  obtain_static_analysis host remote file_path headers
    (Lookup.Document report) tr
  = (Ok report,
     tr ++ [Print "File found in VirusTotal database. Retrieving report..."]).
Proof. reflexivity. Qed.

Lemma finish_extends order remote file_info headers return_report static tr :
  snd (finish order remote file_info headers return_report static tr)
  = tr ++ [ Print "Retrieving behavioral analysis data...";
            Get (behavior_url base_url
                   (Hashes.sha256 (FileInfo.hashes file_info))) headers ].
Proof. now rewrite finish_run. Qed.

(** C5, as the claim states it, fails in two ways.  A lookup that gets a
    404 makes the workflow upload the file once, but when the upload is
    refused the run ends there with the remote-service error of the upload:
    no poll sequence follows the upload.  And a lookup that gets a 200
    whose body is [{}] does not keep the workflow from uploading: line 50
    takes the empty object for "no report", and the file is uploaded. *)
Lemma C5_counterexample :
  let run := dy_file order_forward sample_host remote_upload_refused
               "/tmp/sample.bin" None true [] in
  let run' := dy_file order_forward sample_host remote_empty_body
                "/tmp/sample.bin" None true [] in
  (Response.status_code
     (lookup_response sample_host remote_upload_refused "/tmp/sample.bin" "k3y")
   = 404
   /\ fst run
      = Raise (Exception "File upload failed with status code 429: quota exceeded")
   /\ uploads (snd run) = 1%nat
   /\ status_queries (snd run) = 0%nat)
  /\ (Response.status_code
        (lookup_response sample_host remote_empty_body "/tmp/sample.bin" "k3y")
      = 200
      /\ uploads (snd run') = 1%nat).
Proof. vm_compute. repeat split. Qed.

(** What the workflow does once the lookup has found no report. *)
Lemma run_after_miss order host remote file_path api_key return_report key size
    (existing_report : Lookup.t) :
  key_of host api_key = Some key ->
  getsize host file_path = Ok size ->
  isfile host file_path = true ->
  let headers := headers_of key in
  let file_hash := Hashes.sha256 (digests host file_path) in
  let upload := upload_response host remote file_path key in
  let run := dy_file order host remote file_path api_key return_report [] in
  _get_file_report remote base_url headers file_hash lookup_trace
  = (Ok existing_report,
     lookup_trace ++ [Get (report_url base_url file_hash) headers]) ->
  truthy_report existing_report = None ->
  uploads (snd run) = 1%nat
  /\ (forall reply,
         Response.status_code upload = 200 ->
         Response.json upload = Some reply ->
         let analysis_id := UploadData.id (UploadReply.data reply) in
         run
         = (static_analysis <- _get_analysis_report remote analysis_id
                                 base_url headers 10 30 ;;
            finish order remote (file_info_of host file_path size) headers
                   return_report static_analysis)%py
             (uploaded_trace host file_path key analysis_id))
  /\ (Response.status_code upload <> 200 ->
      run
      = (Raise (Exception ("File upload failed with status code "
                             ++ of_int (Response.status_code upload) ++ ": "
                             ++ Response.text upload)%string),
         miss_trace host file_path key
           ++ [Post (upload_url base_url) headers (basename host file_path)])).
Proof.
  intros Hkey Hsize Hfile headers file_hash upload run Hlookup Hfalse.
  assert (Hrun : run
                 = match gather host remote file_path api_key [] with
                   | (Ok (file_info, headers, static_analysis), tr') =>
                       finish order remote file_info headers return_report
                              static_analysis tr'
                   | (Raise e, tr') => (Raise e, tr')
                   end) by apply dy_file_run.
  rewrite (gather_run host remote file_path api_key key size Hkey Hsize Hfile)
    in Hrun.
  fold headers file_hash in Hrun. rewrite Hlookup in Hrun.
  rewrite (obtain_after_miss host remote file_path headers existing_report _
             Hfalse), upload_file_run in Hrun.
  assert (Hmiss : (lookup_trace ++ [Get (report_url base_url file_hash) headers])
                    ++ [Print "File not found in VirusTotal database. Uploading for analysis..."]
                  = miss_trace host file_path key).
  { unfold miss_trace. now rewrite <- app_assoc. }
  rewrite Hmiss in Hrun. fold headers in Hrun.
  change (post_file remote (miss_trace host file_path key)
            (upload_url base_url) headers (basename host file_path))
    with upload in Hrun.
  cbv zeta in Hrun.
  split; [|split].
  - rewrite Hrun.
    assert (Hup : uploads (miss_trace host file_path key
                             ++ [Post (upload_url base_url) headers
                                   (basename host file_path)]) = 1%nat)
      by reflexivity.
    destruct (Response.status_code upload =? 200); [|exact Hup].
    destruct (Response.json upload) as [reply|]; [|exact Hup].
    set (tr_up := (miss_trace host file_path key
                     ++ [Post (upload_url base_url) headers
                           (basename host file_path)])
                    ++ [Print _; Print _]).
    destruct (poller_extends remote (UploadData.id (UploadReply.data reply))
                base_url headers 10 30 tr_up) as (added & E & Hu).
    destruct (_get_analysis_report remote _ base_url headers 10 30 tr_up)
      as [[static|e] tr'] eqn:Epoll; cbn [snd] in E; subst tr'.
    + rewrite finish_extends, !uploads_app, Hu. subst tr_up.
      rewrite uploads_app, Hup. reflexivity.
    + cbn [snd]. rewrite uploads_app, Hu. subst tr_up.
      rewrite uploads_app, Hup. reflexivity.
  - intros reply H200 Hjson analysis_id. rewrite Hrun, H200, Hjson.
    cbn [Z.eqb Pos.eqb]. rewrite bind_M.
    assert (Htr : (miss_trace host file_path key
                     ++ [Post (upload_url base_url) headers
                           (basename host file_path)])
                    ++ [Print ("File uploaded successfully. Analysis ID: "
                                 ++ analysis_id)%string;
                        Print "Waiting for analysis to complete..."]
                  = uploaded_trace host file_path key analysis_id).
    { unfold uploaded_trace. now rewrite <- app_assoc. }
    fold analysis_id. rewrite Htr.
    destruct (_get_analysis_report remote analysis_id base_url headers 10 30
                (uploaded_trace host file_path key analysis_id))
      as [[static|e] tr']; reflexivity.
  - intros Hne. rewrite Hrun.
    destruct (Z.eqb_spec (Response.status_code upload) 200); [contradiction|].
    reflexivity.
Qed.

(** C5, amended.  For every run of the workflow that reaches the lookup:
    - on a 404 the lookup returns the "no report" value [None], not an
      error; on a 200 it returns the parsed body, whatever it is;
    - when the lookup has found no report, which is the case on a 404 and
      also on a 200 whose body Python takes as false ([null], [{}] and the
      like), the workflow uploads the file exactly once; when the upload succeeds, the
      rest of the run is one run of the poller on the job the upload
      returned, followed by the behaviour query and the report; when the
      upload is refused, the run ends with the remote-service error of the
      upload, which carries its status and body, and nothing is polled;
    - on a 200 with a report document the file is never uploaded, and the
      document is the static report of the run;
    - on a 200 whose body is no JSON the run ends right after the lookup
      with the decoding error, and the file is not uploaded;
    - on any other status the run ends right after the lookup with a
      remote-service error that carries the status and the body, and the
      file is not uploaded. *)
Theorem C5_lookup_routing :
  forall (order : SetOrder) (host : Host) (remote : Remote)
         (file_path : string) (api_key : option string) (return_report : bool)
         (key : string) (size : Z),
    key_of host api_key = Some key ->
    getsize host file_path = Ok size ->
    isfile host file_path = true ->
    let headers := headers_of key in
    let file_hash := Hashes.sha256 (digests host file_path) in
    let lookup := lookup_response host remote file_path key in
    let upload := upload_response host remote file_path key in
    let run := dy_file order host remote file_path api_key return_report [] in
    let looked_up := lookup_trace ++ [Get (report_url base_url file_hash) headers] in
    (Response.status_code lookup = 404 ->
       _get_file_report remote base_url headers file_hash lookup_trace
       = (Ok Lookup.Null, looked_up))
    /\ (forall body,
          Response.status_code lookup = 200 ->
          Response.json lookup = Some body ->
          _get_file_report remote base_url headers file_hash lookup_trace
          = (Ok body, looked_up))
    /\ (lookup_missed lookup ->
        uploads (snd run) = 1%nat
        /\ (forall reply,
               Response.status_code upload = 200 ->
               Response.json upload = Some reply ->
               let analysis_id := UploadData.id (UploadReply.data reply) in
               run
               = (static_analysis <- _get_analysis_report remote analysis_id
                                       base_url headers 10 30 ;;
                  finish order remote (file_info_of host file_path size) headers
                         return_report static_analysis)%py
                   (uploaded_trace host file_path key analysis_id))
        /\ (Response.status_code upload <> 200 ->
            run
            = (Raise (Exception ("File upload failed with status code "
                                   ++ of_int (Response.status_code upload) ++ ": "
                                   ++ Response.text upload)%string),
               miss_trace host file_path key
                 ++ [Post (upload_url base_url) headers (basename host file_path)])))
    /\ (forall report,
          Response.status_code lookup = 200 ->
          Response.json lookup = Some (Lookup.Document report) ->
          uploads (snd run) = 0%nat
          /\ run
             = finish order remote (file_info_of host file_path size) headers
                 return_report report
                 (looked_up
                    ++ [Print "File found in VirusTotal database. Retrieving report..."]))
    /\ (Response.status_code lookup = 200 ->
        Response.json lookup = None ->
        run = (Raise JSONDecodeError, looked_up)
        /\ uploads (snd run) = 0%nat)
    /\ (Response.status_code lookup <> 200 ->
        Response.status_code lookup <> 404 ->
        run
        = (Raise (Exception ("Failed to get file report with status code "
                               ++ of_int (Response.status_code lookup) ++ ": "
                               ++ Response.text lookup)%string),
           looked_up)
        /\ uploads (snd run) = 0%nat).
Proof.
  intros order host remote file_path api_key return_report key size
         Hkey Hsize Hfile headers file_hash lookup upload run looked_up.
  assert (Hlookup :
    _get_file_report remote base_url headers file_hash lookup_trace
    = (if Response.status_code lookup =? 200 then
         match Response.json lookup with
         | Some body => Ok body
         | None => Raise JSONDecodeError
         end
       else if Response.status_code lookup =? 404 then Ok Lookup.Null
       else Raise (Exception ("Failed to get file report with status code "
                                ++ of_int (Response.status_code lookup) ++ ": "
                                ++ Response.text lookup)%string),
       looked_up)) by apply get_file_report_run.
  assert (Hrun : run
                 = match gather host remote file_path api_key [] with
                   | (Ok (file_info, headers, static_analysis), tr') =>
                       finish order remote file_info headers return_report
                              static_analysis tr'
                   | (Raise e, tr') => (Raise e, tr')
                   end) by apply dy_file_run.
  rewrite (gather_run host remote file_path api_key key size Hkey Hsize Hfile)
    in Hrun.
  fold headers file_hash in Hrun. rewrite Hlookup in Hrun.
  split; [|split; [|split; [|split; [|split]]]].
  - (* 404: the value of the lookup *)
    intros H404. rewrite Hlookup, H404. reflexivity.
  - (* 200: the value of the lookup *)
    intros body H200 Hjson. rewrite Hlookup, H200, Hjson. reflexivity.
  - (* no report found *)
    intros [H404 | [H200 [Hjson | Hjson]]].
    + apply (run_after_miss order host remote file_path api_key return_report
               key size Lookup.Null Hkey Hsize Hfile); [|reflexivity].
      fold headers file_hash lookup. rewrite Hlookup, H404. reflexivity.
    + apply (run_after_miss order host remote file_path api_key return_report
               key size Lookup.Null Hkey Hsize Hfile); [|reflexivity].
      fold headers file_hash lookup. rewrite Hlookup, H200, Hjson.
      reflexivity.
    + apply (run_after_miss order host remote file_path api_key return_report
               key size Lookup.Falsy Hkey Hsize Hfile); [|reflexivity].
      fold headers file_hash lookup. rewrite Hlookup, H200, Hjson.
      reflexivity.
  - (* 200 with a report document *)
    intros report H200 Hjson. rewrite H200, Hjson in Hrun.
    cbn [Z.eqb Pos.eqb] in Hrun. rewrite obtain_after_hit in Hrun.
    split; [|exact Hrun].
    rewrite Hrun, finish_extends. reflexivity.
  - (* 200 with a body that is no JSON *)
    intros H200 Hjson. rewrite H200, Hjson in Hrun.
    cbn [Z.eqb Pos.eqb] in Hrun. rewrite Hrun. split; reflexivity.
  - (* any other status *)
    intros Hne200 Hne404. rewrite Hrun.
    destruct (Z.eqb_spec (Response.status_code lookup) 200); [contradiction|].
    destruct (Z.eqb_spec (Response.status_code lookup) 404); [contradiction|].
    split; reflexivity.
Qed.

Lemma C5_witness :
  uploads (snd (dy_file order_forward sample_host remote_third
                  "/tmp/sample.bin" None true [])) = 1%nat
  /\ uploads (snd (dy_file order_forward sample_host remote_empty_body
                     "/tmp/sample.bin" None true [])) = 1%nat
  /\ uploads (snd (dy_file order_forward sample_host remote_known
                     "/tmp/sample.bin" None true [])) = 0%nat
  /\ fst (dy_file order_forward sample_host remote_lookup_fails
            "/tmp/sample.bin" None true [])
     = Raise (Exception "Failed to get file report with status code 503: unavailable").
Proof.
  destruct (C5_lookup_routing order_forward sample_host remote_third
              "/tmp/sample.bin" None true "k3y" 2048
              eq_refl eq_refl eq_refl) as (_ & _ & Hmiss & _).
  destruct (C5_lookup_routing order_forward sample_host remote_empty_body
              "/tmp/sample.bin" None true "k3y" 2048
              eq_refl eq_refl eq_refl) as (_ & _ & Hempty & _).
  destruct (C5_lookup_routing order_forward sample_host remote_known
              "/tmp/sample.bin" None true "k3y" 2048
              eq_refl eq_refl eq_refl) as (_ & _ & _ & Hhit & _).
  destruct (C5_lookup_routing order_forward sample_host remote_lookup_fails
              "/tmp/sample.bin" None true "k3y" 2048
              eq_refl eq_refl eq_refl) as (_ & _ & _ & _ & _ & Hfail).
  destruct (Hmiss (or_introl eq_refl)) as (Hone & _).
  destruct (Hempty (or_intror (conj eq_refl (or_intror eq_refl))))
    as (Hone' & _).
  destruct (Hhit completed_report eq_refl eq_refl) as (Hzero & _).
  destruct Hfail as [Hrun _]; [discriminate | discriminate |].
  split; [exact Hone | split; [exact Hone' | split; [exact Hzero|]]].
  now rewrite Hrun.
Defined.

(** ** The behaviour query *)

(** C9.  For every run of the workflow that reaches the behaviour query:
    when the endpoint answers 404 the fetcher returns [None] and raises
    nothing, the run goes on to its end with [dynamic_analysis = None] and
    returns its results (with the report, when the report is asked for and
    the counts are in range for the rate), and the lines of the report are the file information, the
    detection statistics, the header of the dynamic section with the line
    "No dynamic analysis data available for this file" and the conclusion:
    no listing of processes, DNS requests, HTTP requests, registry keys or
    files.  When the endpoint answers neither 200 nor 404 the run ends with
    a remote-service error that carries the status and the body. *)
Theorem C9_behaviour_absent_or_failed :
  forall (order : SetOrder) (host : Host) (remote : Remote)
         (file_path : string) (api_key : option string)
         (file_info : FileInfo.t) (headers : Headers) (static_analysis : Report.t)
         (tr : trace),
    gather host remote file_path api_key [] =
      (Ok (file_info, headers, static_analysis), tr) ->
    let file_hash := Hashes.sha256 (FileInfo.hashes file_info) in
    let asked := tr ++ [Print "Retrieving behavioral analysis data..."] in
    let response :=
      get_behaviours remote asked (behavior_url base_url file_hash) headers in
    let done := asked ++ [Get (behavior_url base_url file_hash) headers] in
    let results report :=
      {| Results.file_info := file_info;
         Results.static_analysis := Some static_analysis;
         Results.dynamic_analysis := None;
         Results.report := report |} in
    (Response.status_code response = 404 ->
       _get_file_behavior remote file_hash base_url headers asked
       = (Ok None, done)
       /\ dy_file order host remote file_path api_key false []
          = (Ok (results None), done)
       /\ dy_file order host remote file_path api_key true []
          = (match _generate_report order (results None) with
             | Ok report => Ok (results (Some report))
             | Raise e => Raise e
             end, done)
       /\ (counts_in_range (Some static_analysis) ->
           exists report,
             _generate_report order (results None) = Ok report
             /\ dy_file order host remote file_path api_key true []
                = (Ok (results (Some report)), done))
       /\ dynamic_analysis_results order None
          = dynamic_header ++ [no_dynamic_data_line]
       /\ (forall title, In title listing_titles ->
             ~ In (nl ++ title)%string (dynamic_analysis_results order None))
       /\ report_lines order (results None)
          = (static <- static_analysis_results (Some static_analysis) ;;
             verdict <- overall_verdict (Some static_analysis) ;;
             ret (file_information file_info ++ static
                    ++ dynamic_header ++ [no_dynamic_data_line]
                    ++ conclusion_header ++ [verdict]))%py)
    /\ (Response.status_code response <> 200 ->
        Response.status_code response <> 404 ->
        forall return_report,
          dy_file order host remote file_path api_key return_report []
          = (Raise (Exception ("Failed to get behavior report with status code "
                                 ++ of_int (Response.status_code response) ++ ": "
                                 ++ Response.text response)%string),
             done)).
Proof.
  intros order host remote file_path api_key file_info headers static_analysis
         tr Hgather file_hash asked response done results.
  assert (Hdone : tr ++ [ Print "Retrieving behavioral analysis data...";
                          Get (behavior_url base_url file_hash) headers ] = done).
  { unfold done, asked. now rewrite <- app_assoc. }
  assert (Hrun : forall return_report,
             dy_file order host remote file_path api_key return_report []
             = finish order remote file_info headers return_report
                      static_analysis tr).
  { intros rr. now rewrite dy_file_run, Hgather. }
  split.
  - intros H404.
    assert (Hfetch : _get_file_behavior remote file_hash base_url headers asked
                     = (Ok None, done)).
    { rewrite get_file_behavior_run. fold response. cbv zeta.
      now rewrite H404. }
    split; [exact Hfetch|].
    assert (Htrue : dy_file order host remote file_path api_key true []
                    = (match _generate_report order (results None) with
                       | Ok report => Ok (results (Some report))
                       | Raise e => Raise e
                       end, done)).
    { rewrite Hrun, finish_run. fold file_hash asked.
      rewrite Hfetch, Hdone. reflexivity. }
    split; [|split; [|split; [|split; [|split]]]].
    + rewrite Hrun, finish_run. fold file_hash asked.
      rewrite Hfetch, Hdone. reflexivity.
    + exact Htrue.
    + intros Hrange.
      destruct (generate_report_total order (results None) Hrange)
        as (report & Hreport).
      exists report. split; [exact Hreport|].
      rewrite Htrue, Hreport. reflexivity.
    + reflexivity.
    + intros title Hin Hline. cbn in Hin, Hline.
      repeat (destruct Hin as [<-|Hin]; [intuition discriminate|]).
      exact Hin.
    + unfold results. sections. reflexivity.
  - intros Hne200 Hne404 rr.
    rewrite Hrun, finish_run. fold file_hash asked.
    rewrite get_file_behavior_run. fold response. cbv zeta.
    destruct (Z.eqb_spec (Response.status_code response) 200); [contradiction|].
    destruct (Z.eqb_spec (Response.status_code response) 404); [contradiction|].
    cbn [fst]. now rewrite Hdone.
Qed.

Lemma C9_witness :
  fst (dy_file order_forward sample_host remote_known "/tmp/sample.bin" None
         false [])
  = Ok {| Results.file_info := file_info_of sample_host "/tmp/sample.bin" 2048;
          Results.static_analysis := Some completed_report;
          Results.dynamic_analysis := None;
          Results.report := None |}
  /\ fst (dy_file order_forward sample_host remote_behaviour_fails
            "/tmp/sample.bin" None true [])
     = Raise (Exception "Failed to get behavior report with status code 500: internal error")
  /\ exists report,
       fst (dy_file order_forward sample_host remote_known "/tmp/sample.bin"
              None true [])
       = Ok {| Results.file_info := file_info_of sample_host "/tmp/sample.bin" 2048;
               Results.static_analysis := Some completed_report;
               Results.dynamic_analysis := None;
               Results.report := Some report |}.
Proof.
  destruct (C9_behaviour_absent_or_failed order_forward sample_host remote_known
              "/tmp/sample.bin" None
              (file_info_of sample_host "/tmp/sample.bin" 2048)
              (headers_of "k3y") completed_report hit_trace eq_refl)
    as [Habsent _].
  destruct (C9_behaviour_absent_or_failed order_forward sample_host
              remote_behaviour_fails "/tmp/sample.bin" None
              (file_info_of sample_host "/tmp/sample.bin" 2048)
              (headers_of "k3y") completed_report hit_trace eq_refl)
    as [_ Hfailed].
  destruct (Habsent eq_refl) as (_ & Hrun & _ & Hreport & _).
  split; [|split].
  - now rewrite Hrun.
  - rewrite (Hfailed ltac:(discriminate) ltac:(discriminate) true).
    reflexivity.
  - destruct Hreport as (report & _ & Hrun').
    + vm_compute. reflexivity.
    + exists report. now rewrite Hrun'.
Defined.


(** * Further properties *)

(** ** The poller, whatever the service answers *)

(** An answer to a status query is of exactly one kind: it reports a
    status other than "completed", it reports "completed", or it is
    fatal. *)
Lemma response_kinds (response : Response.t Report.t) :
  (pending response = true /\ completed response = false /\ fatal response = None)
  \/ (pending response = false /\ completed response = true
      /\ fatal response = None)
  \/ (pending response = false /\ completed response = false
      /\ exists e, fatal response = Some e).
Proof.
  unfold pending, completed, reported_status, fatal.
  destruct (Response.status_code response =? 200); [|right; right; eauto].
  destruct (Response.json response) as [report|]; [|right; right; eauto].
  destruct (ReportData.attributes (Report.data report)) as [attributes|];
    [|right; right; eauto].
  destruct (Attrs.status attributes) as [status|]; [|right; right; eauto].
  destruct (String.eqb status "completed"); cbn; auto.
Qed.

(** A fatal answer never raises the timeout error. *)
Lemma fatal_not_timeout (response : Response.t Report.t) (e : exn) :
  fatal response = Some e -> forall msg, e <> TimeoutError msg.
Proof.
  unfold fatal. intros H msg ->.
  destruct (Response.status_code response =? 200); [|discriminate].
  destruct (Response.json response) as [report|]; [|discriminate].
  destruct (ReportData.attributes (Report.data report)) as [attributes|];
    [|discriminate].
  destruct (Attrs.status attributes); discriminate.
Qed.

(** One turn of the loop on a fatal answer: the query, then the error. *)
Lemma loop_step_fatal remote url headers max_attempts wait_time (n : nat)
    (attempt : Z) (tr : trace) (e : exn) :
  fatal (get_report remote tr url headers) = Some e ->
  analysis_loop remote url headers max_attempts wait_time (S n) attempt tr
  = (Raise e, tr ++ [Get url headers]).
Proof.
  intros H. rewrite analysis_loop_step. unfold fatal in H.
  destruct (Response.status_code (get_report remote tr url headers) =? 200).
  - destruct (Response.json (get_report remote tr url headers)) as [report|];
      [|now injection H as <-].
    destruct (ReportData.attributes (Report.data report)) as [attributes|];
      [|now injection H as <-].
    destruct (Attrs.status attributes) as [status|]; [discriminate|].
    now injection H as <-.
  - now injection H as <-.
Qed.

Lemma Forall_poll_event_round url headers max_attempts wait_time attempt :
  Forall (poll_event url headers wait_time)
         (pending_round url headers max_attempts wait_time attempt).
Proof. repeat constructor. Qed.

Lemma queries_round url headers max_attempts wait_time attempt :
  queries url (pending_round url headers max_attempts wait_time attempt) = 1%nat.
Proof. unfold queries; cbn. now rewrite String.eqb_refl. Qed.

Lemma queries_get url headers : queries url [Get url headers] = 1%nat.
Proof. unfold queries; cbn. now rewrite String.eqb_refl. Qed.

(** What the loop of the poller does in [n] turns at most, for every
    service: [q] queries and [s] waits, a wait after each query but
    possibly the last. *)
Lemma analysis_loop_budget remote url headers max_attempts wait_time (n : nat) :
  forall attempt tr,
  exists added (q s : nat),
    snd (analysis_loop remote url headers max_attempts wait_time n attempt tr)
    = tr ++ added
    /\ Forall (poll_event url headers wait_time) added
    /\ queries url added = q
    /\ sleeps added = List.repeat wait_time s
    /\ (q <= n)%nat
    /\ match fst (analysis_loop remote url headers max_attempts wait_time n
                    attempt tr) with
       | Ok (Some report) =>
           q = S s
           /\ exists attributes,
                ReportData.attributes (Report.data report) = Some attributes
                /\ Attrs.status attributes = Some "completed"%string
       | Ok None => q = n /\ s = n
       | Raise e => q = S s /\ forall msg, e <> TimeoutError msg
       end.
Proof.
  induction n as [|n IH]; intros attempt tr.
  - exists [], 0%nat, 0%nat. cbn. rewrite app_nil_r. repeat split; constructor.
  - destruct (response_kinds (get_report remote tr url headers))
      as [(Hp & _ & _) | [(_ & Hc & _) | (_ & _ & e & Hf)]].
    + rewrite (loop_step_pending remote url headers max_attempts wait_time
                 n attempt tr Hp).
      destruct (IH (attempt + 1)
                  (tr ++ pending_round url headers max_attempts wait_time attempt))
        as (added & q & s & E & Hall & Hq & Hs & Hle & Hres).
      exists (pending_round url headers max_attempts wait_time attempt ++ added),
        (S q), (S s).
      split; [rewrite E; now rewrite <- app_assoc|].
      split; [apply Forall_app; split;
              [apply Forall_poll_event_round | exact Hall]|].
      split; [rewrite queries_app, queries_round, Hq; reflexivity|].
      split; [rewrite sleeps_app, Hs; reflexivity|].
      split; [lia|].
      destruct (fst (analysis_loop remote url headers max_attempts wait_time n
                       (attempt + 1)
                       (tr ++ pending_round url headers max_attempts wait_time
                                attempt))) as [[report|]|e].
      * destruct Hres as [-> Hattr]. split; [reflexivity | exact Hattr].
      * destruct Hres as [-> ->]. split; reflexivity.
      * destruct Hres as [-> Hne]. split; [reflexivity | exact Hne].
    + destruct (completed_inv _ Hc) as (report & attributes & Hcode & Hj & Ha & Hs).
      destruct (loop_step_completed remote url headers max_attempts wait_time
                  n attempt tr Hc) as (report' & Hj' & E).
      rewrite Hj in Hj'. injection Hj' as <-.
      exists [Get url headers], 1%nat, 0%nat. rewrite E. cbn [fst snd].
      split; [reflexivity|].
      split; [repeat constructor|].
      split; [apply queries_get|].
      split; [reflexivity|]. split; [lia|].
      split; [reflexivity|]. exists attributes. auto.
    + rewrite (loop_step_fatal remote url headers max_attempts wait_time
                 n attempt tr e Hf).
      exists [Get url headers], 1%nat, 0%nat. cbn [fst snd].
      split; [reflexivity|].
      split; [repeat constructor|].
      split; [apply queries_get|].
      split; [reflexivity|]. split; [lia|].
      split; [reflexivity | exact (fatal_not_timeout _ _ Hf)].
Qed.

(** X1.  Whatever the service answers, a run of the poller sends [q] status
    queries and waits [s] times, with [q <= max_attempts]; every event it
    adds to the trace is a query of the analysis address with the headers it
    was given, a printed line, or a wait of [wait_time] seconds (so it never
    uploads and never queries another address).  When it returns a report,
    that report has the status "completed" and [q = s + 1]; when it raises
    the timeout error, [q = s = max_attempts]; any other error is not a
    timeout error and [q = s + 1]: the failed query is the last one and no
    wait follows it. *)
Theorem X1_poller_budget :
  forall (remote : Remote) (file_id base_url : string) (headers : Headers)
         (max_attempts : Z) (wait_time : N) (tr0 : trace),
    let url := analysis_url base_url file_id in
    let run := _get_analysis_report remote file_id base_url headers
                 max_attempts wait_time tr0 in
    exists added (q s : nat),
      snd run = tr0 ++ added
      /\ Forall (poll_event url headers wait_time) added
      /\ queries url added = q
      /\ sleeps added = List.repeat wait_time s
      /\ Z.of_nat q <= Z.max 0 max_attempts
      /\ match fst run with
         | Ok report =>
             q = S s
             /\ exists attributes,
                  ReportData.attributes (Report.data report) = Some attributes
                  /\ Attrs.status attributes = Some "completed"%string
         | Raise e =>
             (e = TimeoutError (timeout_message max_attempts)
              /\ Z.of_nat q = Z.max 0 max_attempts /\ s = q)
             \/ (q = S s /\ forall msg, e <> TimeoutError msg)
         end.
Proof.
  intros remote file_id base_url headers max_attempts wait_time tr0 url run.
  destruct (analysis_loop_budget remote url headers max_attempts wait_time
              (Z.to_nat max_attempts) 0 tr0)
    as (added & q & s & E & Hall & Hq & Hs & Hle & Hres).
  exists added, q, s. subst run. rewrite poller_unfold. fold url.
  destruct (analysis_loop remote url headers max_attempts wait_time
              (Z.to_nat max_attempts) 0 tr0) as [[[report|]|e] tr'];
    cbn [fst snd] in *.
  - do 5 (split; [assumption || lia|]). exact Hres.
  - do 5 (split; [assumption || lia|]). left.
    split; [reflexivity | lia].
  - do 5 (split; [assumption || lia|]). right. exact Hres.
Qed.

(** X2.  An answer to a status query that is fatal ends the polling at once.
    After [k] answers that report a status other than "completed", a fatal
    answer makes the poller raise the exception of that answer (the
    [Exception] with the status code and the body for a status code other
    than 200, [JSONDecodeError] for a body that is no JSON document,
    [KeyError] for a document without "attributes" or "status"): the failed
    query is the last event, no wait follows it and no attempt is made
    again, however many attempts are left. *)
Theorem X2_poller_fatal_answer :
  forall (remote : Remote) (file_id base_url : string) (headers : Headers)
         (max_attempts : Z) (wait_time : N) (tr0 : trace) (k : nat) (e : exn),
    let url := analysis_url base_url file_id in
    let rounds := pending_rounds url headers max_attempts wait_time 0 in
    Z.of_nat k < max_attempts ->
    (forall j, (j < k)%nat ->
       pending (get_report remote (tr0 ++ rounds j) url headers) = true) ->
    fatal (get_report remote (tr0 ++ rounds k) url headers) = Some e ->
    _get_analysis_report remote file_id base_url headers max_attempts
      wait_time tr0
    = (Raise e, tr0 ++ rounds k ++ [Get url headers])
    /\ queries url (rounds k ++ [Get url headers]) = S k
    /\ length (sleeps (rounds k ++ [Get url headers])) = k.
Proof.
  intros remote file_id base_url headers max_attempts wait_time tr0 k e
         url rounds Hk Hpending Hfatal.
  split; [|split].
  - rewrite poller_unfold. fold url.
    assert (Z.to_nat max_attempts = (k + S (Z.to_nat max_attempts - S k))%nat)
      as -> by lia.
    rewrite (loop_pending_prefix remote url headers max_attempts wait_time
               k _ 0 tr0 Hpending).
    fold rounds.
    rewrite (loop_step_fatal remote url headers max_attempts wait_time _ _ _
               e Hfatal).
    now rewrite <- app_assoc.
  - rewrite queries_app. unfold rounds.
    rewrite queries_pending_rounds, queries_get. lia.
  - rewrite sleeps_app. unfold rounds.
    rewrite sleeps_pending_rounds, length_app, repeat_length. cbn. lia.
Qed.

Lemma X2_witness :
  _get_analysis_report remote_poll_refused "job-1" base_url sample_headers
    10 30 []
  = (Raise (Exception "Failed to get analysis report with status code 429: quota exceeded"),
     pending_rounds (analysis_url base_url "job-1") sample_headers 10 30 0 2
       ++ [Get (analysis_url base_url "job-1") sample_headers]).
Proof.
  destruct (X2_poller_fatal_answer remote_poll_refused "job-1" base_url
              sample_headers 10 30 [] 2
              (Exception "Failed to get analysis report with status code 429: quota exceeded"))
    as (E & _ & _).
  - lia.
  - intros j Hj. destruct j as [|[|j]]; [reflexivity | reflexivity | lia].
  - reflexivity.
  - exact E.
Defined.

(** X3.  With no attempt allowed ([max_attempts <= 0]) the poller raises
    the timeout error at once: it sends no query, prints nothing and does
    not wait, whatever the service would have answered. *)
Theorem X3_poller_no_attempt :
  forall (remote : Remote) (file_id base_url : string) (headers : Headers)
         (max_attempts : Z) (wait_time : N) (tr0 : trace),
    max_attempts <= 0 ->
    _get_analysis_report remote file_id base_url headers max_attempts
      wait_time tr0
    = (Raise (TimeoutError ("Analysis did not complete after "
                              ++ of_int max_attempts ++ " attempts")%string),
       tr0).
Proof.
  intros remote file_id base_url headers max_attempts wait_time tr0 H.
  rewrite poller_unfold.
  assert (Z.to_nat max_attempts = 0%nat) as -> by lia.
  reflexivity.
Qed.

Lemma X3_witness :
  _get_analysis_report remote_third "job-1" base_url sample_headers 0 30 []
  = (Raise (TimeoutError "Analysis did not complete after 0 attempts"), []).
Proof.
  apply (X3_poller_no_attempt remote_third "job-1" base_url sample_headers
           0 30 []). lia.
Defined.

(** ** Runs of [dy_file], whatever the machine and the service *)

Lemma requests_app (tr1 tr2 : trace) :
  requests (tr1 ++ tr2) = requests tr1 ++ requests tr2.
Proof. unfold requests. apply filter_app. Qed.

Lemma requests_repeat_length (e : event) (n : nat) :
  is_request e = true -> length (requests (List.repeat e n)) = n.
Proof.
  intros H. induction n as [|n IH]; [reflexivity|].
  cbn [List.repeat]. unfold requests in *. cbn [filter]. rewrite H.
  cbn [length]. now rewrite IH.
Qed.

(** The requests of a poller are its status queries. *)
Lemma poll_requests url headers wait_time (added : trace) :
  Forall (poll_event url headers wait_time) added ->
  requests added = List.repeat (Get url headers) (queries url added)
  /\ uploads added = 0%nat.
Proof.
  induction 1 as [|e added He _ [IHr IHu]]; [split; reflexivity|].
  destruct e as [line|u h|u h f|seconds]; cbn in He.
  - split; [exact IHr | exact IHu].
  - destruct He as [-> ->]. unfold requests, queries, uploads in *.
    cbn [filter is_request is_get is_post]. rewrite String.eqb_refl.
    cbn [length List.repeat]. now rewrite IHr.
  - contradiction.
  - split; [exact IHr | exact IHu].
Qed.

Lemma poll_event_workflow host file_path key analysis_id (e : event) :
  poll_event (analysis_url base_url analysis_id) (headers_of key) 30 e ->
  workflow_event host file_path key e.
Proof.
  destruct e as [line|u h|u h f|seconds]; cbn; try tauto.
  intros [-> ->]. split; [reflexivity|]. right; right. now exists analysis_id.
Qed.

(** What a run of the poller adds to the trace, for every service. *)
Lemma poller_shape remote file_id base headers max_attempts wait_time tr :
  let url := analysis_url base file_id in
  let run := _get_analysis_report remote file_id base headers max_attempts
               wait_time tr in
  exists added (q s : nat),
    snd run = tr ++ added
    /\ Forall (poll_event url headers wait_time) added
    /\ requests added = List.repeat (Get url headers) q
    /\ sleeps added = List.repeat wait_time s
    /\ (s <= q <= Z.to_nat max_attempts)%nat
    /\ forall report, fst run = Ok report ->
         (1 <= q)%nat /\ shows_completed report.
Proof.
  intros url run.
  destruct (analysis_loop_budget remote url headers max_attempts wait_time
              (Z.to_nat max_attempts) 0 tr)
    as (added & q & s & E & Hall & Hq & Hs & Hle & Hres).
  exists added, q, s. subst run. rewrite poller_unfold. fold url.
  destruct (analysis_loop remote url headers max_attempts wait_time
              (Z.to_nat max_attempts) 0 tr) as [[[report|]|e] tr'];
    cbn [fst snd] in *;
    (split; [exact E|]); (split; [exact Hall|]);
    (split; [rewrite <- Hq; apply (poll_requests _ _ _ _ Hall)|]);
    (split; [exact Hs|]).
  - destruct Hres as [-> Hattr]. split; [lia|].
    intros report' [= <-]. split; [lia | exact Hattr].
  - split; [lia | discriminate].
  - split; [lia | discriminate].
Qed.

(** The run of [gather] from any trace. *)
Lemma gather_from host remote file_path api_key (tr : trace) :
  gather host remote file_path api_key tr
  = match key_of host api_key with
    | None => (Raise (ValueError no_key_message), tr)
    | Some key =>
        match getsize host file_path with
        | Raise e => (Raise e, tr)
        | Ok size =>
            if isfile host file_path then
              match _get_file_report remote base_url (headers_of key)
                      (Hashes.sha256 (digests host file_path))
                      (tr ++ lookup_trace) with
              | (Ok existing_report, tr1) =>
                  match obtain_static_analysis host remote file_path
                          (headers_of key) existing_report tr1 with
                  | (Ok static_analysis, tr2) =>
                      (Ok (file_info_of host file_path size, headers_of key,
                           static_analysis), tr2)
                  | (Raise e, tr2) => (Raise e, tr2)
                  end
              | (Raise e, tr1) => (Raise e, tr1)
              end
            else
              (Raise (FileNotFoundError
                        ("The file " ++ file_path ++ " does not exist")%string),
               tr ++ [Print "Calculating file hashes..."])
        end
    end.
Proof.
  unfold gather. rewrite bind_M.
  assert (resolve_api_key host api_key tr
          = match key_of host api_key with
            | Some key => (Ok key, tr)
            | None => (Raise (ValueError no_key_message), tr)
            end) as ->.
  { unfold resolve_api_key, key_of. destruct api_key as [k|]; [reflexivity|].
    now destruct (VT_API_KEY host). }
  destruct (key_of host api_key) as [key|]; [|reflexivity].
  rewrite bind_M. unfold lift at 1.
  destruct (getsize host file_path) as [size|e]; [|reflexivity].
  rewrite bind_M. unfold print at 1, emit at 1. cbv beta iota.
  rewrite bind_M. unfold _calculate_file_hash.
  destruct (isfile host file_path); cbn [negb]; [|reflexivity].
  unfold ret at 1; cbn [Monad_M]. cbv beta iota.
  rewrite bind_M. unfold print at 1, emit at 1. cbv beta iota.
  rewrite bind_M. rewrite <- app_assoc. cbn [app]. fold lookup_trace.
  fold (headers_of key).
  destruct (_get_file_report remote base_url (headers_of key)
              (Hashes.sha256 (digests host file_path)) (tr ++ lookup_trace))
    as [[existing|e] tr1]; [|reflexivity].
  rewrite bind_M.
  destruct (obtain_static_analysis host remote file_path (headers_of key)
              existing tr1) as [[static|e] tr2]; reflexivity.
Qed.

(** The run of [dy_file] from any trace, stage by stage. *)
Lemma dy_file_from order host remote file_path api_key return_report
    (tr : trace) :
  dy_file order host remote file_path api_key return_report tr
  = match key_of host api_key with
    | None => (Raise (ValueError no_key_message), tr)
    | Some key =>
        match getsize host file_path with
        | Raise e => (Raise e, tr)
        | Ok size =>
            if isfile host file_path then
              match _get_file_report remote base_url (headers_of key)
                      (Hashes.sha256 (digests host file_path))
                      (tr ++ lookup_trace) with
              | (Ok existing_report, tr1) =>
                  match obtain_static_analysis host remote file_path
                          (headers_of key) existing_report tr1 with
                  | (Ok static_analysis, tr2) =>
                      finish order remote (file_info_of host file_path size)
                        (headers_of key) return_report static_analysis tr2
                  | (Raise e, tr2) => (Raise e, tr2)
                  end
              | (Raise e, tr1) => (Raise e, tr1)
              end
            else
              (Raise (FileNotFoundError
                        ("The file " ++ file_path ++ " does not exist")%string),
               tr ++ [Print "Calculating file hashes..."])
        end
    end.
Proof.
  rewrite dy_file_run, gather_from.
  destruct (key_of host api_key) as [key|]; [|reflexivity].
  destruct (getsize host file_path) as [size|e]; [|reflexivity].
  destruct (isfile host file_path); [|reflexivity].
  destruct (_get_file_report remote base_url (headers_of key)
              (Hashes.sha256 (digests host file_path)) (tr ++ lookup_trace))
    as [[existing|e] tr1]; [|reflexivity].
  destruct (obtain_static_analysis host remote file_path (headers_of key)
              existing tr1) as [[static|e] tr2]; reflexivity.
Qed.

(** What the step after the lookup adds to the trace: nothing but a line
    when the lookup found a report; else one upload and, when the upload
    succeeded, a run of the poller on the job of the upload. *)
Lemma obtain_shape host remote file_path key existing (tr : trace) :
  let headers := headers_of key in
  let run := obtain_static_analysis host remote file_path headers existing tr in
  exists added (s : nat),
    snd run = tr ++ added
    /\ Forall (workflow_event host file_path key) added
    /\ sleeps added = List.repeat 30%N s
    /\ ((s = 0%nat /\ requests added = []
         /\ exists report,
              existing = Lookup.Document report /\ fst run = Ok report)
        \/ (truthy_report existing = None
            /\ exists analysis_id (q : nat),
                 (s <= q <= 10)%nat
                 /\ requests added
                    = Post (upload_url base_url) headers
                        (basename host file_path)
                      :: List.repeat
                           (Get (analysis_url base_url analysis_id) headers) q
                 /\ forall static_analysis,
                      fst run = Ok static_analysis ->
                      (1 <= q)%nat /\ shows_completed static_analysis)).
Proof.
  intros headers run. subst run.
  destruct (truthy_report existing) as [report|] eqn:Htruth.
  - assert (existing = Lookup.Document report) as ->
      by (destruct existing as [| |r]; cbn in Htruth; congruence).
    rewrite obtain_after_hit.
    exists [Print "File found in VirusTotal database. Retrieving report..."],
      0%nat.
    split; [reflexivity|]. split; [repeat constructor|].
    split; [reflexivity|]. left.
    split; [reflexivity|]. split; [reflexivity|]. now exists report.
  - rewrite (obtain_after_miss host remote file_path headers existing tr Htruth),
      upload_file_run.
    cbv zeta.
    set (tr1 := tr ++ [Print "File not found in VirusTotal database. Uploading for analysis..."]).
    set (response := post_file remote tr1 (upload_url base_url) headers
                       (basename host file_path)).
    assert (Hfailed : forall e,
      exists added (s : nat),
        snd (@Raise Report.t e,
             tr1 ++ [Post (upload_url base_url) headers (basename host file_path)])
        = tr ++ added
        /\ Forall (workflow_event host file_path key) added
        /\ sleeps added = List.repeat 30%N s
        /\ ((s = 0%nat /\ requests added = []
             /\ exists report, existing = Lookup.Document report
                  /\ fst (@Raise Report.t e,
                          tr1 ++ [Post (upload_url base_url) headers
                                    (basename host file_path)]) = Ok report)
            \/ (@None Report.t = None
                /\ exists analysis_id (q : nat),
                     (s <= q <= 10)%nat
                     /\ requests added
                        = Post (upload_url base_url) headers
                            (basename host file_path)
                          :: List.repeat
                               (Get (analysis_url base_url analysis_id) headers) q
                     /\ forall static_analysis,
                          fst (@Raise Report.t e,
                               tr1 ++ [Post (upload_url base_url) headers
                                         (basename host file_path)])
                          = Ok static_analysis ->
                          (1 <= q)%nat /\ shows_completed static_analysis))).
    { intros e.
      exists [Print "File not found in VirusTotal database. Uploading for analysis...";
              Post (upload_url base_url) headers (basename host file_path)],
        0%nat.
      split; [subst tr1; cbn [snd]; now rewrite <- app_assoc|].
      split; [repeat constructor|].
      split; [reflexivity|]. right. split; [reflexivity|].
      exists ""%string, 0%nat. split; [lia|]. split; [reflexivity|].
      discriminate. }
    destruct (Response.status_code response =? 200); [|apply Hfailed].
    destruct (Response.json response) as [reply|]; [|apply Hfailed].
    clear Hfailed.
    set (analysis_id := UploadData.id (UploadReply.data reply)).
    set (tr2 := (tr1 ++ [Post (upload_url base_url) headers
                           (basename host file_path)])
                 ++ [Print ("File uploaded successfully. Analysis ID: "
                              ++ analysis_id)%string;
                     Print "Waiting for analysis to complete..."]).
    destruct (poller_shape remote analysis_id base_url headers 10 30 tr2)
      as (added & q & s & E & Hall & Hr & Hs & Hle & Hok).
    exists ([Print "File not found in VirusTotal database. Uploading for analysis...";
             Post (upload_url base_url) headers (basename host file_path);
             Print ("File uploaded successfully. Analysis ID: "
                      ++ analysis_id)%string;
             Print "Waiting for analysis to complete..."] ++ added), s.
    split; [rewrite E; subst tr2 tr1; now rewrite <- !app_assoc|].
    split.
    { apply Forall_app. split; [repeat constructor|].
      eapply Forall_impl; [|exact Hall].
      intros e. apply poll_event_workflow. }
    split; [rewrite sleeps_app; exact Hs|].
    right. split; [reflexivity|]. exists analysis_id, q.
    split; [change (Z.to_nat 10) with 10%nat in Hle; lia|].
    split; [rewrite requests_app, Hr; reflexivity|].
    exact Hok.
Qed.

(** A run that has its key and its file: the lookup, then nothing or an
    upload with its status queries, then the behaviour query unless the run
    ended before. *)
Lemma dy_file_shape order host remote file_path api_key return_report key size
    (tr0 : trace) :
  key_of host api_key = Some key ->
  getsize host file_path = Ok size ->
  isfile host file_path = true ->
  let headers := headers_of key in
  let file_hash := Hashes.sha256 (digests host file_path) in
  let run := dy_file order host remote file_path api_key return_report tr0 in
  exists added (s : nat) (middle : list event) (reached : bool),
    snd run = tr0 ++ added
    /\ Forall (workflow_event host file_path key) added
    /\ sleeps added = List.repeat 30%N s
    /\ requests added
       = Get (report_url base_url file_hash) headers
         :: middle
         ++ (if reached then [Get (behavior_url base_url file_hash) headers]
             else [])
    /\ ((middle = [] /\ s = 0%nat)
        \/ exists analysis_id (q : nat),
             (s <= q <= 10)%nat
             /\ (reached = true -> (1 <= q)%nat)
             /\ middle
                = Post (upload_url base_url) headers (basename host file_path)
                  :: List.repeat
                       (Get (analysis_url base_url analysis_id) headers) q)
    /\ forall results,
         fst run = Ok results ->
         reached = true
         /\ Results.file_info results = file_info_of host file_path size
         /\ exists static_analysis,
              Results.static_analysis results = Some static_analysis
              /\ (middle = [] \/ shows_completed static_analysis).
Proof.
  intros Hkey Hsize Hfile headers file_hash run. subst run.
  rewrite dy_file_from, Hkey, Hsize, Hfile.
  fold headers file_hash. rewrite get_file_report_run. cbv zeta.
  set (lookup := Get (report_url base_url file_hash) headers).
  set (response := get_file remote (tr0 ++ lookup_trace)
                     (report_url base_url file_hash) headers).
  assert (Hfailed : forall e,
    exists added (s : nat) (middle : list event) (reached : bool),
      snd (@Raise Results.t e, (tr0 ++ lookup_trace) ++ [lookup]) = tr0 ++ added
      /\ Forall (workflow_event host file_path key) added
      /\ sleeps added = List.repeat 30%N s
      /\ requests added
         = lookup :: middle
           ++ (if reached then [Get (behavior_url base_url file_hash) headers]
               else [])
      /\ ((middle = [] /\ s = 0%nat)
          \/ exists analysis_id (q : nat),
               (s <= q <= 10)%nat
               /\ (reached = true -> (1 <= q)%nat)
               /\ middle
                  = Post (upload_url base_url) headers (basename host file_path)
                    :: List.repeat
                         (Get (analysis_url base_url analysis_id) headers) q)
      /\ forall results,
           fst (@Raise Results.t e, (tr0 ++ lookup_trace) ++ [lookup])
           = Ok results ->
           reached = true
           /\ Results.file_info results = file_info_of host file_path size
           /\ exists static_analysis,
                Results.static_analysis results = Some static_analysis
                /\ (middle = [] \/ shows_completed static_analysis)).
  { intros e. exists (lookup_trace ++ [lookup]), 0%nat, [], false.
    split; [cbn [snd]; now rewrite <- app_assoc|].
    split.
    { apply Forall_app. split; [repeat constructor|].
      constructor; [|constructor]. split; [reflexivity | now left]. }
    split; [reflexivity|]. split; [reflexivity|].
    split; [now left | discriminate]. }
  assert (Hgoes : forall existing,
    exists added (s : nat) (middle : list event) (reached : bool),
      snd (match obtain_static_analysis host remote file_path headers existing
                   ((tr0 ++ lookup_trace) ++ [lookup]) with
           | (Ok static_analysis, tr2) =>
               finish order remote (file_info_of host file_path size) headers
                 return_report static_analysis tr2
           | (Raise e, tr2) => (Raise e, tr2)
           end) = tr0 ++ added
      /\ Forall (workflow_event host file_path key) added
      /\ sleeps added = List.repeat 30%N s
      /\ requests added
         = lookup :: middle
           ++ (if reached then [Get (behavior_url base_url file_hash) headers]
               else [])
      /\ ((middle = [] /\ s = 0%nat)
          \/ exists analysis_id (q : nat),
               (s <= q <= 10)%nat
               /\ (reached = true -> (1 <= q)%nat)
               /\ middle
                  = Post (upload_url base_url) headers (basename host file_path)
                    :: List.repeat
                         (Get (analysis_url base_url analysis_id) headers) q)
      /\ forall results,
           fst (match obtain_static_analysis host remote file_path headers
                        existing ((tr0 ++ lookup_trace) ++ [lookup]) with
                | (Ok static_analysis, tr2) =>
                    finish order remote (file_info_of host file_path size)
                      headers return_report static_analysis tr2
                | (Raise e, tr2) => (Raise e, tr2)
                end) = Ok results ->
           reached = true
           /\ Results.file_info results = file_info_of host file_path size
           /\ exists static_analysis,
                Results.static_analysis results = Some static_analysis
                /\ (middle = [] \/ shows_completed static_analysis)).
  { intros existing.
    destruct (obtain_shape host remote file_path key existing
                ((tr0 ++ lookup_trace) ++ [lookup]))
      as (added & s & E & Hall & Hs & Hcases).
    fold headers in E, Hcases.
    destruct (obtain_static_analysis host remote file_path headers existing
                ((tr0 ++ lookup_trace) ++ [lookup]))
      as [[static_analysis|e] tr2]; cbn [fst snd] in E, Hcases; subst tr2.
    - (* the static analysis is there: the behaviour query follows *)
      rewrite finish_run. cbv zeta. cbn [fst snd].
      change (Hashes.sha256 (FileInfo.hashes (file_info_of host file_path size)))
        with file_hash.
      set (behaviour := Get (behavior_url base_url file_hash) headers).
      exists (lookup_trace ++ [lookup] ++ added
                ++ [Print "Retrieving behavioral analysis data..."; behaviour]),
        s, (requests added), true.
      split; [now rewrite <- !app_assoc|].
      split.
      { repeat (apply Forall_app; split); trivial.
        - repeat constructor.
        - constructor; [|constructor]. split; [reflexivity | now left].
        - constructor; [exact I|]. constructor; [|constructor].
          split; [reflexivity | right; now left]. }
      split.
      { rewrite !sleeps_app, Hs. cbn. now rewrite app_nil_r. }
      split.
      { rewrite !requests_app. reflexivity. }
      split.
      { destruct Hcases as [(-> & Hr & _) | (_ & analysis_id & q & Hle & Hr & Hok)].
        - left. now split.
        - right. exists analysis_id, q. split; [exact Hle|].
          split; [|exact Hr].
          intros _. now destruct (Hok static_analysis eq_refl). }
      intros results Hresults.
      split; [reflexivity|].
      assert (Results.file_info results = file_info_of host file_path size
              /\ Results.static_analysis results = Some static_analysis)
        as [Hinfo Hstatic].
      { destruct (fst (_get_file_behavior remote file_hash base_url headers _))
          as [behavior_data|e]; [|discriminate].
        destruct return_report.
        - destruct (_generate_report order _); [|discriminate].
          injection Hresults as <-. now split.
        - injection Hresults as <-. now split. }
      split; [exact Hinfo|]. exists static_analysis.
      split; [exact Hstatic|].
      destruct Hcases as [(_ & Hr & _) | (_ & analysis_id & q & _ & _ & Hok)].
      + now left.
      + right. now destruct (Hok static_analysis eq_refl).
    - (* the upload or the polling failed *)
      exists (lookup_trace ++ [lookup] ++ added), s, (requests added), false.
      split; [now rewrite <- !app_assoc|].
      split.
      { repeat (apply Forall_app; split); trivial.
        - repeat constructor.
        - constructor; [|constructor]. split; [reflexivity | now left]. }
      split; [rewrite !sleeps_app, Hs; reflexivity|].
      split; [rewrite !requests_app, app_nil_r; reflexivity|].
      split; [|discriminate].
      destruct Hcases as [(-> & Hr & _) | (_ & analysis_id & q & Hle & Hr & _)].
      + left. now split.
      + right. exists analysis_id, q. split; [exact Hle|].
        split; [discriminate | exact Hr]. }
  destruct (Response.status_code response =? 200).
  - destruct (Response.json response) as [report|];
      [apply Hgoes | apply Hfailed].
  - destruct (Response.status_code response =? 404);
      [apply Hgoes | apply Hfailed].
Qed.

Lemma uploads_requests (tr : trace) :
  uploads tr = length (filter is_post (requests tr)).
Proof.
  unfold uploads, requests. induction tr as [|e tr IH]; [reflexivity|].
  destruct e; cbn [filter is_post is_request length]; now rewrite ?IH.
Qed.

Lemma filter_post_repeat_get url headers (n : nat) :
  filter is_post (List.repeat (Get url headers) n) = [].
Proof. induction n as [|n IH]; [reflexivity | exact IH]. Qed.

Lemma slept_repeat (seconds : N) (n : nat) :
  forall tr, sleeps tr = List.repeat seconds n ->
             slept tr = (seconds * N.of_nat n)%N.
Proof.
  intros tr E. unfold slept. rewrite E. clear E.
  induction n as [|n IH]; [cbn; lia|].
  cbn [List.repeat fold_right]. rewrite IH. lia.
Qed.

(** X4.  Without a key, neither as an argument nor in the environment, the
    run raises the [ValueError] of line 24 before anything else happens: it
    prints nothing, sends nothing, and does not look at the file, which may
    as well not exist. *)
Theorem X4_missing_key :
  forall (order : SetOrder) (host : Host) (remote : Remote)
         (file_path : string) (return_report : bool) (tr0 : trace),
    VT_API_KEY host = None ->
    dy_file order host remote file_path None return_report tr0
    = (Raise (ValueError no_key_message), tr0).
Proof.
  intros order host remote file_path return_report tr0 H.
  rewrite dy_file_from. unfold key_of. now rewrite H.
Qed.

Lemma X4_witness :
  dy_file order_forward host_without_key remote_known "/tmp/sample.bin" None
    true []
  = (Raise (ValueError "VirusTotal API key not provided. Please provide api_key parameter or set VT_API_KEY environment variable."),
     []).
Proof.
  apply (X4_missing_key order_forward host_without_key remote_known
           "/tmp/sample.bin" true []).
  reflexivity.
Defined.

(** X5.  A path that has no size ([os.path.getsize] raises) or is no
    regular file ends the run with an error before any request is sent and
    before any wait.  With a key, a path that has a size and is no regular
    file (a directory) gives the [FileNotFoundError] of line 80 after the
    one line "Calculating file hashes...". *)
Theorem X5_no_request_without_file :
  forall (order : SetOrder) (host : Host) (remote : Remote)
         (file_path : string) (api_key : option string)
         (return_report : bool) (tr0 : trace),
    (isfile host file_path = false
     \/ exists e, getsize host file_path = Raise e) ->
    exists e added,
      dy_file order host remote file_path api_key return_report tr0
      = (Raise e, tr0 ++ added)
      /\ requests added = []
      /\ sleeps added = []
      /\ forall key size,
           key_of host api_key = Some key ->
           getsize host file_path = Ok size ->
           e = FileNotFoundError
                 ("The file " ++ file_path ++ " does not exist")%string
           /\ added = [Print "Calculating file hashes..."].
Proof.
  intros order host remote file_path api_key return_report tr0 H.
  rewrite dy_file_from.
  destruct (key_of host api_key) as [key|].
  - destruct (getsize host file_path) as [size|e] eqn:Hsize.
    + destruct H as [-> | [e He]]; [|discriminate].
      exists (FileNotFoundError ("The file " ++ file_path ++ " does not exist")%string),
        [Print "Calculating file hashes..."].
      repeat split; reflexivity.
    + exists e, []. rewrite app_nil_r. repeat split; discriminate.
  - exists (ValueError no_key_message), []. rewrite app_nil_r.
    repeat split; discriminate.
Qed.

Lemma X5_witness :
  dy_file order_forward host_with_directory remote_known "/tmp" None true []
  = (Raise (FileNotFoundError "The file /tmp does not exist"),
     [Print "Calculating file hashes..."]).
Proof.
  destruct (X5_no_request_without_file order_forward host_with_directory
              remote_known "/tmp" None true [])
    as (e & added & E & _ & _ & H).
  - left. reflexivity.
  - destruct (H "k3y"%string 4096 eq_refl eq_refl) as [-> ->]. exact E.
Defined.

(** X6.  Every request of a run goes to the service under the key of the
    run: it carries the headers with that key and
    "Accept: application/json"; a [GET] asks for the report or for the
    behaviour of the SHA-256 of the file, or for an analysis job; a [POST]
    is the upload of the file under its base name to [base_url/files]; and
    every wait is one of 30 seconds.  The key is the argument when there is
    one, else the one of the environment. *)
Theorem X6_requests_of_a_run :
  forall (order : SetOrder) (host : Host) (remote : Remote)
         (file_path : string) (api_key : option string)
         (return_report : bool) (key : string) (tr0 : trace),
    key_of host api_key = Some key ->
    exists added,
      snd (dy_file order host remote file_path api_key return_report tr0)
      = tr0 ++ added
      /\ Forall (workflow_event host file_path key) added.
Proof.
  intros order host remote file_path api_key return_report key tr0 Hkey.
  destruct (getsize host file_path) as [size|e] eqn:Hsize.
  - destruct (isfile host file_path) eqn:Hfile.
    + destruct (dy_file_shape order host remote file_path api_key
                  return_report key size tr0 Hkey Hsize Hfile)
        as (added & _ & _ & _ & E & Hall & _).
      now exists added.
    + rewrite dy_file_from, Hkey, Hsize, Hfile.
      exists [Print "Calculating file hashes..."].
      split; [reflexivity | repeat constructor].
  - rewrite dy_file_from, Hkey, Hsize. exists [].
    split; [now rewrite app_nil_r | constructor].
Qed.

Lemma X6_witness :
  exists added,
    snd (dy_file order_forward sample_host remote_third "/tmp/sample.bin"
           (Some "0ther") true [])
    = added
    /\ Forall (carries {| x_apikey := "0ther"; Accept := "application/json" |})
              added.
Proof.
  destruct (X6_requests_of_a_run order_forward sample_host remote_third
              "/tmp/sample.bin" (Some "0ther"%string) true "0ther" [] eq_refl)
    as (added & E & Hall).
  exists added. split; [exact E|].
  eapply Forall_impl; [|exact Hall].
  intros [line|u h|u h f|seconds]; cbn; tauto.
Defined.

(** X7.  Whatever the machine and the service, a run sends at most 13
    requests (the lookup, one upload, ten status queries, the behaviour
    query), uploads the file at most once, and waits at most ten times, 300
    seconds in all. *)
Theorem X7_run_budget :
  forall (order : SetOrder) (host : Host) (remote : Remote)
         (file_path : string) (api_key : option string)
         (return_report : bool) (tr0 : trace),
    exists added,
      snd (dy_file order host remote file_path api_key return_report tr0)
      = tr0 ++ added
      /\ (length (requests added) <= 13)%nat
      /\ (uploads added <= 1)%nat
      /\ (length (sleeps added) <= 10)%nat
      /\ (slept added <= 300)%N.
Proof.
  intros order host remote file_path api_key return_report tr0.
  assert (Hnone : forall e tr added,
            tr = tr0 ++ added ->
            requests added = [] -> sleeps added = [] ->
            exists added',
              snd (@Raise Results.t e, tr) = tr0 ++ added'
              /\ (length (requests added') <= 13)%nat
              /\ (uploads added' <= 1)%nat
              /\ (length (sleeps added') <= 10)%nat
              /\ (slept added' <= 300)%N).
  { intros e tr added -> Hr Hs. exists added.
    rewrite uploads_requests. unfold slept. rewrite Hr, Hs. cbn.
    split; [reflexivity | repeat apply conj; lia]. }
  destruct (key_of host api_key) as [key|] eqn:Hkey;
    [|rewrite dy_file_from, Hkey;
      apply (Hnone _ _ []); [now rewrite app_nil_r | reflexivity..]].
  destruct (getsize host file_path) as [size|e] eqn:Hsize;
    [|rewrite dy_file_from, Hkey, Hsize;
      apply (Hnone _ _ []); [now rewrite app_nil_r | reflexivity..]].
  destruct (isfile host file_path) eqn:Hfile;
    [|rewrite dy_file_from, Hkey, Hsize, Hfile;
      now apply (Hnone _ _ [Print "Calculating file hashes..."])].
  destruct (dy_file_shape order host remote file_path api_key return_report
              key size tr0 Hkey Hsize Hfile)
    as (added & s & middle & reached & E & _ & Hs & Hr & Hmiddle & _).
  exists added. split; [exact E|].
  rewrite uploads_requests, (slept_repeat 30 s added Hs), Hr, Hs.
  rewrite repeat_length.
  destruct Hmiddle as [[-> ->] | (analysis_id & q & Hle & _ & ->)].
  - destruct reached; cbn [filter is_post length app];
      repeat apply conj; lia.
  - cbn [filter is_post length app].
    rewrite filter_app, filter_post_repeat_get, !length_app, repeat_length.
    destruct reached; cbn [filter is_post length app];
      repeat apply conj; lia.
Qed.

(** X8.  The flag [return_report] changes nothing of what a run does on the
    machine and on the network: the run with the report is the run without
    it, followed by [_generate_report] on the results that run returns.  It
    fails where the run without the report fails, with the same error and
    the same trace; and where that run returns [results], it returns
    [results] with the report of [results] under "report", or the error of
    the generator. *)
Theorem X8_report_after_the_run :
  forall (order : SetOrder) (host : Host) (remote : Remote)
         (file_path : string) (api_key : option string) (tr0 : trace),
    dy_file order host remote file_path api_key true tr0
    = match dy_file order host remote file_path api_key false tr0 with
      | (Ok results, tr) =>
          (match _generate_report order results with
           | Ok report =>
               Ok {| Results.file_info := Results.file_info results;
                     Results.static_analysis := Results.static_analysis results;
                     Results.dynamic_analysis := Results.dynamic_analysis results;
                     Results.report := Some report |}
           | Raise e => Raise e
           end, tr)
      | (Raise e, tr) => (Raise e, tr)
      end.
Proof.
  intros order host remote file_path api_key tr0.
  rewrite !dy_file_from.
  destruct (key_of host api_key) as [key|]; [|reflexivity].
  destruct (getsize host file_path) as [size|e]; [|reflexivity].
  destruct (isfile host file_path); [|reflexivity].
  destruct (_get_file_report remote base_url (headers_of key)
              (Hashes.sha256 (digests host file_path)) (tr0 ++ lookup_trace))
    as [[existing|e] tr1]; [|reflexivity].
  destruct (obtain_static_analysis host remote file_path (headers_of key)
              existing tr1) as [[static_analysis|e] tr2]; [|reflexivity].
  rewrite !finish_run. cbv zeta.
  destruct (fst (_get_file_behavior remote _ base_url (headers_of key) _))
    as [behavior_data|e]; reflexivity.
Qed.

(** X9.  A run that returns had a key and a regular file; its results carry
    the name, size, path, time and digests of that file and a static
    report.  Its requests are, in this order: the lookup of the SHA-256 of
    the file; then either nothing, or the upload of the file followed by
    between one and ten status queries of one analysis job, in which case
    the static report shows the status "completed"; and last the behaviour
    query, for the same SHA-256. *)
Theorem X9_successful_run :
  forall (order : SetOrder) (host : Host) (remote : Remote)
         (file_path : string) (api_key : option string)
         (return_report : bool) (tr0 tr : trace) (results : Results.t),
    dy_file order host remote file_path api_key return_report tr0
    = (Ok results, tr) ->
    exists key size static_analysis added middle,
      key_of host api_key = Some key
      /\ getsize host file_path = Ok size
      /\ isfile host file_path = true
      /\ Results.file_info results = file_info_of host file_path size
      /\ Results.static_analysis results = Some static_analysis
      /\ tr = tr0 ++ added
      /\ requests added
         = Get (report_url base_url (Hashes.sha256 (digests host file_path)))
               (headers_of key)
           :: middle
           ++ [Get (behavior_url base_url
                      (Hashes.sha256 (digests host file_path)))
                   (headers_of key)]
      /\ (middle = []
          \/ (shows_completed static_analysis
              /\ exists analysis_id (q : nat),
                   (1 <= q <= 10)%nat
                   /\ middle
                      = Post (upload_url base_url) (headers_of key)
                          (basename host file_path)
                        :: List.repeat
                             (Get (analysis_url base_url analysis_id)
                                  (headers_of key)) q)).
Proof.
  intros order host remote file_path api_key return_report tr0 tr results Hrun.
  assert (exists key size,
             key_of host api_key = Some key
             /\ getsize host file_path = Ok size
             /\ isfile host file_path = true)
    as (key & size & Hkey & Hsize & Hfile).
  { rewrite dy_file_from in Hrun.
    destruct (key_of host api_key) as [key|]; [|discriminate].
    destruct (getsize host file_path) as [size|e]; [|discriminate].
    destruct (isfile host file_path); [|discriminate].
    now exists key, size. }
  destruct (dy_file_shape order host remote file_path api_key return_report
              key size tr0 Hkey Hsize Hfile)
    as (added & s & middle & reached & E & _ & _ & Hr & Hmiddle & Hok).
  rewrite Hrun in E, Hok. cbn [fst snd] in E, Hok.
  destruct (Hok results eq_refl) as (-> & Hinfo & static_analysis & Hstatic & Hc).
  exists key, size, static_analysis, added, middle.
  do 7 (split; [assumption|]).
  destruct Hmiddle as [[-> _] | (analysis_id & q & Hle & Hq & ->)];
    [now left|].
  right. destruct Hc as [Hc|Hc]; [discriminate|].
  split; [exact Hc|]. exists analysis_id, q.
  split; [specialize (Hq eq_refl); lia | reflexivity].
Qed.

Lemma X9_witness :
  exists middle,
    requests (snd (dy_file order_forward sample_host remote_third
                     "/tmp/sample.bin" None false []))
    = Get (report_url base_url "abc123") (headers_of "k3y")
      :: middle ++ [Get (behavior_url base_url "abc123") (headers_of "k3y")].
Proof.
  destruct (dy_file order_forward sample_host remote_third "/tmp/sample.bin"
              None false []) as [[results|e] tr] eqn:Hrun.
  - destruct (X9_successful_run _ _ _ _ _ _ _ _ _ Hrun)
      as (key & size & static_analysis & added & middle & Hkey & _ & _ & _ & _
          & E & Hr & _).
    injection Hkey as <-.
    exists middle. cbn [snd]. rewrite E. exact Hr.
  - vm_compute in Hrun. discriminate.
Defined.

(** ** The report, at its edges *)

Lemma Ok_inj {A : Type} (a b : A) : Ok a = Ok b -> a = b.
Proof. now intros [= ->]. Qed.

Lemma static_without_total (static_analysis : Report.t) :
  let stats := verdict_stats (Some static_analysis) in
  let total := dict_get (Stats.total stats) 0 in
  let malicious := dict_get (Stats.malicious stats) 0 in
  let suspicious := dict_get (Stats.suspicious stats) 0 in
  total <= 0 ->
  forall static,
    static_analysis_results (Some static_analysis) = Ok static ->
    static = []
    \/ nth_error static 3
       = Some ("Detection Rate: 0.00% ("
                 ++ of_int (malicious + suspicious) ++ "/"
                 ++ of_int total ++ ")")%string.
Proof.
  unfold static_analysis_results, verdict_stats. cbv zeta.
  destruct (ReportData.attributes (Report.data static_analysis)) as [attrs|];
    [|intros _ static [= <-]; now left].
  cbn [dict_get].
  destruct (Attrs.stats attrs) as [stats|];
    [|intros _ static [= <-]; now left].
  cbn [dict_get]. intros Htotal static.
  unfold detection_statistics, detection_rate.
  destruct (Z.gtb_spec (dict_get (Stats.total stats) 0) 0); [lia|].
  rewrite bind_result. cbn [ret Monad_result].
  intros Hstatic. apply Ok_inj in Hstatic. subst static. right.
  cbn [nth_error]. unfold detection_rate_line. rewrite of_int_0. reflexivity.
Qed.

(** X10.  When the static report counts no engine (its [total] is absent,
    zero or negative, or it has no [attributes] or no [stats]), nothing is
    divided: the rate is 0, which prints as "0.00", and the verdict is
    UNKNOWN RISK whatever the other counts are.  Every report the generator
    returns for such results ends with UNKNOWN RISK, and its statistics
    block, when it has one, shows the rate "0.00%". *)
Theorem X10_no_positive_total :
  forall (order : SetOrder) (analysis_results : Results.t)
         (static_analysis : Report.t),
    Results.static_analysis analysis_results = Some static_analysis ->
    let stats := verdict_stats (Some static_analysis) in
    let total := dict_get (Stats.total stats) 0 in
    let malicious := dict_get (Stats.malicious stats) 0 in
    let suspicious := dict_get (Stats.suspicious stats) 0 in
    total <= 0 ->
    detection_rate total malicious suspicious = Ok (PyFloat.of_int 0)
    /\ PyFloat.format_2f (PyFloat.of_int 0) = "0.00"%string
    /\ overall_verdict (Some static_analysis) = Ok UNKNOWN_RISK
    /\ forall report,
         report_lines order analysis_results = Ok report ->
         exists static,
           report
           = file_information (Results.file_info analysis_results)
               ++ static
               ++ dynamic_analysis_results order
                    (Results.dynamic_analysis analysis_results)
               ++ conclusion_header ++ [UNKNOWN_RISK]
           /\ (static = []
               \/ nth_error static 3
                  = Some ("Detection Rate: 0.00% ("
                            ++ of_int (malicious + suspicious) ++ "/"
                            ++ of_int total ++ ")")%string).
Proof.
  intros order analysis_results static_analysis Hpresent stats total malicious
         suspicious Htotal.
  assert (Hverdict : overall_verdict (Some static_analysis) = Ok UNKNOWN_RISK).
  { unfold overall_verdict, verdict_of. fold stats total.
    destruct (Z.gtb_spec total 0); [lia | reflexivity]. }
  split.
  { unfold detection_rate. destruct (Z.gtb_spec total 0); [lia | reflexivity]. }
  split; [rewrite of_int_0; reflexivity|].
  split; [exact Hverdict|].
  intros report Hreport.
  rewrite report_lines_sections, Hpresent, Hverdict in Hreport.
  destruct (static_analysis_results (Some static_analysis))
    as [static|e] eqn:Hstatic; [|discriminate].
  apply Ok_inj in Hreport. exists static. split; [now symmetry|].
  exact (static_without_total static_analysis Htotal static Hstatic).
Qed.

Lemma X10_witness :
  exists report,
    report_lines order_forward no_engine_results = Ok report
    /\ In "Detection Rate: 0.00% (5/0)"%string report
    /\ last report ""%string = UNKNOWN_RISK.
Proof.
  destruct (X10_no_positive_total order_forward no_engine_results
              (report_of (Some "completed"%string) (Some (stats_of 0 5 0 0)))
              eq_refl)
    as (_ & _ & _ & Hshape).
  - cbn. lia.
  - destruct (report_lines order_forward no_engine_results)
      as [report|e] eqn:E; [|vm_compute in E; discriminate].
    exists report. split; [reflexivity|].
    destruct (Hshape report eq_refl) as (static & -> & Hline).
    split.
    + destruct Hline as [->|Hline];
        [vm_compute in E; discriminate|].
      apply in_or_app. right. apply in_or_app. left.
      exact (nth_error_In _ _ Hline).
    + rewrite !app_assoc. apply last_last.
Defined.

Lemma listing_bound {A : Type} (title : string) (line : A -> string)
    (xs : list A) :
  (length (listing title line xs) <= 11)%nat.
Proof. rewrite listing_length. destruct xs; lia. Qed.

Lemma sandbox_report_bound (i : nat) (sandbox : Sandbox.t) :
  (2 <= length (sandbox_report i sandbox) <= 57)%nat.
Proof.
  unfold sandbox_report. cbv zeta. rewrite !length_app. cbn [length].
  pose proof (listing_bound "Processes Created:" process_line
                (processes_of sandbox)).
  pose proof (listing_bound "DNS Requests:" dns_line (dns_requests_of sandbox)).
  pose proof (listing_bound "HTTP Requests:" http_line
                (http_requests_of sandbox)).
  pose proof (listing_bound "Registry Keys Modified:" item_line
                (keys_set_of sandbox)).
  pose proof (listing_bound "Files Written:" item_line
                (files_written_of sandbox)).
  unfold processes_of, dns_requests_of, http_requests_of, keys_set_of,
    files_written_of, sandbox_attrs in *.
  lia.
Qed.

Lemma sandbox_reports_bound (records : list Sandbox.t) :
  forall i,
    (length (flat_map (fun '(i, sandbox) => sandbox_report i sandbox)
                      (enumerate_from i records))
     <= 57 * length records)%nat.
Proof.
  induction records as [|sandbox rest IH]; intros i; [cbn; lia|].
  cbn [enumerate_from flat_map length]. rewrite length_app.
  pose proof (sandbox_report_bound i sandbox). specialize (IH (S i)). lia.
Qed.

Lemma flags_of_known (sandbox : Sandbox.t) (flag : string) :
  In flag (flags_of sandbox) ->
  In flag [flag_injection; flag_persistence; flag_network].
Proof.
  unfold flags_of.
  destruct (injects sandbox), (persists sandbox), (communicates sandbox);
    cbn; tauto.
Qed.

(** The summary has one line at least and, as there are three flags, three
    at most. *)
Lemma summary_flags_bound order (dynamic_data : list Sandbox.t) :
  (1 <= length (summary_flags order dynamic_data) <= 3)%nat.
Proof.
  unfold summary_flags.
  pose proof (list_of_set_NoDup order (scan_behaviors dynamic_data)) as Hnd.
  assert (Hincl : incl (list_of_set order (scan_behaviors dynamic_data))
                       [flag_injection; flag_persistence; flag_network]).
  { intros flag Hin.
    apply (proj1 (list_of_set_In order _ flag)) in Hin.
    apply in_scan_behaviors in Hin as (sandbox & _ & Hflag).
    now apply (flags_of_known sandbox). }
  pose proof (NoDup_incl_length Hnd Hincl) as Hlen. cbn [length] in Hlen.
  destruct (list_of_set order (scan_behaviors dynamic_data)) as [|b bs];
    cbn [truthy]; [cbn; lia|].
  rewrite length_map. cbn [length] in *. lia.
Qed.

Lemma dynamic_analysis_results_bound order
    (dynamic_analysis : option Behavior.t) :
  (length (dynamic_analysis_results order dynamic_analysis) <= 178)%nat.
Proof.
  unfold dynamic_analysis_results.
  destruct dynamic_analysis as [da|]; [|cbn; lia].
  destruct (Behavior.data da) as [|s rest] eqn:E; [cbn; lia|].
  cbn [truthy andb]. rewrite <- E.
  rewrite !length_app.
  pose proof (sandbox_reports_bound (firstn 3 (Behavior.data da)) 0) as Hb.
  fold (enumerate (firstn 3 (Behavior.data da))) in Hb.
  pose proof (length_firstn 3 (Behavior.data da)) as Hf.
  assert (length (if Z.of_nat (length (Behavior.data da)) >? 0
                  then behavioral_summary order (Behavior.data da)
                  else []) <= 4)%nat.
  { destruct (Z.of_nat (length (Behavior.data da)) >? 0); [|cbn; lia].
    rewrite behavioral_summary_flags. cbn [length].
    pose proof (summary_flags_bound order (Behavior.data da)). lia. }
  change (length dynamic_header) with 3%nat. lia.
Qed.

(** X11.  The list of entries the generator joins is short whatever the
    size of the documents: 17 entries at least (the file information and
    the conclusion) and 203 at most, as the statistics are one block of 8,
    the dynamic section shows three records with five listings of ten items
    each at most, and the summary has three flags at most. *)
Theorem X11_report_size :
  forall (order : SetOrder) (analysis_results : Results.t)
         (report : list string),
    report_lines order analysis_results = Ok report ->
    (17 <= length report <= 203)%nat.
Proof.
  intros order analysis_results report Hreport.
  rewrite report_lines_sections in Hreport.
  destruct (static_analysis_results (Results.static_analysis analysis_results))
    as [static|e] eqn:Hstatic; [|discriminate].
  destruct (overall_verdict (Results.static_analysis analysis_results))
    as [verdict|e]; [|discriminate].
  apply Ok_inj in Hreport. subst report.
  assert (length static <= 8)%nat.
  { unfold static_analysis_results in Hstatic.
    destruct (Results.static_analysis analysis_results) as [sa|];
      [|injection Hstatic as <-; cbn; lia].
    destruct (ReportData.attributes (Report.data sa)) as [attrs|];
      [|injection Hstatic as <-; cbn; lia].
    destruct (Attrs.stats attrs) as [stats|];
      [|injection Hstatic as <-; cbn; lia].
    unfold detection_statistics in Hstatic. rewrite bind_result in Hstatic.
    destruct (detection_rate _ _ _); [|discriminate].
    injection Hstatic as <-. cbn [length]. lia. }
  pose proof (dynamic_analysis_results_bound order
                (Results.dynamic_analysis analysis_results)).
  rewrite !length_app.
  change (length (file_information (Results.file_info analysis_results)))
    with 13%nat.
  change (length conclusion_header) with 3%nat. cbn [length]. lia.
Qed.

Lemma X11_witness :
  exists report,
    report_lines order_forward two_flag_results = Ok report
    /\ (17 <= length report <= 203)%nat.
Proof.
  destruct (report_lines order_forward two_flag_results) as [report|e] eqn:E.
  - exists report. split; [reflexivity|].
    exact (X11_report_size order_forward two_flag_results report E).
  - vm_compute in E. discriminate.
Defined.

(** ** The flags of the summary *)

Lemma prefix_spec (needle hay : string) :
  String.prefix needle hay = true
  <-> exists after, hay = (needle ++ after)%string.
Proof.
  revert hay. induction needle as [|c needle IH]; intros hay.
  - split; [intros _; now exists hay | now destruct hay].
  - destruct hay as [|d hay]; cbn;
      [split; [discriminate | intros [? [=]]]|].
    destruct (ascii_dec c d) as [->|Hne].
    + rewrite IH. split; intros [after E]; exists after.
      * now rewrite E.
      * now injection E.
    + split; [discriminate|]. intros [after E]. injection E as <- _.
      contradiction.
Qed.

(** [needle in hay] holds exactly of the substrings of [hay]. *)
Lemma contains_spec (needle hay : string) :
  contains needle hay = true <-> substring_of needle hay.
Proof.
  unfold substring_of. induction hay as [|d hay IH].
  - cbn [contains].
    destruct (String.prefix needle "") eqn:Ep.
    + split; [intros _|reflexivity].
      apply prefix_spec in Ep as [after E]. now exists ""%string, after.
    + split; [discriminate|]. intros (before & after & E).
      destruct before; [|discriminate]. cbn in E.
      assert (String.prefix needle "" = true) as Ht
        by (apply prefix_spec; now exists after).
      congruence.
  - cbn [contains].
    destruct (String.prefix needle (String d hay)) eqn:Ep.
    + split; [intros _|reflexivity].
      apply prefix_spec in Ep as [after E]. now exists ""%string, after.
    + rewrite IH. split; intros (before & after & E).
      * exists (String d before), after. cbn. now rewrite E.
      * destruct before as [|b before].
        -- cbn in E.
           assert (String.prefix needle (String d hay) = true) as Ht
             by (apply prefix_spec; now exists after).
           congruence.
        -- cbn in E. injection E as _ E. now exists before, after.
Qed.

Lemma in_flags_of (sandbox : Sandbox.t) :
  (In flag_injection (flags_of sandbox) <-> injects sandbox = true)
  /\ (In flag_persistence (flags_of sandbox) <-> persists sandbox = true)
  /\ (In flag_network (flags_of sandbox) <-> communicates sandbox = true).
Proof.
  unfold flags_of.
  destruct (injects sandbox), (persists sandbox), (communicates sandbox);
    cbn; repeat split; intros H; try reflexivity; try discriminate;
    try tauto;
    repeat (destruct H as [H|H]; try discriminate H); try contradiction.
Qed.

(** A flag line is in the summary exactly when some record raises the
    flag. *)
Lemma flag_line_iff order (dynamic_data : list Sandbox.t) (flag : string) :
  In flag [flag_injection; flag_persistence; flag_network] ->
  In (item_line flag) (behavioral_summary order dynamic_data)
  <-> exists sandbox, In sandbox dynamic_data /\ In flag (flags_of sandbox).
Proof.
  intros Hflag. rewrite behavioral_summary_flags. split.
  - intros [Htitle|Hin].
    + exfalso. destruct Hflag as [<-|[<-|[<-|[]]]]; discriminate Htitle.
    + unfold summary_flags in Hin.
      destruct (list_of_set order (scan_behaviors dynamic_data)) as [|b bs] eqn:E.
      * exfalso. destruct Hin as [Hin|[]].
        destruct Hflag as [<-|[<-|[<-|[]]]]; discriminate Hin.
      * cbn [truthy] in Hin. apply in_map_iff in Hin as (flag' & Heq & Hin).
        apply item_line_inj in Heq. subst flag'. rewrite <- E in Hin.
        apply (proj1 (list_of_set_In order _ flag)) in Hin.
        now apply in_scan_behaviors.
  - intros H. right. now apply in_summary_flags.
Qed.

(** X12.  The behavioural summary shows a flag exactly when some record of
    the list, at any position, raises it: "Process injection detected" when
    a process name has "injection" as a substring once in lower case;
    "Persistence mechanism detected (autorun registry keys)" when a
    registry key written has "run" or "startup" as a substring once in
    lower case; "Network communication detected" when a record has an HTTP
    request.  The line "No significant suspicious behaviors detected" is
    there exactly when no record raises a flag. *)
Theorem X12_flags_exact :
  forall (order : SetOrder) (dynamic_data : list Sandbox.t),
    let summary := behavioral_summary order dynamic_data in
    (In (item_line flag_injection) summary
     <-> exists sandbox proc,
           In sandbox dynamic_data /\ In proc (processes_of sandbox)
           /\ substring_of "injection"
                (lower (dict_get (Process.name proc) "")))
    /\ (In (item_line flag_persistence) summary
        <-> exists sandbox key,
              In sandbox dynamic_data /\ In key (keys_set_of sandbox)
              /\ (substring_of "run" (lower key)
                  \/ substring_of "startup" (lower key)))
    /\ (In (item_line flag_network) summary
        <-> exists sandbox,
              In sandbox dynamic_data /\ http_requests_of sandbox <> [])
    /\ (In no_behaviors_line summary
        <-> forall sandbox, In sandbox dynamic_data -> flags_of sandbox = []).
Proof.
  intros order dynamic_data summary. subst summary.
  split; [|split; [|split]].
  - rewrite flag_line_iff by (cbn; tauto).
    split.
    + intros (sandbox & Hin & Hflag).
      apply (proj1 (in_flags_of sandbox)) in Hflag.
      unfold injects in Hflag. apply existsb_exists in Hflag as (proc & Hp & Hn).
      exists sandbox, proc. split; [exact Hin|]. split; [exact Hp|].
      now apply contains_spec.
    + intros (sandbox & proc & Hin & Hp & Hn).
      exists sandbox. split; [exact Hin|].
      apply (proj1 (in_flags_of sandbox)). unfold injects.
      apply existsb_exists. exists proc. split; [exact Hp|].
      now apply contains_spec.
  - rewrite flag_line_iff by (cbn; tauto).
    split.
    + intros (sandbox & Hin & Hflag).
      apply (proj1 (proj2 (in_flags_of sandbox))) in Hflag.
      unfold persists in Hflag. apply existsb_exists in Hflag as (key & Hk & Hn).
      exists sandbox, key. split; [exact Hin|]. split; [exact Hk|].
      unfold names_autorun in Hn. apply orb_true_iff in Hn.
      now rewrite <- !contains_spec.
    + intros (sandbox & key & Hin & Hk & Hn).
      exists sandbox. split; [exact Hin|].
      apply (proj1 (proj2 (in_flags_of sandbox))). unfold persists.
      apply existsb_exists. exists key. split; [exact Hk|].
      unfold names_autorun. apply orb_true_iff.
      now rewrite !contains_spec.
  - rewrite flag_line_iff by (cbn; tauto).
    split.
    + intros (sandbox & Hin & Hflag).
      apply (proj2 (proj2 (in_flags_of sandbox))) in Hflag.
      exists sandbox. split; [exact Hin|].
      unfold communicates in Hflag.
      now destruct (http_requests_of sandbox).
    + intros (sandbox & Hin & Hne).
      exists sandbox. split; [exact Hin|].
      apply (proj2 (proj2 (in_flags_of sandbox))). unfold communicates.
      now destruct (http_requests_of sandbox).
  - rewrite behavioral_summary_flags. unfold summary_flags. split.
    + intros [Htitle|Hin]; [discriminate Htitle|].
      intros sandbox Hs.
      destruct (list_of_set order (scan_behaviors dynamic_data)) as [|b bs] eqn:E.
      * destruct (flags_of sandbox) as [|flag rest] eqn:Ef; [reflexivity|].
        exfalso.
        assert (Hraised : In flag (scan_behaviors dynamic_data)).
        { apply in_scan_behaviors. exists sandbox. split; [exact Hs|].
          rewrite Ef. now left. }
        apply (proj2 (list_of_set_In order _ flag)) in Hraised.
        now rewrite E in Hraised.
      * exfalso. cbn [truthy] in Hin.
        apply in_map_iff in Hin as (flag & Heq & Hin).
        rewrite <- E in Hin.
        apply (proj1 (list_of_set_In order _ flag)) in Hin.
        apply in_scan_behaviors in Hin as (s & _ & Hflag).
        apply flags_of_known in Hflag.
        destruct Hflag as [<-|[<-|[<-|[]]]]; discriminate Heq.
    + intros Hquiet. right.
      rewrite (scan_behaviors_quiet dynamic_data Hquiet).
      destruct (list_of_set order []) as [|b bs] eqn:El; [now left|].
      assert (Hb : In b (list_of_set order [])) by (rewrite El; now left).
      apply (proj1 (list_of_set_In order [] b)) in Hb. destruct Hb.
Qed.

(** ** The digests of a file read in chunks *)

Lemma chunk_size_pos : (0 < chunk_size)%nat.
Proof. unfold chunk_size. lia. Qed.

Lemma for_each_chunk_step {State : Type}
    (body : State -> list Byte.byte -> State)
    (fuel : nat) (f : list Byte.byte) (s : State) :
  for_each_chunk body (S fuel) f s
  = match firstn chunk_size f with
    | [] => Some s
    | _ :: _ =>
        for_each_chunk body fuel (skipn chunk_size f)
          (body s (firstn chunk_size f))
    end.
Proof. reflexivity. Qed.

Lemma firstn_nil_inv {A : Type} (n : nat) (l : list A) :
  (0 < n)%nat -> firstn n l = [] -> l = [].
Proof. destruct n, l; cbn; intros; try lia; congruence. Qed.

(** The loop is a fold over the chunks of the file: the chunks are not
    empty, make up the content, and all but the last are full. *)
Lemma for_each_chunk_fold (fuel : nat) :
  forall (f : list Byte.byte),
    (length f < fuel)%nat ->
    exists chunks,
      concat chunks = f
      /\ Forall (fun chunk => (1 <= length chunk <= chunk_size)%nat) chunks
      /\ Forall (fun chunk => length chunk = chunk_size) (removelast chunks)
      /\ forall (State : Type) (body : State -> list Byte.byte -> State)
             (s : State),
           for_each_chunk body fuel f s = Some (fold_left body chunks s).
Proof.
  pose proof chunk_size_pos as Hpos.
  induction fuel as [|fuel IH]; intros f Hlen; [lia|].
  destruct (firstn chunk_size f) as [|b chunk] eqn:E.
  - apply (firstn_nil_inv _ _ Hpos) in E. subst f.
    exists []. split; [reflexivity|]. split; [constructor|].
    split; [constructor|].
    intros State body s. rewrite for_each_chunk_step. now rewrite firstn_nil.
  - assert (Hf : f <> []) by (intros ->; now rewrite firstn_nil in E).
    assert (Hskip : (length (skipn chunk_size f) < fuel)%nat).
    { rewrite length_skipn. destruct f; [contradiction|]. cbn [length] in *.
      lia. }
    destruct (IH (skipn chunk_size f) Hskip)
      as (chunks & Hconcat & Hbounds & Hfull & Hfold).
    exists (firstn chunk_size f :: chunks).
    split; [cbn [concat]; rewrite Hconcat; apply firstn_skipn|].
    split.
    { constructor; [|exact Hbounds]. split.
      - rewrite E. cbn [length]. lia.
      - rewrite length_firstn. lia. }
    split.
    { destruct chunks as [|c chunks]; [constructor|].
      change (removelast (firstn chunk_size f :: c :: chunks))
        with (firstn chunk_size f :: removelast (c :: chunks)).
      constructor; [|exact Hfull].
      rewrite length_firstn. apply Nat.min_l.
      (* a chunk follows: the rest of the file is not empty *)
      assert (Hrest : skipn chunk_size f <> []).
      { rewrite <- Hconcat. inversion Hbounds as [|? ? Hc _]. subst.
        destruct c; [cbn in Hc; lia | discriminate]. }
      destruct (Nat.le_gt_cases chunk_size (length f)) as [Hle|Hgt];
        [exact Hle|].
      exfalso. apply Hrest. apply skipn_all2. lia. }
    intros State body s. rewrite for_each_chunk_step, E, <- E.
    apply Hfold.
Qed.

(** X13.  The hashing loop reads the file in chunks that make up its
    content in order, none of them empty, each of 4096 bytes at most and
    all but the last of exactly 4096 bytes; it ends (one read more than the
    file has bytes is enough), and what it computes is the body of the loop
    folded over these chunks. *)
Theorem X13_chunks_make_up_the_file :
  forall (content : list Byte.byte),
    exists chunks,
      concat chunks = content
      /\ Forall (fun chunk => (1 <= length chunk <= 4096)%nat) chunks
      /\ Forall (fun chunk => length chunk = 4096%nat) (removelast chunks)
      /\ forall (State : Type) (body : State -> list Byte.byte -> State)
             (s : State),
           for_each_chunk body (S (length content)) content s
           = Some (fold_left body chunks s).
Proof.
  intros content.
  exact (for_each_chunk_fold (S (length content)) content
           (Nat.lt_succ_diag_r _)).
Qed.

Lemma fold_left_concatenates {State : Type}
    (body : State -> list Byte.byte -> State) :
  (forall s a b, body (body s a) b = body s (a ++ b)) ->
  (forall s, body s [] = s) ->
  forall chunks s, fold_left body chunks s = body s (concat chunks).
Proof.
  intros Happ Hnil chunks.
  induction chunks as [|chunk chunks IH]; intros s; cbn [fold_left concat].
  - now rewrite Hnil.
  - now rewrite IH, Happ.
Qed.

(** X14.  With hash objects that keep the promise of [hashlib] (feeding
    two pieces one after the other is feeding their concatenation), the
    three digests computed chunk by chunk are the digests of the whole
    content fed in one piece: the size of the chunks does not show in the
    result, and the empty file gets the digests of the empty input. *)
Theorem X14_chunked_digests :
  forall (md5 sha1 sha256 : Hasher) (content : list Byte.byte),
    concatenates md5 -> concatenates sha1 -> concatenates sha256 ->
    hash_content md5 sha1 sha256 content
    = Some {| Hashes.md5 := digest md5 content;
              Hashes.sha1 := digest sha1 content;
              Hashes.sha256 := digest sha256 content |}.
Proof.
  intros md5 sha1 sha256 content [Hmd5 Hmd5'] [Hsha1 Hsha1'] [Hsha256 Hsha256'].
  unfold hash_content.
  destruct (for_each_chunk_fold (S (length content)) content
              (Nat.lt_succ_diag_r _)) as (chunks & Hconcat & _ & _ & Hfold).
  rewrite Hfold.
  rewrite (fold_left_concatenates (update_all md5 sha1 sha256)).
  - rewrite Hconcat. reflexivity.
  - intros s a b. unfold update_all. cbn.
    now rewrite Hmd5, Hsha1, Hsha256.
  - intros [m s1 s2]. unfold update_all. cbn.
    now rewrite Hmd5', Hsha1', Hsha256'.
Qed.

Lemma checksum_concatenates (modulus : N) : concatenates (checksum modulus).
Proof.
  split.
  - intros s a b. cbn. now rewrite fold_left_app.
  - reflexivity.
Qed.

Lemma X14_witness :
  hash_content (checksum 256) (checksum 65536) (checksum 251)
    (List.repeat Byte.xff 4100)
  = Some {| Hashes.md5 := "252"; Hashes.sha1 := "62460"; Hashes.sha256 := "85" |}.
Proof.
  rewrite (X14_chunked_digests (checksum 256) (checksum 65536) (checksum 251)
             (List.repeat Byte.xff 4100)
             (checksum_concatenates 256) (checksum_concatenates 65536)
             (checksum_concatenates 251)).
  vm_compute. reflexivity.
Defined.
